(** * SplitPDFTool: page geometry and batch orchestration

    A shallow embedding of [SplitPDFTool.py].  Images are modelled by
    their size and a pixel function, a directory by its listing (an
    association list in listing order), the target directories by a finite
    map, and every function of the script that touches the disk by a
    state-passing computation that may raise. *)

From Stdlib Require Import ZArith List String Ascii Bool Lia.
From stdpp Require Import base gmap strings.
Import ListNotations.

Local Open Scope string_scope.
Local Open Scope Z_scope.

(** ** Strings: the fragment of [str] and [pathlib] the script uses *)

Module Str.

(** [sub in s] of Python. *)
Fixpoint contains (sub s : string) : bool :=
  String.prefix sub s ||
  match s with
  | EmptyString => false
  | String _ s' => contains sub s'
  end.

(** [s.rfind(c)], [None] standing for -1. *)
Fixpoint rfind (c : ascii) (s : string) : option nat :=
  match s with
  | EmptyString => None
  | String a s' =>
      match rfind c s' with
      | Some i => Some (S i)
      | None => if Ascii.eqb a c then Some 0%nat else None
      end
  end.

(** [s.split(c)[0]]: the part before the first [c]. *)
Fixpoint before (c : ascii) (s : string) : string :=
  match s with
  | EmptyString => EmptyString
  | String a s' => if Ascii.eqb a c then EmptyString else String a (before c s')
  end.

(** [PurePath.stem]: the name without its last suffix; a leading or a
    trailing dot does not start a suffix. *)
Definition stem (name : string) : string :=
  match rfind "." name with
  | Some i =>
      if (0 <? i)%nat && (i <? String.length name - 1)%nat
      then String.substring 0 i name
      else name
  | None => name
  end.

(** Matching of a file name against a [glob] pattern whose only
    metacharacter is the star, as in the three patterns of the script. *)
Fixpoint glob_match (pat s : string) : bool :=
  match pat with
  | EmptyString => match s with EmptyString => true | _ => false end
  | String c pat' =>
      if Ascii.eqb c "*" then
        (fix star (t : string) : bool :=
           glob_match pat' t ||
           match t with
           | EmptyString => false
           | String _ t' => star t'
           end) s
      else
        match s with
        | EmptyString => false
        | String d s' => Ascii.eqb c d && glob_match pat' s'
        end
  end.

(** Is every character a dot. *)
Fixpoint all_dots (s : string) : bool :=
  match s with
  | EmptyString => true
  | String a s' => Ascii.eqb a "." && all_dots s'
  end.

(** [os.path.splitext(name)[1]]: the name from its last dot on; empty
    when the name has no dot or only dots before the last one. *)
Definition splitext (name : string) : string :=
  match rfind "." name with
  | Some i =>
      if all_dots (String.substring 0 i name) then EmptyString
      else String.substring i (String.length name - i) name
  | None => EmptyString
  end.

Definition lower_char (a : ascii) : ascii :=
  let n := nat_of_ascii a in
  if (65 <=? n)%nat && (n <=? 90)%nat then ascii_of_nat (n + 32) else a.

(** [s.lower()] on the letters of ASCII. *)
Fixpoint lower (s : string) : string :=
  match s with
  | EmptyString => EmptyString
  | String a s' => String (lower_char a) (lower s')
  end.

Definition is_digit (a : ascii) : bool :=
  let n := nat_of_ascii a in (48 <=? n)%nat && (n <=? 57)%nat.

Definition digit_val (a : ascii) : Z := Z.of_nat (nat_of_ascii a) - 48.

(** The white space [int] strips from an ASCII string: tab, line feed,
    vertical tab, form feed, carriage return and the space. *)
Definition is_space (a : ascii) : bool :=
  let n := nat_of_ascii a in
  ((9 <=? n)%nat && (n <=? 13)%nat) || (n =? 32)%nat.

Fixpoint lstrip (s : string) : string :=
  match s with
  | String a s' => if is_space a then lstrip s' else s
  | EmptyString => s
  end.

(** The digits of a literal after its first digit: single underscores
    may separate digits, white space may follow the last one. *)
Fixpoint int_digits (acc : Z) (s : string) : option Z :=
  match s with
  | EmptyString => Some acc
  | String a s' =>
      if is_digit a then int_digits (10 * acc + digit_val a) s'
      else if Ascii.eqb a "_" then
        match s' with
        | String b s'' =>
            if is_digit b then int_digits (10 * acc + digit_val b) s'' else None
        | EmptyString => None
        end
      else if is_space a then
        match lstrip s' with EmptyString => Some acc | _ => None end
      else None
  end.

Definition int_unsigned (s : string) : option Z :=
  match s with
  | String a s' => if is_digit a then int_digits (digit_val a) s' else None
  | EmptyString => None
  end.

(** [int(s)] on a string of ASCII characters, as the names the script
    gives to its page images are: [None] stands for [ValueError]. *)
Definition python_int (s : string) : option Z :=
  match lstrip s with
  | String "-" s' => option_map Z.opp (int_unsigned s')
  | String "+" s' => int_unsigned s'
  | s' => int_unsigned s'
  end.

Definition digit_char (d : Z) : ascii := ascii_of_nat (Z.to_nat (48 + d)).

(** The decimal digits of a natural number, most significant first;
    [fuel] bounds the number of digits. *)
Fixpoint dec_digits (fuel : nat) (n : Z) (acc : string) : string :=
  match fuel with
  | O => acc
  | S fuel' =>
      let acc' := String (digit_char (n mod 10)) acc in
      if (n <? 10)%Z then acc' else dec_digits fuel' (n / 10) acc'
  end.

(** [f"{n}"] for an [int]. *)
Definition format_d (n : Z) : string :=
  if (n <? 0)%Z then String "-" (dec_digits (S (Z.to_nat (Z.log2 (- n)))) (- n) "")
  else dec_digits (S (Z.to_nat (Z.log2 n))) n "".

(** [f"{n:02d}"]: at least two characters, padded with zeros after the
    sign. *)
Definition format_02d (n : Z) : string :=
  if (n <? 0)%Z then format_d n
  else if (n <? 10)%Z then String "0" (format_d n)
  else format_d n.

End Str.

(** ** Exceptions and state-passing computations *)

(** The exceptions, by their classes in Python; [RasterizerError],
    [RegexError] and [EncoderError] stand for the errors of [pdf2image],
    of [re.compile] and of the image encoders of [PIL], whatever their
    classes. *)
Inductive Exn : Type :=
| ZeroDivisionError
| ValueError
| TypeError
| FileNotFoundError
| FileExistsError
| UnidentifiedImageError
| OSError
| RasterizerError
| RegexError
| EncoderError.

Inductive Res (A : Type) : Type :=
| Ok (a : A)
| Raise (e : Exn).

Arguments Ok {A} a.
Arguments Raise {A} e.

(** A computation over a store [S]: it returns or raises, and leaves a
    store behind in both cases (an exception rolls nothing back). *)
Definition M (S A : Type) : Type := S -> Res A * S.

Definition ret {S A} (a : A) : M S A := fun s => (Ok a, s).

Definition raise {S A} (e : Exn) : M S A := fun s => (Raise e, s).

Definition bind {S A B} (c : M S A) (k : A -> M S B) : M S B :=
  fun s =>
    match c s with
    | (Ok a, s') => k a s'
    | (Raise e, s') => (Raise e, s')
    end.

Definition lift {S A} (r : Res A) : M S A := fun s => (r, s).

Definition get {S} : M S S := fun s => (Ok s, s).

Definition modify {S} (f : S -> S) : M S unit := fun s => (Ok tt, f s).

Notation "'let*' x ':=' c 'in' k" := (bind c (fun x => k))
  (at level 10, x name, c at level 100, k at level 200).

Notation "c ';;' k" := (bind c (fun _ => k))
  (at level 100, k at level 200, right associativity).

(** A [for] loop over a list already materialised: the body runs on each
    element in turn and the first exception ends the loop. *)
Fixpoint for_each {S A} (xs : list A) (body : A -> M S unit) : M S unit :=
  match xs with
  | [] => ret tt
  | x :: xs' => body x ;; for_each xs' body
  end.

(** [a // b] on [int]. *)
Definition floordiv (a b : Z) : Res Z :=
  if b =? 0 then Raise ZeroDivisionError else Ok (a / b).

(** ** Images, files and directories *)

Definition Color : Type := Z * Z * Z.

(** A raster image: its [size] and the colour of each pixel. *)
Record Image : Type := {
  width : Z;
  height : Z;
  getpixel : Z -> Z -> Color
}.

Definition inside (img : Image) (x y : Z) : bool :=
  (0 <=? x) && (x <? width img) && (0 <=? y) && (y <? height img).

(** [Image.crop(box)] for a box (left, upper, right, lower): an inverted
    box is refused; the part of the box outside the image is filled with
    zeros. *)
Definition Image_crop (img : Image) (box : Z * Z * Z * Z) : Res Image :=
  let '(x0, y0, x1, y1) := box in
  if x1 <? x0 then Raise ValueError
  else if y1 <? y0 then Raise ValueError
  else Ok {| width := x1 - x0;
             height := y1 - y0;
             getpixel := fun x y =>
               if inside img (x + x0) (y + y0)
               then getpixel img (x + x0) (y + y0)
               else (0, 0, 0) |}.

(** [Image.new("RGB", size, color)]. *)
Definition Image_new (size : Z * Z) (color : Color) : Image :=
  {| width := fst size; height := snd size; getpixel := fun _ _ => color |}.

(** [canvas.paste(img, (0, 0))]: the canvas keeps its size. *)
Definition Image_paste (canvas img : Image) : Image :=
  {| width := width canvas;
     height := height canvas;
     getpixel := fun x y =>
       if inside img x y then getpixel img x y else getpixel canvas x y |}.

(** An image without pixels. *)
Definition Image_empty (img : Image) : bool :=
  (width img <=? 0) || (height img <=? 0).

(** One page of an [FPDF] document: blank as [add_page] leaves it, or
    with one image placed on it, named by its file and stretched to the
    rectangle (x, y, w, h), in millimetres. *)
Inductive PdfPage : Type :=
| BlankPage
| ImagePage (source : string) (picture : Image) (placement : Z * Z * Z * Z).

(** The pages of the document [FPDF.output] writes: a document to which
    no page was added gets one blank page when it is closed. *)
Definition FPDF_output (pdf : list PdfPage) : list PdfPage :=
  match pdf with
  | [] => [BlankPage]
  | _ => pdf
  end.

Inductive Content : Type :=
| Png (img : Image)
| Pdf (pages : list PdfPage)
| Blob.

(** A listing: the entries of a directory in the order the file system
    returns them. *)
Module Files.

Section Listing.
Context {V : Type}.

Fixpoint find (name : string) (d : list (string * V)) : option V :=
  match d with
  | [] => None
  | (n, c) :: d' => if String.eqb n name then Some c else find name d'
  end.

(** Writing an entry: an existing one is overwritten where it stands,
    a new one joins the end of the listing. *)
Fixpoint write (name : string) (c : V) (d : list (string * V))
  : list (string * V) :=
  match d with
  | [] => [(name, c)]
  | (n, c') :: d' =>
      if String.eqb n name then (n, c) :: d' else (n, c') :: write name c d'
  end.

Fixpoint remove (name : string) (d : list (string * V))
  : list (string * V) :=
  match d with
  | [] => []
  | (n, c) :: d' =>
      if String.eqb n name then d' else (n, c) :: remove name d'
  end.

(** [list(dir.glob(pattern))]: the matching names, in listing order. *)
Definition glob (pat : string) (d : list (string * V)) : list string :=
  List.filter (fun n => Str.glob_match pat n) (List.map fst d).

End Listing.

End Files.

(** A directory of plain files. *)
Definition Dir : Type := list (string * Content).

(** An entry of the target directory: a file, or a folder of files. *)
Inductive Entry : Type :=
| EFile (c : Content)
| ESub (d : Dir).

(** The target directory [pdfDir]: the source documents, one temporary
    folder for each document in work, and the folder of the results. *)
Definition Directory : Type := list (string * Entry).

(** [Image.open(path)], the pixels loaded. *)
Definition Image_open (name : string) : M Dir Image :=
  fun d =>
    match Files.find name d with
    | Some (Png img) => (Ok img, d)
    | Some _ => (Raise UnidentifiedImageError, d)
    | None => (Raise FileNotFoundError, d)
    end.

(** What a save that fails in the encoder leaves under the name: the
    file was opened for writing before, so a file that was there is left
    truncated, no longer an image, and a file made for the save is removed
    again. *)
Definition save_failed (name : string) (d : Dir) : Dir :=
  match Files.find name d with
  | Some _ => Files.write name Blob d
  | None => d
  end.

(** [img.save(path, "PNG")]: the encoder refuses an image without
    pixels. *)
Definition Image_save (name : string) (img : Image) : M Dir unit :=
  fun d =>
    if Image_empty img then (Raise EncoderError, save_failed name d)
    else (Ok tt, Files.write name (Png img) d).

(** ** Module constants and the host *)

(** The two module-level settings of the script. *)
Record Config : Type := {
  Debug_Mode : bool;
  Pdf2Image_Default_Dpi : Z
}.

(** The values the script ships with. *)
Definition shipped : Config :=
  {| Debug_Mode := false; Pdf2Image_Default_Dpi := 300 |}.

(** What the script takes from its platform and its libraries: the
    environment, the fonts, binary floating point, the rasterizer
    [pdf2image], the image formats of [PIL] and the regular expressions of
    [re]. *)
Record Host : Type := {
  (** [os.getenv("windir")] *)
  windir : option string;
  (** [os.path.join] *)
  path_join : string -> string -> string;
  (** [Path.exists] on a file outside the target directory *)
  path_exists : string -> bool;
  (** does [ImageFont.truetype(name, size)] find and load the font, for a
      size above zero *)
  truetype : string -> Z -> bool;
  (** [int(a / b * c)] in binary floating point, for [b] not zero *)
  float_scale : Z -> Z -> Z -> Z;
  (** the pixels [draw.text] inks for a text of a font at a size, centred
      in a canvas of the given width, its top at the given ordinate *)
  text_ink : string -> Z -> string -> Z -> Z -> Z -> Z -> bool;
  (** [convert_from_path(pdf, dpi)]: the page images, or a failure *)
  convert_from_path : Content -> Z -> option (list Image);
  (** a page is rendered on at least one pixel *)
  convert_nonempty : forall c dpi images,
    convert_from_path c dpi = Some images ->
    List.forallb (fun img => negb (Image_empty img)) images = true;
  (** the encoder [Image.save] picks by an extension other than ".png":
      none registered, or what the encoder writes for an image, [None]
      when it refuses the image *)
  encoder_for : string -> option (Image -> option Content);
  (** [re.compile(pattern)]: the pattern's [search], or a failure *)
  re_compile : string -> option (string -> bool)
}.

(** ** Console output *)

(** The lines the script prints with [WriteText], that is with
    [tqdm.write], by the statement that prints them.  The progress bar
    that [tqdm] draws for the loop of [ProcessPDFFiles], and whose
    description [set_description] sets to the document in work, is a
    display of its own on the error stream: it is not among these lines
    and not part of the console below. *)
Inductive Message : Type :=
| MsgPage (pageNumber totalPages : Z) (name : string) (w h : Z)
| MsgDirMissing (pdfDir : string)
| MsgStart (pdfDir : string)
| MsgInclude (pattern : string)
| MsgExclude (pattern : string)
| MsgIgnored (filename : string) (ignore : Z)
| MsgExtracted (count : Z) (name : string)
| MsgCropped (imageName croppedName : string)
| MsgSaved (newPdfName : string)
| MsgDone (count ignore : Z).

(** A store together with the console: the lines written with
    [WriteText] so far. *)
Record Store (T : Type) : Type := {
  files : T;
  console : list Message
}.

Arguments files {T} s.
Arguments console {T} s.

(** Running a computation on the files of a store. *)
Definition on_files {T A} (c : M T A) : M (Store T) A :=
  fun s =>
    let '(r, t') := c (files s) in
    (r, {| files := t'; console := console s |}).

(** Running a computation inside the folder [name] of a directory. *)
Definition in_dir {A} (name : string) (c : M Dir A) : M Directory A :=
  fun t =>
    match Files.find name t with
    | Some (ESub d) =>
        let '(r, d') := c d in (r, Files.write name (ESub d') t)
    | _ => (Raise FileNotFoundError, t)
    end.

(** [path.mkdir(exist_ok=True)] for a folder of the target directory. *)
Definition mkdir_exist_ok (name : string) : M Directory unit :=
  fun t =>
    match Files.find name t with
    | None => (Ok tt, Files.write name (ESub []) t)
    | Some (ESub _) => (Ok tt, t)
    | Some (EFile _) => (Raise FileExistsError, t)
    end.

(** [shutil.rmtree(path)] for a folder of the target directory. *)
Definition rmtree (name : string) : M Directory unit :=
  fun t =>
    match Files.find name t with
    | Some (ESub _) => (Ok tt, Files.remove name t)
    | Some (EFile _) => (Raise OSError, t)
    | None => (Raise FileNotFoundError, t)
    end.

(** [list(dir.glob(pattern))] for a folder of the target directory; a
    folder that does not exist has no match. *)
Definition glob_in (name pat : string) (t : Directory) : list string :=
  match Files.find name t with
  | Some (ESub d) => Files.glob pat d
  | _ => []
  end.

(** [Margins]: the named tuple (left, top, right, bottom). *)
Record Margins : Type := {
  m_left : Z;
  m_top : Z;
  m_right : Z;
  m_bottom : Z
}.

(** ** The script *)

Section Script.

Variable cfg : Config.
Variable host : Host.

(** [WriteText(text, verbose)] *)
Definition WriteText {T} (text : Message) (verbose : bool) : M (Store T) unit :=
  if Debug_Mode cfg || verbose
  then modify (fun s => {| files := files s; console := (console s ++ [text])%list |})
  else ret tt.

(** The loop of [ExtractImagesFromPdfFile] over [enumerate(images)]. *)
Fixpoint save_pages (i : Z) (images : list Image) : M Dir unit :=
  match images with
  | [] => ret tt
  | image :: images' =>
      let imageFilename := Str.format_02d (i + 1) +:+ ".png" in
      Image_save imageFilename image ;;
      save_pages (i + 1) images'
  end.

(** [ExtractImagesFromPdfFile(pdfFilename)], in the target directory:
    the result names the folder [pdfFilename.parent / pdfFilename.stem],
    a folder of the target directory under the name of the stem.  (For
    the two stems "." and "..", of the documents "..pdf" and "...pdf",
    [pathlib] resolves that path to the target directory itself and to
    its parent; [names_child] below tells these documents apart.) *)
Definition ExtractImagesFromPdfFile (pdfFilename : string) : M Directory string :=
  let outputDir := Str.stem pdfFilename in
  mkdir_exist_ok outputDir ;;
  let* t := get in
  match Files.find pdfFilename t with
  | Some (EFile c) =>
      match convert_from_path host c (Pdf2Image_Default_Dpi cfg) with
      | Some images =>
          in_dir outputDir (save_pages 0 images) ;;
          ret outputDir
      | None => raise RasterizerError
      end
  | _ => raise RasterizerError
  end.

(** [SplitCroppedIntoA4Files(croppedImageFilename)], in the folder of
    the image. *)
Definition SplitCroppedIntoA4Files (croppedImageFilename : string)
  : M Dir (string * string) :=
  let* img := Image_open croppedImageFilename in
  let width := width img in
  let height := height img in
  let half_width := width / 2 in
  let* leftImage := lift (Image_crop img (0, 0, half_width, height)) in
  let* rightImage := lift (Image_crop img (half_width, 0, width, height)) in
  let leftImageFilename := Str.stem croppedImageFilename +:+ "_A4_01.png" in
  let rightImageFilename := Str.stem croppedImageFilename +:+ "_A4_02.png" in
  Image_save leftImageFilename leftImage ;;
  Image_save rightImageFilename rightImage ;;
  ret (leftImageFilename, rightImageFilename).

(** [CropImageFile(imageFilename, leftMargin, topMargin, rightMargin,
    bottomMargin)], in the folder of the image. *)
Definition CropImageFile (imageFilename : string)
    (leftMargin topMargin rightMargin bottomMargin : Z) : M Dir string :=
  let* img := Image_open imageFilename in
  let width := width img in
  let height := height img in
  let* dpiRatio := lift (floordiv 300 (Pdf2Image_Default_Dpi cfg)) in
  let* leftPx := lift (floordiv leftMargin dpiRatio) in
  let* topPx := lift (floordiv topMargin dpiRatio) in
  let* rightPx := lift (floordiv rightMargin dpiRatio) in
  let* bottomPx := lift (floordiv bottomMargin dpiRatio) in
  let* croppedImage :=
    lift (Image_crop img (leftPx, topPx, width - rightPx, height - bottomPx)) in
  let croppedImageFilename := Str.stem imageFilename +:+ "_cropped.png" in
  Image_save croppedImageFilename croppedImage ;;
  SplitCroppedIntoA4Files croppedImageFilename ;;
  ret croppedImageFilename.

(** [draw.text(xy, text, font=font, fill=(0, 0, 0))]: the inked pixels
    turn black, the canvas keeps its size. *)
Definition draw_text (canvas : Image) (top : Z) (text : string)
    (font : string) (font_size : Z) : Image :=
  {| width := width canvas;
     height := height canvas;
     getpixel := fun x y =>
       if text_ink host font font_size text (width canvas) top x y
       then (0, 0, 0)
       else getpixel canvas x y |}.

(** [ImageFont.truetype(name, size)]: a size that is not above zero is
    refused before the font is looked for. *)
Definition ImageFont_truetype (name : string) (size : Z) : Res string :=
  if size <=? 0 then Raise ValueError
  else if truetype host name size then Ok name
  else Raise OSError.

(** [img.save(path)], no format given: the extension of the path, in
    lower case, picks the encoder; an extension that no encoder is
    registered for is refused before the file is opened. *)
Definition Image_save_by_extension (name : string) (img : Image) : M Dir unit :=
  let ext := Str.splitext name in
  if String.eqb (Str.lower ext) ".png" then Image_save name img
  else
    match encoder_for host ext with
    | None => raise ValueError
    | Some encode =>
        fun d =>
          match encode img with
          | Some c => (Ok tt, Files.write name c d)
          | None => (Raise EncoderError, save_failed name d)
          end
    end.

(** [AddPageNumberIntoImage(imageFilename, totalPages, pageNumber,
    pagerMemo)], in the folder of the image. *)
Definition AddPageNumberIntoImage (imageFilename : string)
    (totalPages pageNumber : Z) (pagerMemo : string) : M Dir string :=
  let* img := Image_open imageFilename in
  let width := width img in
  let height := height img in
  if Pdf2Image_Default_Dpi cfg =? 0 then raise ZeroDivisionError else
  let font_size_coefficient := 3 in
  let font_size :=
    float_scale host height (Pdf2Image_Default_Dpi cfg) font_size_coefficient in
  let newImg := Image_new (width, height) (255, 255, 255) in
  let newImg := Image_paste newImg img in
  match windir host with
  | None => raise TypeError
  | Some windir =>
      let font_path := path_join host windir "fonts\msyh.ttc" in
      let* styled :=
        if path_exists host font_path then
          let* font := lift (ImageFont_truetype "msyh.ttc" font_size) in
          ret (font,
               "第 " +:+ Str.format_d pageNumber +:+ " 页/共 "
               +:+ Str.format_d totalPages +:+ " 页" +:+ pagerMemo)
        else
          let* font := lift (ImageFont_truetype "arial.ttf" font_size) in
          ret (font,
               Str.format_d pageNumber +:+ " / " +:+ Str.format_d totalPages) in
      let '(font, text) := styled in
      let newImg := draw_text newImg (height - font_size - 20) text font font_size in
      Image_save_by_extension imageFilename newImg ;;
      ret imageFilename
  end.

(** The loop of [MergeImagesAsPDFFile]: [pageNumber] is the counter
    before the iteration, [pdf] the pages added so far. *)
Fixpoint merge_pages (imageDir : string) (addPager : bool) (pagerMemo : string)
    (verbose : bool) (totalPages : Z) (images : list string)
    (pageNumber : Z) (pdf : list PdfPage) : M (Store Directory) (list PdfPage) :=
  match images with
  | [] => ret pdf
  | imageFilename :: images' =>
      let pageNumber := pageNumber + 1 in
      (if addPager
       then on_files (in_dir imageDir
              (AddPageNumberIntoImage imageFilename totalPages pageNumber pagerMemo)) ;;
            ret tt
       else ret tt) ;;
      let* placed := on_files (in_dir imageDir (Image_open imageFilename)) in
      let pdf := (pdf ++ [ImagePage imageFilename placed (0, 0, 210, 297)])%list in
      let* img := on_files (in_dir imageDir (Image_open imageFilename)) in
      WriteText
        (MsgPage pageNumber totalPages imageFilename (width img) (height img))
        verbose ;;
      merge_pages imageDir addPager pagerMemo verbose totalPages images'
        pageNumber pdf
  end.

(** [MergeImagesAsPDFFile(imageDir, addPager, pagerMemo, verbose)], in
    the target directory: the result names a file of the folder
    [_A4_]. *)
Definition MergeImagesAsPDFFile (imageDir : string) (addPager : bool)
    (pagerMemo : string) (verbose : bool) : M (Store Directory) string :=
  let A4Folder := "_A4_" in
  on_files (mkdir_exist_ok A4Folder) ;;
  let pdfFilename := Str.stem imageDir +:+ "_A4.pdf" in
  let* s := get in
  let images := glob_in imageDir "*_cropped_A4_*.png" (files s) in
  let totalPages := Z.of_nat (List.length images) in
  let* pdf :=
    merge_pages imageDir addPager pagerMemo verbose totalPages images 0 [] in
  on_files (in_dir A4Folder
    (modify (Files.write pdfFilename (Pdf (FPDF_output pdf))))) ;;
  ret pdfFilename.

(** The body of the loop of [ProcessPDFFiles] over the page images of
    one document. *)
Definition crop_page (outputDir : string) (cropMargins : Margins)
    (reverseLeftAndRight verbose : bool) (imageFilename : string)
  : M (Store Directory) unit :=
  let leftMargin := m_left cropMargins in
  let topMargin := m_top cropMargins in
  let rightMargin := m_right cropMargins in
  let bottomMargin := m_bottom cropMargins in
  if Str.contains "_cropped" (Str.stem imageFilename) then ret tt else
  let* cropedFile :=
    if reverseLeftAndRight then
      match Str.python_int (Str.before "." (Str.stem imageFilename)) with
      | None => raise ValueError
      | Some number =>
          if number mod 2 =? 1 then
            on_files (in_dir outputDir
              (CropImageFile imageFilename
                 leftMargin topMargin rightMargin bottomMargin))
          else
            on_files (in_dir outputDir
              (CropImageFile imageFilename
                 rightMargin topMargin leftMargin bottomMargin))
      end
    else
      on_files (in_dir outputDir (CropImageFile imageFilename 0 0 0 0)) in
  WriteText (MsgCropped imageFilename cropedFile) verbose.

(** The body of the loop of [ProcessPDFFiles] over the candidate
    documents: [count] and [ignore] are the counters before the
    iteration, the result the counters after it. *)
Definition process_candidate (cropMargins : Margins)
    (include_pattern exclude_pattern : option (string -> bool))
    (reverseLeftAndRight showPager : bool) (pagerText : string)
    (verbose : bool) (counters : Z * Z) (pdfFilename : string)
  : M (Store Directory) (Z * Z) :=
  let '(count, ignore) := counters in
  if Str.contains "_A4" (Str.stem pdfFilename) then ret (count, ignore) else
  let filename := pdfFilename in
  if match include_pattern with
     | Some search => negb (search filename)
     | None => false
     end
  then
    let ignore := ignore + 1 in
    WriteText (MsgIgnored filename ignore) true ;;
    ret (count, ignore)
  else if match exclude_pattern with
          | Some search => search filename
          | None => false
          end
  then
    let ignore := ignore + 1 in
    WriteText (MsgIgnored filename ignore) true ;;
    ret (count, ignore)
  else
    let count := count + 1 in
    let* outputDir := on_files (ExtractImagesFromPdfFile pdfFilename) in
    WriteText (MsgExtracted count pdfFilename) verbose ;;
    let* s := get in
    for_each (glob_in outputDir "*.png" (files s))
      (crop_page outputDir cropMargins reverseLeftAndRight verbose) ;;
    let* newPdfFilename := MergeImagesAsPDFFile outputDir showPager pagerText false in
    (if negb (Debug_Mode cfg) then on_files (rmtree outputDir) else ret tt) ;;
    WriteText (MsgSaved newPdfFilename) verbose ;;
    ret (count, ignore).

(** The loop of [ProcessPDFFiles] over the candidate documents. *)
Fixpoint process_candidates (cropMargins : Margins)
    (include_pattern exclude_pattern : option (string -> bool))
    (reverseLeftAndRight showPager : bool) (pagerText : string)
    (verbose : bool) (pdfFiles : list string) (counters : Z * Z)
  : M (Store Directory) (Z * Z) :=
  match pdfFiles with
  | [] => ret counters
  | pdfFilename :: pdfFiles' =>
      let* counters :=
        process_candidate cropMargins include_pattern exclude_pattern
          reverseLeftAndRight showPager pagerText verbose counters pdfFilename in
      process_candidates cropMargins include_pattern exclude_pattern
        reverseLeftAndRight showPager pagerText verbose pdfFiles' counters
  end.

(** [re.compile(regex) if len(regex) > 0 else None] *)
Definition compile_if_given {T} (regex : string) : M T (option (string -> bool)) :=
  if (0 <? String.length regex)%nat then
    match re_compile host regex with
    | Some search => ret (Some search)
    | None => raise RegexError
    end
  else ret None.

(** [ProcessPDFFiles] once the target directory is known to exist. *)
Definition process_directory (pdfDir : string) (cropMargins : Margins)
    (regexInFilenameIncluded regexInFilenameExcluded : string)
    (reverseLeftAndRight showPager : bool) (pagerText : string)
    (verbose : bool) : M (Store Directory) unit :=
  WriteText (MsgStart pdfDir) true ;;
  (if (0 <? String.length regexInFilenameIncluded)%nat
   then WriteText (MsgInclude regexInFilenameIncluded) true else ret tt) ;;
  (if (0 <? String.length regexInFilenameExcluded)%nat
   then WriteText (MsgExclude regexInFilenameExcluded) true else ret tt) ;;
  let count := 0 in
  let ignore := 0 in
  let* s := get in
  let pdfFiles := Files.glob "*.pdf" (files s) in
  let* include_pattern := compile_if_given regexInFilenameIncluded in
  let* exclude_pattern := compile_if_given regexInFilenameExcluded in
  let* counters :=
    process_candidates cropMargins include_pattern exclude_pattern
      reverseLeftAndRight showPager pagerText verbose pdfFiles (count, ignore) in
  WriteText (MsgDone (fst counters) (snd counters)) true.

(** [ProcessPDFFiles(pdfDir, cropMargins, regexInFilenameIncluded,
    regexInFilenameExcluded, reverseLeftAndRight, showPager, pagerText,
    verbose)] over the disk: the directories by path. *)
Definition ProcessPDFFiles (pdfDir : string) (cropMargins : Margins)
    (regexInFilenameIncluded regexInFilenameExcluded : string)
    (reverseLeftAndRight showPager : bool) (pagerText : string)
    (verbose : bool) : M (Store (gmap string Directory)) unit :=
  fun w =>
    match files w !! pdfDir with
    | None => WriteText (MsgDirMissing pdfDir) true w
    | Some d =>
        let '(r, s) :=
          process_directory pdfDir cropMargins regexInFilenameIncluded
            regexInFilenameExcluded reverseLeftAndRight showPager pagerText
            verbose {| files := d; console := console w |} in
        (r, {| files := <[pdfDir := files s]> (files w); console := console s |})
    end.

End Script.

(** ** Auxiliary definitions for the statements *)

(** The image [Image_crop] returns for a box that is not inverted. *)
Definition cropped_to (img : Image) (x0 y0 x1 y1 : Z) : Image :=
  {| width := x1 - x0;
     height := y1 - y0;
     getpixel := fun x y =>
       if inside img (x + x0) (y + y0)
       then getpixel img (x + x0) (y + y0)
       else (0, 0, 0) |}.

(** The names [SplitCroppedIntoA4Files] gives to the two halves. *)
Definition left_name (croppedImageFilename : string) : string :=
  Str.stem croppedImageFilename +:+ "_A4_01.png".

Definition right_name (croppedImageFilename : string) : string :=
  Str.stem croppedImageFilename +:+ "_A4_02.png".

(** The size of the image a folder of the target directory holds under a
    name. *)
Definition image_size (t : Directory) (folder name : string) : option (Z * Z) :=
  match Files.find folder t with
  | Some (ESub d) =>
      match Files.find name d with
      | Some (Png img) => Some (width img, height img)
      | _ => None
      end
  | _ => None
  end.

(** The image a page carries, with the name of its file. *)
Definition page_image (p : PdfPage) : option (string * Image) :=
  match p with
  | ImagePage source picture _ => Some (source, picture)
  | BlankPage => None
  end.

(** The sizes of the images on the pages of a document of the folder of
    the results, page by page; a blank page carries none. *)
Definition result_page_sizes (t : Directory) (name : string)
  : option (list (string * (Z * Z))) :=
  match Files.find "_A4_" t with
  | Some (ESub d) =>
      match Files.find name d with
      | Some (Pdf pages) =>
          Some (List.flat_map
                  (fun p =>
                     match page_image p with
                     | Some (source, picture) =>
                         [(source, (width picture, height picture))]
                     | None => []
                     end)
                  pages)
      | _ => None
      end
  | _ => None
  end.

(** The store [ProcessPDFFiles] enters its loop with: the opening lines
    are on the console. *)
Definition started (pdfDir regexInFilenameIncluded regexInFilenameExcluded : string)
    (s : Store Directory) : Store Directory :=
  {| files := files s;
     console :=
       (console s ++ [MsgStart pdfDir]
        ++ (if (0 <? String.length regexInFilenameIncluded)%nat
            then [MsgInclude regexInFilenameIncluded] else [])
        ++ (if (0 <? String.length regexInFilenameExcluded)%nat
            then [MsgExclude regexInFilenameExcluded] else []))%list |}.

(** Does a name pass the include and the exclude pattern. *)
Definition passes (include_pattern exclude_pattern : option (string -> bool))
    (filename : string) : bool :=
  negb match include_pattern with
       | Some search => negb (search filename)
       | None => false
       end
  && negb match exclude_pattern with
          | Some search => search filename
          | None => false
          end.

(** A string of decimal digits only. *)
Fixpoint all_digits (s : string) : bool :=
  match s with
  | EmptyString => true
  | String c s' => Str.is_digit c && all_digits s'
  end.

(** The name [ExtractImagesFromPdfFile] gives to the image of the page
    at index [i] of [enumerate(images)]. *)
Definition page_name (i : Z) : string := Str.format_02d (i + 1) +:+ ".png".

(** The pattern of the names [MergeImagesAsPDFFile] collects. *)
Definition artifact_pattern : string := "*_cropped_A4_*.png".

(** The two artifacts of page [p], left then right. *)
Definition page_artifacts (p : Z) : list string :=
  [Str.format_02d p +:+ "_cropped_A4_01.png";
   Str.format_02d p +:+ "_cropped_A4_02.png"].

(** The artifacts of the pages 1 to [K] in numeric page and column order:
    page 1 left, page 1 right, page 2 left, and so on. *)
Definition numeric_order (K : nat) : list string :=
  List.flat_map (fun p => page_artifacts (Z.of_nat p)) (List.seq 1 K).

(** The page carries the image of the file [name], stretched to the
    sheet of 210 by 297. *)
Definition carries (p : PdfPage) (name : string) : Prop :=
  exists picture, p = ImagePage name picture (0, 0, 210, 297).

(** The pages of a document carry the images of the files [names], one
    page for each name and in that order; a document for no name is one
    blank page. *)
Definition pages_follow (pages : list PdfPage) (names : list string) : Prop :=
  match names with
  | [] => pages = [BlankPage]
  | _ => List.Forall2 carries pages names
  end.

(** A document whose folder [pdfFilename.parent / pdfFilename.stem] is a
    folder of the target directory: every document but "..pdf" and
    "...pdf", whose stems "." and ".." name the target directory itself
    and its parent. *)
Definition names_child (pdfFilename : string) : bool :=
  negb (String.eqb (Str.stem pdfFilename) ".")
  && negb (String.eqb (Str.stem pdfFilename) "..").

(** Every one of the names is an image of the folder. *)
Definition all_png (names : list string) (d : Dir) : Prop :=
  forall n, List.In n names -> exists img, Files.find n d = Some (Png img).


(** ** Sample inputs *)

Module Sample.

(** A white page of the given size. *)
Definition blank (w h : Z) : Image :=
  {| width := w; height := h; getpixel := fun _ _ => (255, 255, 255) |}.

(** The folder of a document of one page, rasterized. *)
Definition one_page : Dir := [("01.png", Png (blank 3000 4000))].

(** A cropped page of odd width. *)
Definition odd_cropped : Dir := [("02_cropped.png", Png (blank 2541 3675))].

(** A rasterizer that reads the page images off the document, a blank
    page as a white sheet, and rejects a document one of whose pages
    would have no pixel. *)
Definition read_pages (c : Content) (dpi : Z) : option (list Image) :=
  match c with
  | Pdf pages =>
      let images :=
        List.map (fun p => match p with
                           | ImagePage _ picture _ => picture
                           | BlankPage => blank 2480 3508
                           end) pages in
      if List.forallb (fun img => negb (Image_empty img)) images
      then Some images else None
  | _ => None
  end.

Definition read_pages_nonempty (c : Content) (dpi : Z) (images : list Image) :
  read_pages c dpi = Some images ->
  List.forallb (fun img => negb (Image_empty img)) images = true.
Proof.
  unfold read_pages. destruct c as [img|pages|]; try discriminate.
  destruct (List.forallb _ _) eqn:E; [|discriminate].
  intros H. injection H as <-. exact E.
Qed.

(** A rasterizer that reads no document. *)
Definition no_pages (c : Content) (dpi : Z) : option (list Image) := None.

Definition no_pages_nonempty (c : Content) (dpi : Z) (images : list Image) :
  no_pages c dpi = Some images ->
  List.forallb (fun img => negb (Image_empty img)) images = true.
Proof. discriminate. Qed.

(** A host with the two fonts of the script installed, which load at
    every size above zero; its rasterizer reads the page images off the
    document, it writes no other format than PNG, and its patterns are
    plain substrings. *)
Definition windows : Host :=
  {| windir := Some "C:\Windows";
     path_join := fun a b => a +:+ "\" +:+ b;
     path_exists := fun _ => true;
     truetype := fun name size =>
       (0 <? size) && (String.eqb name "msyh.ttc" || String.eqb name "arial.ttf");
     float_scale := fun a b c => a * c / b;
     text_ink := fun _ size _ w top x y =>
       (w / 2 - size <=? x) && (x <? w / 2 + size)
       && (top <=? y) && (y <? top + size);
     convert_from_path := read_pages;
     convert_nonempty := read_pages_nonempty;
     encoder_for := fun _ => None;
     re_compile := fun pattern => Some (Str.contains pattern) |}.

(** A host without the variable [windir], as outside Windows, where the
    plain font loads at every size above zero. *)
Definition no_windir : Host :=
  {| windir := None;
     path_join := fun a b => a +:+ b;
     path_exists := fun _ => false;
     truetype := fun name size => (0 <? size) && String.eqb name "arial.ttf";
     float_scale := fun a b c => a * c / b;
     text_ink := fun _ _ _ _ _ _ _ => false;
     convert_from_path := no_pages;
     convert_nonempty := no_pages_nonempty;
     encoder_for := fun _ => None;
     re_compile := fun _ => None |}.

(** A host on which no pattern compiles. *)
Definition no_patterns : Host :=
  {| windir := None;
     path_join := fun a b => a +:+ b;
     path_exists := fun _ => false;
     truetype := fun _ _ => false;
     float_scale := fun a b c => 0;
     text_ink := fun _ _ _ _ _ _ _ => false;
     convert_from_path := no_pages;
     convert_nonempty := no_pages_nonempty;
     encoder_for := fun _ => None;
     re_compile := fun _ => None |}.

(** A document of one page. *)
Definition one_page_pdf : Content :=
  Pdf [ImagePage "scan" (blank 3000 4000) (0, 0, 210, 297)].

(** A disk whose directory [exams] holds that document. *)
Definition disk : Store (gmap string Directory) :=
  {| files := {[ "exams" := [("paper.pdf", EFile one_page_pdf)] ]};
     console := [] |}.

(** A target directory whose first document is not a readable PDF. *)
Definition with_corrupt : Store Directory :=
  {| files := [("broken.pdf", EFile Blob); ("paper.pdf", EFile one_page_pdf)];
     console := [] |}.

(** A disk whose directory [exams] holds these two documents. *)
Definition disk_with_corrupt : Store (gmap string Directory) :=
  {| files := {[ "exams" := files with_corrupt ]}; console := [] |}.

(** The target directory with the page rasterized into its folder. *)
Definition rasterized : Store Directory :=
  {| files := [("paper.pdf", EFile one_page_pdf); ("paper", ESub one_page)];
     console := [] |}.

Definition margins_160 : Margins :=
  {| m_left := 160; m_top := 160; m_right := 160; m_bottom := 160 |}.

Definition margins_exam : Margins :=
  {| m_left := 300; m_top := 165; m_right := 160; m_bottom := 160 |}.

(** The split artifacts of a document of one page in a folder whose
    listing returns the right half first. *)
Definition right_first : Store Directory :=
  {| files :=
       [("paper", ESub [("01_cropped_A4_02.png", Png (blank 1340 3680));
                        ("01_cropped_A4_01.png", Png (blank 1340 3680))])];
     console := [] |}.

(** The same artifacts in a folder whose listing is in numeric order. *)
Definition left_first : Store Directory :=
  {| files :=
       [("paper", ESub [("01_cropped_A4_01.png", Png (blank 1340 3680));
                        ("01_cropped_A4_02.png", Png (blank 1340 3680))])];
     console := [] |}.

(** The folder of a document of one page, cropped and split. *)
Definition split_page : Dir :=
  [("01_cropped_A4_01.png", Png (blank 1340 3680));
   ("01_cropped_A4_02.png", Png (blank 1340 3680))].

End Sample.

(** ** The caption, by its parts *)

Section Caption.

Variable cfg : Config.
Variable host : Host.

(** The font size [AddPageNumberIntoImage] computes for an image. *)
Definition caption_size (img : Image) : Z :=
  float_scale host (height img) (Pdf2Image_Default_Dpi cfg) 3.

(** Is the font of the localized caption installed. *)
Definition localized (windir : string) : bool :=
  path_exists host (path_join host windir "fonts\msyh.ttc").

Definition caption_font (windir : string) : string :=
  if localized windir then "msyh.ttc" else "arial.ttf".

Definition caption_text (windir : string) (totalPages pageNumber : Z)
    (pagerMemo : string) : string :=
  if localized windir
  then "第 " +:+ Str.format_d pageNumber +:+ " 页/共 "
       +:+ Str.format_d totalPages +:+ " 页" +:+ pagerMemo
  else Str.format_d pageNumber +:+ " / " +:+ Str.format_d totalPages.

(** The image [AddPageNumberIntoImage] saves. *)
Definition captioned (windir : string) (img : Image)
    (totalPages pageNumber : Z) (pagerMemo : string) : Image :=
  draw_text host
    (Image_paste (Image_new (width img, height img) (255, 255, 255)) img)
    (height img - caption_size img - 20)
    (caption_text windir totalPages pageNumber pagerMemo)
    (caption_font windir) (caption_size img).

(** The pixels the caption inks on an image. *)
Definition caption_ink (windir : string) (img : Image)
    (totalPages pageNumber : Z) (pagerMemo : string) (x y : Z) : bool :=
  text_ink host (caption_font windir) (caption_size img)
    (caption_text windir totalPages pageNumber pagerMemo)
    (width img) (height img - caption_size img - 20) x y.

(** The host can caption the image: the DPI setting is not zero, the
    variable [windir] is set, the font size computed for the image is
    above zero, the font chosen loads at that size, and the image has
    pixels to encode. *)
Definition can_caption (img : Image) : Prop :=
  Pdf2Image_Default_Dpi cfg <> 0
  /\ 0 < width img /\ 0 < height img
  /\ 0 < caption_size img
  /\ exists w, windir host = Some w
               /\ truetype host (caption_font w) (caption_size img) = true.

End Caption.

(** Every one of the names is an image of the folder that the host can
    caption. *)
Definition all_captionable (cfg : Config) (host : Host) (names : list string)
    (d : Dir) : Prop :=
  forall n img, List.In n names -> Files.find n d = Some (Png img) ->
                can_caption cfg host img.

(** ** Invariants of the target directory *)

(** A candidate without the mark of the processed files in its stem. *)
Definition unmarked (pdfFilename : string) : bool :=
  negb (Str.contains "_A4" (Str.stem pdfFilename)).

(** A property of the target directory that survives the making or the
    rewriting of a folder under a name that is free or names a folder;
    it is stable when it also survives the removal of a folder: no step
    of the script can then break it. *)
Definition stable_under_writes (Q : Directory -> Prop) : Prop :=
  forall (t : Directory) (name : string) (d : Dir),
    (Files.find name t = None \/ exists d0, Files.find name t = Some (ESub d0)) ->
    Q t -> Q (Files.write name (ESub d) t).

Definition stable (Q : Directory -> Prop) : Prop :=
  stable_under_writes Q
  /\ (forall (t : Directory) (name : string) (d0 : Dir),
        Files.find name t = Some (ESub d0) -> Q t -> Q (Files.remove name t)).


(** A computation on the target directory keeps a property of it,
    whether it returns or raises. *)
Definition keeps_dir {A} (Q : Directory -> Prop) (c : M Directory A) : Prop :=
  forall t, Q t -> Q (snd (c t)).

(** The same for a computation that also prints. *)
Definition keeps {A} (Q : Directory -> Prop) (c : M (Store Directory) A) : Prop :=
  forall s, Q (files s) -> Q (files (snd (c s))).

(** The plain file [name] of the target directory, with its content. *)
Definition holds_file (name : string) (c : Content) (t : Directory) : Prop :=
  Files.find name t = Some (EFile c).


(** ** The candidates of a run, by their fate *)

(** What [re.compile(regex) if len(regex) > 0 else None] evaluates to,
    [None] when the pattern does not compile. *)
Definition compiled (host : Host) (regex : string)
  : option (option (string -> bool)) :=
  if (0 <? String.length regex)%nat then
    match re_compile host regex with
    | Some search => Some (Some search)
    | None => None
    end
  else Some None.

(** The candidates the loop hands to the pipeline: not marked, and passing
    both patterns. *)
Definition to_process (include_pattern exclude_pattern : option (string -> bool))
    (pdfFiles : list string) : list string :=
  List.filter
    (fun f => unmarked f && passes include_pattern exclude_pattern f) pdfFiles.

(** The candidates the loop counts as ignored: not marked, and stopped by
    a pattern. *)
Definition to_ignore (include_pattern exclude_pattern : option (string -> bool))
    (pdfFiles : list string) : list string :=
  List.filter
    (fun f => unmarked f && negb (passes include_pattern exclude_pattern f))
    pdfFiles.

(** The lines printed for the ignored candidates, [ignore] being the
    counter before the first of them. *)
Fixpoint ignored_lines (include_pattern exclude_pattern : option (string -> bool))
    (ignore : Z) (pdfFiles : list string) : list Message :=
  match pdfFiles with
  | [] => []
  | f :: pdfFiles' =>
      if unmarked f && negb (passes include_pattern exclude_pattern f)
      then MsgIgnored f (ignore + 1)
           :: ignored_lines include_pattern exclude_pattern (ignore + 1) pdfFiles'
      else ignored_lines include_pattern exclude_pattern ignore pdfFiles'
  end.

(** ** What a step on a folder leaves alone *)

(** A computation on a folder never changes what the name [other] holds,
    whether it returns or raises. *)
Definition leaves_alone {A} (other : string) (c : M Dir A) : Prop :=
  forall d, Files.find other (snd (c d)) = Files.find other d.

(** ** The folder of a document *)

(** The files a folder of the target directory holds; none when the name
    is free. *)
Definition folder_content (name : string) (t : Directory) : Dir :=
  match Files.find name t with
  | Some (ESub d) => d
  | _ => []
  end.

(** The pages [MergeImagesAsPDFFile] builds with captions from the images
    of a folder: the page at position k of [names], counted from 1 after
    [pageNumber], carries the image of that name with the caption for page
    k of [totalPages]. *)
Fixpoint captioned_pages (cfg : Config) (host : Host) (windir_ : string)
    (totalPages : Z) (pagerMemo : string) (d : Dir) (names : list string)
    (pageNumber : Z) : list PdfPage :=
  match names with
  | [] => []
  | n :: names' =>
      match Files.find n d with
      | Some (Png img) =>
          ImagePage n
            (captioned cfg host windir_ img totalPages (pageNumber + 1) pagerMemo)
            (0, 0, 210, 297)
          :: captioned_pages cfg host windir_ totalPages pagerMemo d names'
               (pageNumber + 1)
      | _ => []
      end
  end.

(** ** Lines of the console, by kind *)

(** A line printed for one page of the result. *)
Definition is_page_line (m : Message) : bool :=
  match m with
  | MsgPage _ _ _ _ _ => true
  | _ => false
  end.

(** A line printed for a step of the work on one document. *)
Definition is_progress_line (m : Message) : bool :=
  match m with
  | MsgExtracted _ _ | MsgCropped _ _ | MsgSaved _ => true
  | _ => false
  end.

(** A computation prints only lines that satisfy [P], whether it returns
    or raises. *)
Definition says {T A} (P : Message -> Prop) (c : M (Store T) A) : Prop :=
  forall s, List.Forall P (console s) -> List.Forall P (console (snd (c s))).

(** * Properties *)

(** ** The string functions on the names of the script *)

Example stem_png : Str.stem "01.png" = "01".
Proof. reflexivity. Qed.

Example stem_hidden : Str.stem ".pdf" = ".pdf".
Proof. reflexivity. Qed.

Example stem_two_dots : Str.stem "a.b.pdf" = "a.b".
Proof. reflexivity. Qed.

Example glob_artifact :
  Str.glob_match "*_cropped_A4_*.png" "01_cropped_A4_02.png" = true
  /\ Str.glob_match "*_cropped_A4_*.png" "01_cropped.png" = false
  /\ Str.glob_match "*.png" "01.png" = true.
Proof. repeat split; reflexivity. Qed.

Example python_int_examples :
  Str.python_int "01" = Some 1 /\ Str.python_int " -12 " = Some (-12)
  /\ Str.python_int "1_0" = Some 10 /\ Str.python_int "1__0" = None
  /\ Str.python_int "" = None /\ Str.python_int "0x" = None.
Proof. repeat split; reflexivity. Qed.

Example format_examples :
  Str.format_02d 1 = "01" /\ Str.format_02d 12 = "12"
  /\ Str.format_02d 100 = "100" /\ Str.format_d 0 = "0".
Proof. repeat split; reflexivity. Qed.

(** ** Strings *)

Module StrFacts.

Lemma app_cons (c : ascii) (s t : string) :
  String c s +:+ t = String c (s +:+ t).
Proof. reflexivity. Qed.

Lemma app_nil_l (s : string) : "" +:+ s = s.
Proof. reflexivity. Qed.

Lemma app_nil_r (s : string) : s +:+ "" = s.
Proof.
  induction s as [|c s IH]; [reflexivity|].
  now rewrite app_cons, IH.
Qed.

Lemma app_assoc (a b c : string) : (a +:+ b) +:+ c = a +:+ b +:+ c.
Proof.
  induction a as [|x a IH]; [reflexivity|].
  now rewrite !app_cons, IH.
Qed.

Lemma app_inj_l (s a b : string) : s +:+ a = s +:+ b -> a = b.
Proof.
  induction s as [|x s IH]; [trivial|].
  rewrite !app_cons. intros H. injection H. exact IH.
Qed.

Lemma app_nonempty (a b : string) : b <> "" -> a +:+ b <> "".
Proof. destruct a; [trivial | rewrite app_cons; discriminate]. Qed.

Lemma length_app (a b : string) :
  String.length (a +:+ b) = (String.length a + String.length b)%nat.
Proof.
  induction a as [|x a IH]; [reflexivity|].
  rewrite app_cons. simpl. now rewrite IH.
Qed.

Lemma substring_app (a b : string) :
  String.substring 0 (String.length a) (a +:+ b) = a.
Proof.
  induction a as [|x a IH].
  - now destruct b.
  - rewrite app_cons. simpl. now rewrite IH.
Qed.

Lemma prefix_app (p s : string) : String.prefix p (p +:+ s) = true.
Proof.
  induction p as [|a p IH].
  - now destruct s.
  - rewrite app_cons. simpl.
    destruct (ascii_dec a a) as [_|ne]; [exact IH | now elim ne].
Qed.

Lemma contains_prefix (sub s : string) :
  String.prefix sub s = true -> Str.contains sub s = true.
Proof. intros H. destruct s; simpl in *; rewrite H; reflexivity. Qed.

Lemma contains_cons (sub : string) (c : ascii) (s : string) :
  Str.contains sub s = true -> Str.contains sub (String c s) = true.
Proof.
  intros H.
  change (String.prefix sub (String c s) || Str.contains sub s = true).
  rewrite H. apply orb_true_r.
Qed.

Lemma contains_app (sub a b : string) :
  Str.contains sub (a +:+ sub +:+ b) = true.
Proof.
  induction a as [|c a IH].
  - apply (contains_prefix sub (sub +:+ b)), prefix_app.
  - rewrite app_cons. now apply contains_cons.
Qed.

Lemma contains_suffix (sub a : string) : Str.contains sub (a +:+ sub) = true.
Proof.
  pose proof (contains_app sub a "") as H.
  now rewrite app_nil_r in H.
Qed.

(** The last dot of [s.ext] is the one before [ext] when [ext] has
    none. *)
Lemma rfind_dot_ext (s ext : string) :
  Str.rfind "." ext = None ->
  Str.rfind "." (s +:+ String "." ext) = Some (String.length s).
Proof.
  intros H. induction s as [|c s IH].
  - rewrite app_nil_l. simpl. now rewrite H.
  - rewrite app_cons. simpl. now rewrite IH.
Qed.

(** The stem of [s.ext] is [s], for [s] and [ext] not empty and [ext]
    without a dot. *)
Lemma stem_ext (s ext : string) :
  s <> "" -> ext <> "" -> Str.rfind "." ext = None ->
  Str.stem (s +:+ String "." ext) = s.
Proof.
  intros Hs He Hd. unfold Str.stem. rewrite (rfind_dot_ext s ext Hd).
  rewrite length_app. simpl String.length.
  assert (0 < String.length s)%nat as Hs'
    by (destruct s; [congruence | simpl; lia]).
  assert (0 < String.length ext)%nat as He'
    by (destruct ext; [congruence | simpl; lia]).
  replace (0 <? String.length s)%nat with true
    by (symmetry; apply Nat.ltb_lt; lia).
  replace (String.length s <? String.length s + S (String.length ext) - 1)%nat
    with true by (symmetry; apply Nat.ltb_lt; lia).
  apply substring_app.
Qed.

Lemma stem_cropped (s : string) :
  Str.stem (s +:+ "_cropped.png") = s +:+ "_cropped".
Proof.
  change "_cropped.png" with ("_cropped" +:+ String "." "png").
  rewrite <- app_assoc. apply stem_ext.
  - apply app_nonempty. discriminate.
  - discriminate.
  - reflexivity.
Qed.

Lemma stem_A4_pdf (s : string) : Str.stem (s +:+ "_A4.pdf") = s +:+ "_A4".
Proof.
  change "_A4.pdf" with ("_A4" +:+ String "." "pdf").
  rewrite <- app_assoc. apply stem_ext.
  - apply app_nonempty. discriminate.
  - discriminate.
  - reflexivity.
Qed.

End StrFacts.

(** The page images of a document are written under the names
    [page_name 0], [page_name 1], and so on. *)
Example save_pages_names :
  save_pages 0 [Sample.blank 3000 4000; Sample.blank 2480 3508] []
  = (Ok tt, [(page_name 0, Png (Sample.blank 3000 4000));
             (page_name 1, Png (Sample.blank 2480 3508))])
  /\ page_name 0 = "01.png" /\ page_name 1 = "02.png"
  /\ page_name 99 = "100.png".
Proof. repeat split; reflexivity. Qed.

(** A page without pixels stops the loop: the encoder refuses it and the
    pages after it are not written. *)
Example save_pages_empty :
  save_pages 0 [Sample.blank 3000 4000; Sample.blank 0 3508;
                Sample.blank 2480 3508] []
  = (Raise EncoderError, [(page_name 0, Png (Sample.blank 3000 4000))]).
Proof. reflexivity. Qed.

(** ** Extensions *)

Module ExtensionFacts.

Example splitext_examples :
  Str.splitext "01_cropped_A4_01.png" = ".png"
  /\ Str.splitext "a.b.PNG" = ".PNG" /\ Str.lower ".PNG" = ".png"
  /\ Str.splitext ".png" = "" /\ Str.splitext "..png" = ""
  /\ Str.splitext "page" = "" /\ Str.splitext "page." = ".".
Proof. repeat split; reflexivity. Qed.

Lemma glob_star_nil (p : string) :
  Str.glob_match (String "*" p) "" = Str.glob_match p "" || false.
Proof. reflexivity. Qed.

Lemma glob_star_step (p : string) (c : ascii) (t : string) :
  Str.glob_match (String "*" p) (String c t)
  = Str.glob_match p (String c t) || Str.glob_match (String "*" p) t.
Proof. reflexivity. Qed.

(** A star matches a prefix of the name, the rest of the pattern the rest
    of the name. *)
Lemma glob_star_split (p s : string) :
  Str.glob_match (String "*" p) s = true ->
  exists a b, s = a +:+ b /\ Str.glob_match p b = true.
Proof.
  induction s as [|c t IH].
  - rewrite glob_star_nil, orb_false_r. intros H. now exists "", "".
  - rewrite glob_star_step. intros H. apply orb_true_iff in H as [H|H].
    + now exists "", (String c t).
    + destruct (IH H) as (a & b & -> & Hb). now exists (String c a), b.
Qed.

(** A character of the pattern that is not the star matches itself. *)
Lemma glob_char (c : ascii) (p s : string) :
  Ascii.eqb c "*" = false ->
  Str.glob_match (String c p) s = true ->
  exists t, s = String c t /\ Str.glob_match p t = true.
Proof.
  intros Hc. cbn [Str.glob_match]. rewrite Hc. destruct s as [|d t]; [discriminate|].
  intros H. apply andb_true_iff in H as [Hd Ht].
  apply Ascii.eqb_eq in Hd. subst d. now exists t.
Qed.

Lemma glob_end (s : string) : Str.glob_match "" s = true -> s = "".
Proof. destruct s; [reflexivity | discriminate]. Qed.

(** The names the pattern of the artifacts matches. *)
Lemma artifact_shape (n : string) :
  Str.glob_match artifact_pattern n = true ->
  exists a b, n = a +:+ "_cropped_A4_" +:+ b +:+ ".png".
Proof.
  unfold artifact_pattern. intros H.
  apply glob_star_split in H as (a & r & -> & H).
  do 12 (apply glob_char in H as (? & -> & H); [|reflexivity]).
  apply glob_star_split in H as (b & r & -> & H).
  do 4 (apply glob_char in H as (? & -> & H); [|reflexivity]).
  apply glob_end in H. subst. now exists a, b.
Qed.

Lemma all_dots_underscore (a b : string) :
  Str.all_dots (a +:+ String "_" b) = false.
Proof.
  induction a as [|c a IH]; [reflexivity|].
  rewrite StrFacts.app_cons. cbn [Str.all_dots]. rewrite IH. apply andb_false_r.
Qed.

Lemma substring_tail (a b : string) :
  String.substring (String.length a) (String.length b) (a +:+ b) = b.
Proof.
  induction a as [|c a IH].
  - change (String.substring 0 (String.length b) b = b).
    induction b as [|c b IHb]; [reflexivity|].
    simpl. now rewrite IHb.
  - rewrite StrFacts.app_cons. exact IH.
Qed.

(** A name that ends in ".png" after an underscore has the extension
    ".png". *)
Lemma splitext_png (a b : string) :
  Str.splitext (a +:+ String "_" b +:+ ".png") = ".png".
Proof.
  unfold Str.splitext.
  replace (a +:+ String "_" b +:+ ".png")
    with ((a +:+ String "_" b) +:+ String "." "png")
    by (now rewrite StrFacts.app_assoc).
  rewrite (StrFacts.rfind_dot_ext _ "png" eq_refl).
  rewrite StrFacts.substring_app, all_dots_underscore.
  generalize (a +:+ String "_" b). intros pre.
  rewrite (StrFacts.length_app pre).
  replace (String.length pre + String.length (String "." "png")
           - String.length pre)%nat
    with (String.length (String "." "png")) by lia.
  apply substring_tail.
Qed.

(** The names [MergeImagesAsPDFFile] collects have the extension
    ".png": the save of [AddPageNumberIntoImage] encodes them as PNG. *)
Lemma artifact_extension (n : string) :
  Str.glob_match artifact_pattern n = true ->
  Str.lower (Str.splitext n) = ".png".
Proof.
  intros H. destruct (artifact_shape n H) as (a & b & ->).
  change (a +:+ "_cropped_A4_" +:+ b +:+ ".png")
    with (a +:+ String "_" ("cropped_A4_" +:+ b) +:+ ".png").
  now rewrite splitext_png.
Qed.

Lemma glob_matches {V : Type} (pat n : string) (d : list (string * V)) :
  List.In n (Files.glob pat d) -> Str.glob_match pat n = true.
Proof. unfold Files.glob. intros H. now apply List.filter_In in H. Qed.

End ExtensionFacts.

(** ** Decimal numbers in names *)

Module DecimalFacts.

Lemma digit_char_digit (n : Z) :
  0 <= n < 10 ->
  Str.is_digit (Str.digit_char n) = true /\ Str.digit_val (Str.digit_char n) = n.
Proof.
  intros H. rewrite <- (Z2Nat.id n) by lia.
  assert (Z.to_nat n < 10)%nat as Hk by lia.
  revert Hk. generalize (Z.to_nat n) as k. intros k Hk.
  do 10 (destruct k as [|k]; [split; reflexivity|]).
  lia.
Qed.

Lemma digit_plain (c : ascii) :
  Str.is_digit c = true ->
  Str.is_space c = false /\ Ascii.eqb c "_" = false /\ Ascii.eqb c "." = false
  /\ c <> "-"%char /\ c <> "+"%char.
Proof.
  destruct c as [[] [] [] [] [] [] [] []]; intros H; try discriminate H;
    repeat split; try reflexivity; discriminate.
Qed.

Lemma int_digits_digit (a : Z) (c : ascii) (s : string) :
  Str.is_digit c = true ->
  Str.int_digits a (String c s) = Str.int_digits (10 * a + Str.digit_val c) s.
Proof. intros H. simpl. now rewrite H. Qed.

Lemma dec_digits_value (fuel : nat) :
  forall (n : Z) (acc : string) (a : Z),
    0 <= n < 2 ^ Z.of_nat fuel ->
    exists k : Z,
      0 <= k /\
      Str.int_digits a (Str.dec_digits fuel n acc)
      = Str.int_digits (a * 10 ^ k + n) acc.
Proof.
  induction fuel as [|fuel IH]; intros n acc a Hn.
  - exists 0. simpl in *. split; [lia|]. f_equal. lia.
  - cbn [Str.dec_digits].
    pose proof (Z.mod_pos_bound n 10 ltac:(lia)) as Hmod.
    destruct (digit_char_digit (n mod 10) Hmod) as [Hd Hv].
    destruct (Z.ltb_spec n 10) as [Hsmall|Hbig].
    + exists 1. split; [lia|]. rewrite int_digits_digit by exact Hd.
      rewrite Hv, Z.mod_small by lia. f_equal. lia.
    + assert (0 <= n / 10 < 2 ^ Z.of_nat fuel) as Hq.
      { rewrite Nat2Z.inj_succ, Z.pow_succ_r in Hn by lia.
        split; [apply Z.div_pos; lia|].
        apply Z.div_lt_upper_bound; lia. }
      destruct (IH (n / 10) (String (Str.digit_char (n mod 10)) acc) a Hq)
        as (k & Hk & Heq).
      exists (k + 1). split; [lia|]. rewrite Heq.
      rewrite int_digits_digit by exact Hd. rewrite Hv. f_equal.
      rewrite Z.pow_add_r by lia.
      pose proof (Z.div_mod n 10 ltac:(lia)). lia.
Qed.

Lemma dec_digits_all_digits (fuel : nat) :
  forall (n : Z) (acc : string),
    0 <= n -> all_digits acc = true ->
    all_digits (Str.dec_digits fuel n acc) = true.
Proof.
  induction fuel as [|fuel IH]; intros n acc Hn Hacc; [exact Hacc|].
  cbn [Str.dec_digits].
  pose proof (Z.mod_pos_bound n 10 ltac:(lia)) as Hmod.
  destruct (digit_char_digit (n mod 10) Hmod) as [Hd _].
  assert (all_digits (String (Str.digit_char (n mod 10)) acc) = true) as Hacc'
    by (simpl; now rewrite Hd, Hacc).
  destruct (n <? 10); [exact Hacc'|].
  apply IH; [apply Z.div_pos; lia | exact Hacc'].
Qed.

Lemma dec_digits_nonempty (fuel : nat) :
  forall (n : Z) (c : ascii) (acc : string),
    Str.dec_digits fuel n (String c acc) <> "".
Proof.
  induction fuel as [|fuel IH]; intros n c acc; [discriminate|].
  cbn [Str.dec_digits]. destruct (n <? 10); [discriminate | apply IH].
Qed.

Lemma format_d_digits (n : Z) :
  0 <= n ->
  Str.format_d n <> "" /\ all_digits (Str.format_d n) = true
  /\ Str.int_digits 0 (Str.format_d n) = Some n.
Proof.
  intros Hn. unfold Str.format_d.
  destruct (Z.ltb_spec n 0) as [|_]; [lia|].
  split; [|split].
  - cbn [Str.dec_digits]. destruct (n <? 10); [discriminate|].
    apply dec_digits_nonempty.
  - now apply dec_digits_all_digits.
  - destruct (dec_digits_value (S (Z.to_nat (Z.log2 n))) n "" 0) as (k & _ & Heq).
    + rewrite Nat2Z.inj_succ, Z2Nat.id by apply Z.log2_nonneg.
      destruct (Z.eq_dec n 0) as [->|Hpos].
      * simpl. lia.
      * pose proof (Z.log2_spec n ltac:(lia)). lia.
    + rewrite Heq. reflexivity.
Qed.

Lemma format_02d_digits (n : Z) :
  0 <= n ->
  Str.format_02d n <> "" /\ all_digits (Str.format_02d n) = true
  /\ Str.int_digits 0 (Str.format_02d n) = Some n.
Proof.
  intros Hn. destruct (format_d_digits n Hn) as (Hne & Hall & Hval).
  unfold Str.format_02d. destruct (Z.ltb_spec n 0) as [|_]; [lia|].
  destruct (n <? 10); [|now repeat split].
  split; [discriminate|]. split.
  - simpl. exact Hall.
  - rewrite int_digits_digit by reflexivity. exact Hval.
Qed.

Lemma python_int_digits (s : string) :
  s <> "" -> all_digits s = true -> Str.python_int s = Str.int_digits 0 s.
Proof.
  destruct s as [|c s]; [congruence|]. intros _ H. simpl in H.
  apply andb_true_iff in H as [Hc _].
  destruct c as [[] [] [] [] [] [] [] []]; try discriminate Hc; reflexivity.
Qed.

Lemma before_dot_digits (s : string) :
  all_digits s = true -> Str.before "." s = s.
Proof.
  induction s as [|c s IH]; [reflexivity|]. simpl. intros H.
  apply andb_true_iff in H as [Hc Hs].
  destruct (digit_plain c Hc) as (_ & _ & Hdot & _).
  now rewrite Hdot, IH.
Qed.

Lemma digits_not_cropped (s : string) :
  all_digits s = true -> Str.contains "_cropped" s = false.
Proof.
  induction s as [|c s IH]; [reflexivity|]. intros H. simpl in H.
  apply andb_true_iff in H as [Hc Hs].
  change (String.prefix "_cropped" (String c s) || Str.contains "_cropped" s = false).
  rewrite (IH Hs), orb_false_r.
  destruct (digit_plain c Hc) as (_ & Hus & _).
  change (String.prefix "_cropped" (String c s))
    with (if ascii_dec "_" c then String.prefix "cropped" s else false).
  destruct (ascii_dec "_" c) as [<-|]; [discriminate Hus | reflexivity].
Qed.

(** The name of a page image is not taken for a cropped one, and the
    number read off it is the number of the page. *)
Lemma page_name_number (i : Z) :
  0 <= i ->
  Str.contains "_cropped" (Str.stem (page_name i)) = false
  /\ Str.python_int (Str.before "." (Str.stem (page_name i))) = Some (i + 1).
Proof.
  intros Hi.
  destruct (format_02d_digits (i + 1) ltac:(lia)) as (Hne & Hall & Hval).
  assert (Str.stem (page_name i) = Str.format_02d (i + 1)) as ->.
  { unfold page_name. change ".png" with (String "." "png").
    apply StrFacts.stem_ext; [exact Hne | discriminate | reflexivity]. }
  split; [now apply digits_not_cropped|].
  rewrite before_dot_digits by exact Hall.
  now rewrite python_int_digits.
Qed.

End DecimalFacts.

(** ** Listings *)

Module FilesFacts.

Section Listing.
Context {V : Type}.
Implicit Types (d : list (string * V)) (c : V).

Lemma find_write_eq name c d : Files.find name (Files.write name c d) = Some c.
Proof.
  induction d as [|[n c'] d IH]; simpl.
  - now rewrite String.eqb_refl.
  - destruct (String.eqb n name) eqn:E; simpl; rewrite E; auto.
Qed.

Lemma find_write_ne name name' c d :
  name <> name' ->
  Files.find name' (Files.write name c d) = Files.find name' d.
Proof.
  intros Hne. induction d as [|[n c'] d IH]; simpl.
  - destruct (String.eqb name name') eqn:E; [|reflexivity].
    apply String.eqb_eq in E. contradiction.
  - destruct (String.eqb n name) eqn:E; simpl.
    + apply String.eqb_eq in E. subst n.
      destruct (String.eqb name name') eqn:E'; [|reflexivity].
      apply String.eqb_eq in E'. contradiction.
    + now rewrite IH.
Qed.

(** Overwriting an entry leaves the order of the listing as it is. *)
Lemma names_write_present name c d :
  Files.find name d <> None ->
  List.map fst (Files.write name c d) = List.map fst d.
Proof.
  induction d as [|[n c'] d IH]; simpl; [congruence|].
  destruct (String.eqb n name) eqn:E; simpl; [reflexivity|].
  intros H. now rewrite IH.
Qed.

End Listing.

End FilesFacts.

(** ** Cropping and splitting *)

Section Geometry.

Variable cfg : Config.

Lemma inside_spec (img : Image) (x y : Z) :
  inside img x y = true <-> 0 <= x < width img /\ 0 <= y < height img.
Proof.
  unfold inside. rewrite !andb_true_iff, !Z.leb_le, !Z.ltb_lt. lia.
Qed.

Lemma Image_crop_ok (img : Image) (x0 y0 x1 y1 : Z) :
  x0 <= x1 -> y0 <= y1 ->
  Image_crop img (x0, y0, x1, y1) = Ok (cropped_to img x0 y0 x1 y1).
Proof.
  intros Hx Hy. unfold Image_crop.
  destruct (Z.ltb_spec x1 x0); [lia|].
  destruct (Z.ltb_spec y1 y0); [lia|].
  reflexivity.
Qed.

Lemma Image_crop_inverted (img : Image) (x0 y0 x1 y1 : Z) :
  x1 < x0 \/ y1 < y0 ->
  Image_crop img (x0, y0, x1, y1) = Raise ValueError.
Proof.
  intros H. unfold Image_crop.
  destruct (Z.ltb_spec x1 x0); [reflexivity|].
  destruct (Z.ltb_spec y1 y0); [reflexivity|lia].
Qed.

Lemma Image_open_png (name : string) (d : Dir) (img : Image) :
  Files.find name d = Some (Png img) -> Image_open name d = (Ok img, d).
Proof. intros H. unfold Image_open. now rewrite H. Qed.

(** Saving an image that has pixels. *)
Lemma Image_save_ok (name : string) (img : Image) (d : Dir) :
  0 < width img -> 0 < height img ->
  Image_save name img d = (Ok tt, Files.write name (Png img) d).
Proof.
  intros Hw Hh. unfold Image_save, Image_empty.
  destruct (Z.leb_spec (width img) 0); [lia|].
  destruct (Z.leb_spec (height img) 0); [lia|]. reflexivity.
Qed.

(** Saving an image without pixels. *)
Lemma Image_save_refused (name : string) (img : Image) (d : Dir) :
  width img <= 0 \/ height img <= 0 ->
  Image_save name img d = (Raise EncoderError, save_failed name d).
Proof.
  intros H. unfold Image_save, Image_empty.
  destruct (Z.leb_spec (width img) 0); [reflexivity|].
  destruct (Z.leb_spec (height img) 0); [reflexivity|lia].
Qed.

(** A save that fails touches no other name, and leaves no image under
    its own. *)
Lemma save_failed_other (name other : string) (d : Dir) :
  name <> other -> Files.find other (save_failed name d) = Files.find other d.
Proof.
  intros Hne. unfold save_failed.
  destruct (Files.find name d); [|reflexivity].
  now apply FilesFacts.find_write_ne.
Qed.

Lemma save_failed_absent (name : string) (d : Dir) :
  Files.find name d = None -> save_failed name d = d.
Proof. intros H. unfold save_failed. now rewrite H. Qed.

Lemma save_failed_no_image (name : string) (d : Dir) (img : Image) :
  Files.find name (save_failed name d) <> Some (Png img).
Proof.
  unfold save_failed. destruct (Files.find name d) eqn:E.
  - rewrite FilesFacts.find_write_eq. discriminate.
  - rewrite E. discriminate.
Qed.

Lemma left_right_differ (name : string) : left_name name <> right_name name.
Proof.
  unfold left_name, right_name. intros H.
  apply StrFacts.app_inj_l in H. discriminate.
Qed.

(** Half of a width of two pixels or more leaves a pixel on each
    side. *)
Lemma half_width_bounds (w : Z) : 2 <= w -> 1 <= w / 2 /\ w / 2 + 1 <= w.
Proof.
  intros H. pose proof (Z.div_mod w 2 ltac:(lia)).
  pose proof (Z.mod_pos_bound w 2 ltac:(lia)). lia.
Qed.

(** What [SplitCroppedIntoA4Files] does to a folder that holds the
    image, two pixels wide or more. *)
Lemma split_run (name : string) (d : Dir) (img : Image) :
  Files.find name d = Some (Png img) ->
  2 <= width img -> 1 <= height img ->
  SplitCroppedIntoA4Files name d =
    (Ok (left_name name, right_name name),
     Files.write (right_name name)
       (Png (cropped_to img (width img / 2) 0 (width img) (height img)))
       (Files.write (left_name name)
          (Png (cropped_to img 0 0 (width img / 2) (height img))) d)).
Proof.
  intros Hf Hw Hh. unfold SplitCroppedIntoA4Files, bind.
  rewrite (Image_open_png _ _ _ Hf). unfold lift. cbv zeta.
  destruct (half_width_bounds (width img) Hw) as [Hlo Hhi].
  rewrite (Image_crop_ok img 0 0) by lia.
  rewrite (Image_crop_ok img (width img / 2) 0) by lia.
  fold (left_name name) (right_name name).
  rewrite Image_save_ok by (simpl; lia).
  rewrite Image_save_ok by (simpl; lia).
  reflexivity.
Qed.

(** An image one pixel wide, or without pixels, has no left half to
    encode: [SplitCroppedIntoA4Files] raises at the first save and writes
    no half. *)
Lemma split_narrow (name : string) (d : Dir) (img : Image) :
  Files.find name d = Some (Png img) ->
  0 <= width img -> 0 <= height img ->
  width img <= 1 \/ height img = 0 ->
  SplitCroppedIntoA4Files name d =
    (Raise EncoderError, save_failed (left_name name) d).
Proof.
  intros Hf Hw Hh Hnarrow. unfold SplitCroppedIntoA4Files, bind.
  rewrite (Image_open_png _ _ _ Hf). unfold lift. cbv zeta.
  assert (0 <= width img / 2 <= width img) as Hhalf
    by (split; [apply Z.div_pos | apply Z.div_le_upper_bound]; lia).
  rewrite (Image_crop_ok img 0 0) by lia.
  rewrite (Image_crop_ok img (width img / 2) 0) by lia.
  fold (left_name name) (right_name name).
  rewrite Image_save_refused; [reflexivity|]. simpl.
  destruct Hnarrow as [H1|H0]; [left|right; lia].
  assert (width img / 2 = 0) as -> by (apply Z.div_small; lia). lia.
Qed.

(** [CropImageFile] up to the saving of the cropped image, when the
    ratio is not zero and the margins leave at least one pixel of the
    image: the cropped file is written and the rest is
    [SplitCroppedIntoA4Files]. *)
Lemma crop_then_split (name : string) (d : Dir) (img : Image) (l t r b : Z) :
  let ratio := 300 / Pdf2Image_Default_Dpi cfg in
  let box := cropped_to img (l / ratio) (t / ratio)
               (width img - r / ratio) (height img - b / ratio) in
  let croppedName := Str.stem name +:+ "_cropped.png" in
  Files.find name d = Some (Png img) ->
  ratio <> 0 ->
  l / ratio < width img - r / ratio ->
  t / ratio < height img - b / ratio ->
  CropImageFile cfg name l t r b d =
    (SplitCroppedIntoA4Files croppedName ;; ret croppedName)
      (Files.write croppedName (Png box) d).
Proof.
  intros ratio box croppedName Hf Hr Hw Hh.
  assert (Pdf2Image_Default_Dpi cfg <> 0) as Hdpi.
  { intros E. apply Hr. unfold ratio. rewrite E. apply Z.div_0_r. }
  unfold CropImageFile, bind.
  rewrite (Image_open_png _ _ _ Hf). unfold lift, floordiv.
  destruct (Z.eqb_spec (Pdf2Image_Default_Dpi cfg) 0); [contradiction|].
  fold ratio.
  destruct (Z.eqb_spec ratio 0); [contradiction|].
  rewrite Image_crop_ok by lia.
  fold box croppedName.
  rewrite Image_save_ok by (unfold box; simpl; lia).
  reflexivity.
Qed.

(** What [CropImageFile] does to a folder that holds the image, when
    the ratio is not zero and the margins leave two columns or more and
    one row or more of the image. *)
Lemma crop_run (name : string) (d : Dir) (img : Image) (l t r b : Z) :
  let ratio := 300 / Pdf2Image_Default_Dpi cfg in
  let box := cropped_to img (l / ratio) (t / ratio)
               (width img - r / ratio) (height img - b / ratio) in
  let croppedName := Str.stem name +:+ "_cropped.png" in
  Files.find name d = Some (Png img) ->
  ratio <> 0 ->
  l / ratio + 2 <= width img - r / ratio ->
  t / ratio + 1 <= height img - b / ratio ->
  CropImageFile cfg name l t r b d =
    (Ok croppedName,
     Files.write (right_name croppedName)
       (Png (cropped_to box (width box / 2) 0 (width box) (height box)))
       (Files.write (left_name croppedName)
          (Png (cropped_to box 0 0 (width box / 2) (height box)))
          (Files.write croppedName (Png box) d))).
Proof.
  intros ratio box croppedName Hf Hr Hw Hh.
  pose proof (crop_then_split name d img l t r b) as Hrun. cbv zeta in Hrun.
  fold ratio in Hrun. fold box croppedName in Hrun.
  rewrite Hrun by (assumption || lia). unfold bind.
  rewrite (split_run croppedName _ box).
  - reflexivity.
  - apply FilesFacts.find_write_eq.
  - unfold box. simpl. lia.
  - unfold box. simpl. lia.
Qed.

(** When the margins leave a single column of the image, the cropped
    file is written, and [CropImageFile] raises in the splitting: there
    is no left half to encode. *)
Lemma crop_narrow (name : string) (d : Dir) (img : Image) (l t r b : Z) :
  let ratio := 300 / Pdf2Image_Default_Dpi cfg in
  let box := cropped_to img (l / ratio) (t / ratio)
               (width img - r / ratio) (height img - b / ratio) in
  let croppedName := Str.stem name +:+ "_cropped.png" in
  Files.find name d = Some (Png img) ->
  ratio <> 0 ->
  l / ratio + 1 = width img - r / ratio ->
  t / ratio + 1 <= height img - b / ratio ->
  CropImageFile cfg name l t r b d =
    (Raise EncoderError,
     save_failed (left_name croppedName) (Files.write croppedName (Png box) d)).
Proof.
  intros ratio box croppedName Hf Hr Hw Hh.
  pose proof (crop_then_split name d img l t r b) as Hrun. cbv zeta in Hrun.
  fold ratio in Hrun. fold box croppedName in Hrun.
  rewrite Hrun by (assumption || lia). unfold bind.
  rewrite (split_narrow croppedName _ box).
  - reflexivity.
  - apply FilesFacts.find_write_eq.
  - unfold box. simpl. lia.
  - unfold box. simpl. lia.
  - left. unfold box. simpl. lia.
Qed.

Lemma cropped_name_kept (name : string) :
  let croppedName := Str.stem name +:+ "_cropped.png" in
  left_name croppedName <> croppedName /\ right_name croppedName <> croppedName.
Proof.
  intros croppedName. unfold left_name, right_name, croppedName.
  rewrite StrFacts.stem_cropped, !StrFacts.app_assoc.
  split; intros H; apply StrFacts.app_inj_l in H; discriminate.
Qed.

End Geometry.


(** ** Captions *)

Section CaptionFacts.

Variable cfg : Config.
Variable host : Host.

(** Loading a font that is installed, at a size above zero. *)
Lemma truetype_run (font : string) (size : Z) :
  0 < size -> truetype host font size = true ->
  ImageFont_truetype host font size = Ok font.
Proof.
  intros Hsize Hfont. unfold ImageFont_truetype.
  destruct (Z.leb_spec size 0); [lia|]. now rewrite Hfont.
Qed.

(** No font loads at a size of zero or less. *)
Lemma truetype_size_refused (font : string) (size : Z) :
  size <= 0 -> ImageFont_truetype host font size = Raise ValueError.
Proof.
  intros Hsize. unfold ImageFont_truetype.
  destruct (Z.leb_spec size 0); [reflexivity|lia].
Qed.

(** Saving an image that has pixels under a name with the extension
    ".png", in any case of the letters. *)
Lemma save_by_extension_png (name : string) (img : Image) (d : Dir) :
  Str.lower (Str.splitext name) = ".png" ->
  Image_save_by_extension host name img d = Image_save name img d.
Proof. intros Hext. unfold Image_save_by_extension. now rewrite Hext. Qed.

(** The captioned image has the size of the image. *)
Lemma captioned_size (windir_ : string) (img : Image) (totalPages pageNumber : Z)
    (pagerMemo : string) :
  width (captioned cfg host windir_ img totalPages pageNumber pagerMemo)
  = width img
  /\ height (captioned cfg host windir_ img totalPages pageNumber pagerMemo)
     = height img.
Proof. split; reflexivity. Qed.

(** What [AddPageNumberIntoImage] does to a folder that holds the
    image under a name with the extension ".png", on a host where the
    caption font loads at the size computed for the image. *)
Lemma caption_run (name : string) (d : Dir) (img : Image) (windir_ : string)
    (totalPages pageNumber : Z) (pagerMemo : string) :
  Files.find name d = Some (Png img) ->
  Pdf2Image_Default_Dpi cfg <> 0 ->
  windir host = Some windir_ ->
  0 < caption_size cfg host img ->
  truetype host (caption_font host windir_) (caption_size cfg host img) = true ->
  Str.lower (Str.splitext name) = ".png" ->
  0 < width img -> 0 < height img ->
  AddPageNumberIntoImage cfg host name totalPages pageNumber pagerMemo d =
    (Ok name,
     Files.write name
       (Png (captioned cfg host windir_ img totalPages pageNumber pagerMemo)) d).
Proof.
  intros Hf Hdpi Hw Hsize Hfont Hext Hwidth Hheight.
  unfold AddPageNumberIntoImage, bind.
  rewrite (Image_open_png _ _ _ Hf).
  destruct (Z.eqb_spec (Pdf2Image_Default_Dpi cfg) 0); [contradiction|].
  rewrite Hw. unfold captioned, caption_text, caption_font, caption_size,
    localized in *.
  destruct (path_exists host (path_join host windir_ "fonts\msyh.ttc"));
    unfold lift; rewrite (truetype_run _ _ Hsize Hfont);
    unfold ret; cbv beta iota zeta;
    rewrite (save_by_extension_png _ _ _ Hext);
    rewrite Image_save_ok by (simpl; lia); reflexivity.
Qed.

(** The same, for an image the host can caption. *)
Lemma caption_can (name : string) (d : Dir) (img : Image)
    (totalPages pageNumber : Z) (pagerMemo : string) :
  Files.find name d = Some (Png img) ->
  can_caption cfg host img ->
  Str.lower (Str.splitext name) = ".png" ->
  exists windir_,
    windir host = Some windir_
    /\ AddPageNumberIntoImage cfg host name totalPages pageNumber pagerMemo d =
       (Ok name,
        Files.write name
          (Png (captioned cfg host windir_ img totalPages pageNumber pagerMemo))
          d).
Proof.
  intros Hf (Hdpi & Hwidth & Hheight & Hsize & w & Hw & Hfont) Hext.
  exists w. split; [exact Hw|]. now apply caption_run.
Qed.

(** Whether the host can caption an image depends on its size only. *)
Lemma can_caption_size (img img' : Image) :
  width img' = width img -> height img' = height img ->
  can_caption cfg host img -> can_caption cfg host img'.
Proof.
  intros Ew Eh. unfold can_caption, caption_size. now rewrite Ew, Eh.
Qed.

End CaptionFacts.

(** ** The batch *)

Section BatchFacts.

Variable cfg : Config.
Variable host : Host.

(** A document [MergeImagesAsPDFFile] returns is named after the stem of
    the folder and stands in the folder of the results. *)
Lemma merge_result (imageDir : string) (addPager : bool) (pagerMemo : string)
    (verbose : bool) (s s' : Store Directory) (pdfFilename : string) :
  MergeImagesAsPDFFile cfg host imageDir addPager pagerMemo verbose s
    = (Ok pdfFilename, s') ->
  pdfFilename = Str.stem imageDir +:+ "_A4.pdf"
  /\ exists (results : Dir) (pages : list PdfPage),
       Files.find "_A4_" (files s') = Some (ESub results)
       /\ Files.find pdfFilename results = Some (Pdf pages).
Proof.
  unfold MergeImagesAsPDFFile, bind. intros H.
  destruct (on_files (mkdir_exist_ok "_A4_") s) as [[[]|e] s1];
    [|discriminate].
  unfold get at 1 in H.
  destruct (merge_pages _ _ _ _ _ _ _ _ _ _ s1) as [[pdf|e] s2];
    [|discriminate].
  unfold on_files, in_dir, modify in H.
  destruct (Files.find "_A4_" (files s2)) as [[c|results]|] eqn:E;
    try discriminate.
  unfold ret in H. injection H as Hname Hs. subst pdfFilename s'.
  split; [reflexivity|]. simpl.
  eexists. eexists. split.
  - apply FilesFacts.find_write_eq.
  - apply FilesFacts.find_write_eq.
Qed.

(** The name of a result carries the mark of the processed files, and so
    does its stem. *)
Lemma result_name_marked (imageDir : string) :
  Str.contains "_A4" (Str.stem imageDir +:+ "_A4.pdf") = true
  /\ Str.contains "_A4" (Str.stem (Str.stem imageDir +:+ "_A4.pdf")) = true.
Proof.
  split.
  - change "_A4.pdf" with ("_A4" +:+ ".pdf"). apply StrFacts.contains_app.
  - rewrite StrFacts.stem_A4_pdf. apply StrFacts.contains_suffix.
Qed.

Section Candidates.

Variable cropMargins : Margins.
Variables include_pattern exclude_pattern : option (string -> bool).
Variables reverseLeftAndRight showPager : bool.
Variable pagerText : string.
Variable verbose : bool.

Let candidate :=
  process_candidate cfg host cropMargins include_pattern exclude_pattern
    reverseLeftAndRight showPager pagerText verbose.

Let candidates :=
  process_candidates cfg host cropMargins include_pattern exclude_pattern
    reverseLeftAndRight showPager pagerText verbose.

(** A candidate with the mark in its stem is passed over: the
    counters, the files and the console stay as they are. *)
Lemma marked_candidate_skipped (counters : Z * Z) (pdfFilename : string)
    (s : Store Directory) :
  Str.contains "_A4" (Str.stem pdfFilename) = true ->
  candidate counters pdfFilename s = (Ok counters, s).
Proof.
  intros Hmark. unfold candidate, process_candidate.
  destruct counters as [count ignore]. now rewrite Hmark.
Qed.

(** The loop over the candidates runs as if the marked ones were not
    listed. *)
Lemma marked_candidates_filtered (pdfFiles : list string) (counters : Z * Z)
    (s : Store Directory) :
  candidates pdfFiles counters s =
  candidates
    (List.filter (fun f => negb (Str.contains "_A4" (Str.stem f))) pdfFiles)
    counters s.
Proof.
  revert counters s. induction pdfFiles as [|f pdfFiles IH]; intros counters s.
  - reflexivity.
  - simpl List.filter.
    destruct (Str.contains "_A4" (Str.stem f)) eqn:Hmark; simpl negb; cbv iota.
    + rewrite <- IH. unfold candidates at 1. simpl. unfold bind.
      fold candidate. rewrite (marked_candidate_skipped _ _ _ Hmark).
      reflexivity.
    + unfold candidates. simpl. unfold bind.
      destruct (process_candidate _ _ _ _ _ _ _ _ _ _ f s) as [[c|e] s1];
        [|reflexivity].
      apply IH.
Qed.

(** An exception in one candidate ends the loop there: nothing of the
    candidates after it runs. *)
Lemma candidate_failure_ends_loop (f : string) (pdfFiles : list string)
    (counters : Z * Z) (s s' : Store Directory) (e : Exn) :
  candidate counters f s = (Raise e, s') ->
  candidates (f :: pdfFiles) counters s = (Raise e, s').
Proof.
  intros H. unfold candidates. simpl. unfold bind.
  fold candidate. now rewrite H.
Qed.

End Candidates.

End BatchFacts.

Section BatchFailure.

Variable cfg : Config.
Variable host : Host.
Variable cropMargins : Margins.
Variables include_pattern exclude_pattern : option (string -> bool).
Variables reverseLeftAndRight showPager : bool.
Variable pagerText : string.
Variable verbose : bool.

Let candidate :=
  process_candidate cfg host cropMargins include_pattern exclude_pattern
    reverseLeftAndRight showPager pagerText verbose.

Let candidates :=
  process_candidates cfg host cropMargins include_pattern exclude_pattern
    reverseLeftAndRight showPager pagerText verbose.

Lemma candidates_app (pre post : list string) (counters0 counters1 : Z * Z)
    (s0 s1 : Store Directory) :
  candidates pre counters0 s0 = (Ok counters1, s1) ->
  candidates (pre ++ post) counters0 s0 = candidates post counters1 s1.
Proof.
  revert counters0 s0. induction pre as [|f pre IH]; intros counters0 s0 H.
  - unfold candidates in H. simpl in H. unfold ret in H.
    injection H as -> ->. reflexivity.
  - unfold candidates in *. simpl in *. unfold bind in *.
    destruct (process_candidate _ _ _ _ _ _ _ _ _ _ f s0) as [[c|e] s'];
      [|discriminate].
    now apply IH.
Qed.

(** The loop stops at the first candidate that raises, with the store
    that candidate left. *)
Lemma candidates_stop (pre rest : list string) (f : string)
    (counters0 counters1 : Z * Z) (s0 s1 s2 : Store Directory) (e : Exn) :
  candidates pre counters0 s0 = (Ok counters1, s1) ->
  candidate counters1 f s1 = (Raise e, s2) ->
  candidates (pre ++ f :: rest) counters0 s0 = (Raise e, s2).
Proof.
  intros Hpre Hf. rewrite (candidates_app _ _ _ _ _ _ Hpre).
  now apply candidate_failure_ends_loop.
Qed.

(** A document the rasterizer rejects raises in its candidate; the
    folder made for its pages stays behind. *)
Lemma corrupt_candidate_raises (counters : Z * Z) (f : string)
    (s : Store Directory) (c : Content) :
  Str.contains "_A4" (Str.stem f) = false ->
  passes include_pattern exclude_pattern f = true ->
  Files.find f (files s) = Some (EFile c) ->
  Files.find (Str.stem f) (files s) = None ->
  Str.stem f <> f ->
  convert_from_path host c (Pdf2Image_Default_Dpi cfg) = None ->
  candidate counters f s =
    (Raise RasterizerError,
     {| files := Files.write (Str.stem f) (ESub []) (files s);
        console := console s |}).
Proof.
  intros Hmark Hpass Hfile Hfolder Hne Hbad.
  unfold candidate, process_candidate. destruct counters as [count ignore].
  rewrite Hmark. unfold passes in Hpass.
  apply andb_true_iff in Hpass as [Hin Hex].
  apply negb_true_iff in Hin. apply negb_true_iff in Hex.
  rewrite Hin, Hex.
  unfold bind, on_files, ExtractImagesFromPdfFile, bind, mkdir_exist_ok, get.
  rewrite Hfolder.
  rewrite FilesFacts.find_write_ne by exact Hne.
  rewrite Hfile, Hbad. reflexivity.
Qed.

End BatchFailure.

Section DirectoryFacts.

Variable cfg : Config.
Variable host : Host.

(** [process_directory] is its loop between the opening lines and the
    closing line; when the loop raises, the closing line is not
    printed. *)
Lemma process_directory_run (pdfDir : string) (cropMargins : Margins)
    (regexInFilenameIncluded regexInFilenameExcluded : string)
    (reverseLeftAndRight showPager : bool) (pagerText : string)
    (verbose : bool) (s : Store Directory)
    (include_pattern exclude_pattern : option (string -> bool)) :
  (forall s0 : Store Directory,
     compile_if_given host regexInFilenameIncluded s0 = (Ok include_pattern, s0)) ->
  (forall s0 : Store Directory,
     compile_if_given host regexInFilenameExcluded s0 = (Ok exclude_pattern, s0)) ->
  process_directory cfg host pdfDir cropMargins regexInFilenameIncluded
    regexInFilenameExcluded reverseLeftAndRight showPager pagerText verbose s
  = match process_candidates cfg host cropMargins include_pattern
            exclude_pattern reverseLeftAndRight showPager pagerText verbose
            (Files.glob "*.pdf" (files s)) (0, 0)
            (started pdfDir regexInFilenameIncluded regexInFilenameExcluded s)
    with
    | (Ok counters, s') =>
        (Ok tt,
         {| files := files s';
            console :=
              (console s' ++ [MsgDone (fst counters) (snd counters)])%list |})
    | (Raise e, s') => (Raise e, s')
    end.
Proof.
  intros Hin Hex. unfold process_directory, bind, started.
  unfold WriteText at 1. rewrite orb_true_r. unfold modify at 1.
  cbv beta iota.
  assert (forall (b : bool) (m : Message) (t : Store Directory),
            (if b then WriteText cfg m true else ret tt) t
            = (Ok tt, {| files := files t;
                         console := (console t ++ if b then [m] else [])%list |}))
    as Hopt.
  { intros b m [t con]. destruct b; unfold WriteText, modify, ret; simpl.
    - now rewrite orb_true_r.
    - now rewrite List.app_nil_r. }
  rewrite !Hopt. unfold get. cbv beta iota. simpl files. simpl console.
  rewrite Hin, Hex. rewrite <- !List.app_assoc.
  destruct (process_candidates _ _ _ _ _ _ _ _ _ _ _ _) as [[counters|e] s'];
    [|reflexivity].
  unfold WriteText, modify. now rewrite orb_true_r.
Qed.

End DirectoryFacts.

(** ** Assembly *)

Section AssemblyFacts.

Variable cfg : Config.
Variable host : Host.

(** [WriteText] returns, and touches the console only. *)
Lemma WriteText_run {T} (text : Message) (verbose : bool) (s : Store T) :
  WriteText cfg text verbose s =
    (Ok tt,
     {| files := files s;
        console := if Debug_Mode cfg || verbose
                   then (console s ++ [text])%list else console s |}).
Proof.
  unfold WriteText. destruct (Debug_Mode cfg || verbose); [reflexivity|].
  now destruct s.
Qed.

(** Running a computation in a folder that exists. *)
Lemma in_dir_run {A} (name : string) (c : M Dir A) (s : Store Directory)
    (d d' : Dir) (r : Res A) :
  Files.find name (files s) = Some (ESub d) ->
  c d = (r, d') ->
  on_files (in_dir name c) s =
    (r, {| files := Files.write name (ESub d') (files s);
           console := console s |}).
Proof.
  intros Hdir Hc. unfold on_files, in_dir. now rewrite Hdir, Hc.
Qed.

(** The folder of the results stays a folder when a folder is
    written. *)
Lemma results_folder_kept (name : string) (d : Dir) (t : Directory) :
  (exists results, Files.find "_A4_" t = Some (ESub results)) ->
  exists results,
    Files.find "_A4_" (Files.write name (ESub d) t) = Some (ESub results).
Proof.
  intros [results H]. destruct (String.eqb_spec name "_A4_") as [->|Hne].
  - exists d. apply FilesFacts.find_write_eq.
  - exists results. now rewrite FilesFacts.find_write_ne.
Qed.

Lemma all_png_write (names : list string) (d : Dir) (n : string)
    (img : Image) :
  all_png names d -> all_png names (Files.write n (Png img) d).
Proof.
  intros H m Hm. destruct (String.eqb_spec n m) as [->|Hne].
  - exists img. apply FilesFacts.find_write_eq.
  - rewrite FilesFacts.find_write_ne by exact Hne. now apply H.
Qed.

Lemma all_png_tail (n : string) (names : list string) (d : Dir) :
  all_png (n :: names) d -> all_png names d.
Proof. intros H m Hm. apply H. now right. Qed.

(** The image a caption leaves under a name is an image the host can
    caption again, and the other names hold what they held. *)
Lemma all_captionable_write (names : list string) (d : Dir) (n : string)
    (img : Image) (windir_ : string) (totalPages pageNumber : Z)
    (pagerMemo : string) :
  Files.find n d = Some (Png img) ->
  can_caption cfg host img ->
  all_captionable cfg host names d ->
  all_captionable cfg host names
    (Files.write n
       (Png (captioned cfg host windir_ img totalPages pageNumber pagerMemo)) d).
Proof.
  intros Himg Hcan H m img' Hm Hfind.
  destruct (String.eqb_spec n m) as [->|Hne].
  - rewrite FilesFacts.find_write_eq in Hfind. injection Hfind as <-.
    now apply (can_caption_size cfg host img).
  - rewrite FilesFacts.find_write_ne in Hfind by exact Hne. now apply (H m).
Qed.

(** The pages of the document follow the names when the pages added
    carry the images of the names. *)
Lemma output_follows (pages : list PdfPage) (names : list string) :
  List.Forall2 carries pages names -> pages_follow (FPDF_output pages) names.
Proof.
  intros H. destruct H as [|p n pages names Hp H]; [reflexivity|].
  simpl. now constructor.
Qed.

Section Loop.

Variable imageDir : string.
Variable addPager : bool.
Variable pagerMemo : string.
Variable verbose : bool.
Variable totalPages : Z.

(** The names are images of the folder and, when captions are asked for,
    images the host can caption under names with the extension ".png". *)
Definition mergeable (names : list string) (d : Dir) : Prop :=
  all_png names d
  /\ (addPager = true ->
      all_captionable cfg host names d
      /\ forall n, List.In n names -> Str.lower (Str.splitext n) = ".png").

Lemma mergeable_tail (n : string) (names : list string) (d : Dir) :
  mergeable (n :: names) d -> mergeable names d.
Proof.
  intros [Hpng Hcap]. split; [now apply all_png_tail with (n := n)|].
  intros Hadd. destruct (Hcap Hadd) as [Hcan Hext]. split.
  - intros m img Hm. apply Hcan. now right.
  - intros m Hm. apply Hext. now right.
Qed.

(** One iteration of the loop of [MergeImagesAsPDFFile]: the image is
    appended as one page, and the folders are as the next iteration
    needs them. *)
Lemma merge_pages_step (n : string) (names : list string)
    (pageNumber : Z) (pdf : list PdfPage) (s : Store Directory) (d : Dir) :
  Files.find imageDir (files s) = Some (ESub d) ->
  mergeable (n :: names) d ->
  (exists results, Files.find "_A4_" (files s) = Some (ESub results)) ->
  exists (s1 : Store Directory) (d1 : Dir) (placed : Image),
    merge_pages cfg host imageDir addPager pagerMemo verbose totalPages
      (n :: names) pageNumber pdf s
    = merge_pages cfg host imageDir addPager pagerMemo verbose totalPages
        names (pageNumber + 1)
        (pdf ++ [ImagePage n placed (0, 0, 210, 297)])%list s1
    /\ Files.find imageDir (files s1) = Some (ESub d1)
    /\ mergeable names d1
    /\ (exists results, Files.find "_A4_" (files s1) = Some (ESub results)).
Proof.
  intros Hdir Hready HA4.
  pose proof (mergeable_tail _ _ _ Hready) as Htail.
  destruct Hready as [Hpng Hcap].
  destruct (Hpng n (or_introl eq_refl)) as [img Himg].
  (* the caption *)
  assert (exists (s0 : Store Directory) (d0 : Dir) (img0 : Image),
            (if addPager
             then on_files (in_dir imageDir
                    (AddPageNumberIntoImage cfg host n totalPages
                       (pageNumber + 1) pagerMemo)) ;; ret tt
             else ret tt) s = (Ok tt, s0)
            /\ Files.find imageDir (files s0) = Some (ESub d0)
            /\ Files.find n d0 = Some (Png img0)
            /\ mergeable names d0
            /\ (exists results,
                  Files.find "_A4_" (files s0) = Some (ESub results)))
    as (s0 & d0 & img0 & Hrun0 & Hdir0 & Himg0 & Hready0 & HA40).
  { destruct addPager eqn:Hadd.
    - destruct (Hcap eq_refl) as [Hcan Hext].
      pose proof (Hcan n img (or_introl eq_refl) Himg) as Hcan_n.
      destruct (caption_can cfg host n d img totalPages (pageNumber + 1)
                  pagerMemo Himg Hcan_n (Hext n (or_introl eq_refl)))
        as (w & Hw & Hrun).
      eexists. eexists. eexists. split.
      { unfold bind. rewrite (in_dir_run _ _ _ _ _ _ Hdir Hrun). reflexivity. }
      simpl. split; [apply FilesFacts.find_write_eq|].
      split; [apply FilesFacts.find_write_eq|].
      split; [|now apply results_folder_kept].
      destruct Htail as [Hpng' Hcap']. split.
      + now apply all_png_write.
      + intros _. destruct (Hcap' Hadd) as [Hcan' Hext']. split; [|exact Hext'].
        now apply all_captionable_write.
    - exists s, d, img. split; [reflexivity|].
      split; [exact Hdir|]. split; [exact Himg|].
      split; [exact Htail | exact HA4]. }
  pose proof (Image_open_png n d0 img0 Himg0) as Hopen.
  eexists. exists d0, img0. split; [|split; [|split]].
  - cbn [merge_pages]. unfold bind at 1. rewrite Hrun0.
    unfold bind at 1. rewrite (in_dir_run _ _ _ _ _ _ Hdir0 Hopen).
    unfold bind at 1.
    erewrite in_dir_run;
      [|simpl files; apply FilesFacts.find_write_eq | exact Hopen].
    unfold bind at 1. rewrite WriteText_run. reflexivity.
  - simpl files. apply FilesFacts.find_write_eq.
  - exact Hready0.
  - simpl files. apply results_folder_kept. now apply results_folder_kept.
Qed.

(** The loop of [MergeImagesAsPDFFile] returns: it appends one page
    for each name, in the order of the names, that carries the image of
    the name on the sheet of 210 by 297. *)
Lemma merge_pages_run (names : list string) :
  forall (pageNumber : Z) (pdf : list PdfPage) (s : Store Directory) (d : Dir),
    Files.find imageDir (files s) = Some (ESub d) ->
    mergeable names d ->
    (exists results, Files.find "_A4_" (files s) = Some (ESub results)) ->
    exists (s' : Store Directory) (pages : list PdfPage),
      merge_pages cfg host imageDir addPager pagerMemo verbose totalPages
        names pageNumber pdf s
      = (Ok (pdf ++ pages)%list, s')
      /\ List.Forall2 carries pages names
      /\ (exists results, Files.find "_A4_" (files s') = Some (ESub results)).
Proof.
  induction names as [|n names IH]; intros pageNumber pdf s d Hdir Hready HA4.
  - exists s, []. rewrite List.app_nil_r.
    split; [reflexivity|]. split; [constructor|exact HA4].
  - destruct (merge_pages_step n names pageNumber pdf s d Hdir Hready HA4)
      as (s1 & d1 & placed & Hstep & Hdir1 & Hready1 & HA41).
    destruct (IH (pageNumber + 1)
                (pdf ++ [ImagePage n placed (0, 0, 210, 297)])%list
                s1 d1 Hdir1 Hready1 HA41)
      as (s' & pages & Hrun & Hpages & HA4').
    exists s', (ImagePage n placed (0, 0, 210, 297) :: pages).
    split; [|split].
    + rewrite Hstep, Hrun. now rewrite <- List.app_assoc.
    + constructor; [now exists placed | exact Hpages].
    + exact HA4'.
Qed.

End Loop.

(** Making the folder of the results leaves the folder of the images as
    it is. *)
Lemma mkdir_results_run (imageDir : string) (s : Store Directory) (d : Dir) :
  Files.find imageDir (files s) = Some (ESub d) ->
  (forall c, Files.find "_A4_" (files s) <> Some (EFile c)) ->
  exists s1 : Store Directory,
    on_files (mkdir_exist_ok "_A4_") s = (Ok tt, s1)
    /\ Files.find imageDir (files s1) = Some (ESub d)
    /\ (exists results, Files.find "_A4_" (files s1) = Some (ESub results)).
Proof.
  intros Hdir Hfile. unfold on_files, mkdir_exist_ok.
  destruct (Files.find "_A4_" (files s)) as [[c|results]|] eqn:HA4.
  - now elim (Hfile c).
  - eexists. split; [reflexivity|]. simpl files.
    split; [exact Hdir | now exists results].
  - eexists. split; [reflexivity|]. simpl files. split.
    + rewrite FilesFacts.find_write_ne; [exact Hdir|].
      intros E. rewrite <- E in Hdir. congruence.
    + eexists. apply FilesFacts.find_write_eq.
Qed.

End AssemblyFacts.
(** C1. For an image of width W and height H whose margins, each
    floor-divided by the ratio of 300 to the rasterization DPI, satisfy
    leftPx + rightPx < W and topPx + bottomPx < H, [CropImageFile] crops
    the rectangle (leftPx, topPx, W - rightPx, H - bottomPx) of the page
    and writes it to the cropped file: when the call is over, that file
    holds an image of W - leftPx - rightPx by H - topPx - bottomPx pixels.
    The call returns the name of the cropped file when the cropped image
    is two pixels wide or more.  When it is one pixel wide the cropped
    file is written all the same, and the call then raises in
    [SplitCroppedIntoA4Files], whose left half would have no pixel. *)
Theorem CropImageFile_dimensions (cfg : Config) (d : Dir) (imageFilename : string)
    (img : Image) (leftMargin topMargin rightMargin bottomMargin : Z) :
  let dpiRatio := 300 / Pdf2Image_Default_Dpi cfg in
  let leftPx := leftMargin / dpiRatio in
  let topPx := topMargin / dpiRatio in
  let rightPx := rightMargin / dpiRatio in
  let bottomPx := bottomMargin / dpiRatio in
  Files.find imageFilename d = Some (Png img) ->
  dpiRatio <> 0 ->
  leftPx + rightPx < width img ->
  topPx + bottomPx < height img ->
  exists (croppedImage : Image) (res : Res string) (d' : Dir),
    CropImageFile cfg imageFilename leftMargin topMargin rightMargin bottomMargin d
      = (res, d')
    /\ Files.find (Str.stem imageFilename +:+ "_cropped.png") d'
       = Some (Png croppedImage)
    /\ Image_crop img (leftPx, topPx, width img - rightPx, height img - bottomPx)
       = Ok croppedImage
    /\ width croppedImage = width img - leftPx - rightPx
    /\ height croppedImage = height img - topPx - bottomPx
    /\ (2 <= width croppedImage ->
        res = Ok (Str.stem imageFilename +:+ "_cropped.png"))
    /\ (width croppedImage = 1 -> res = Raise EncoderError).
Proof.
  intros dpiRatio leftPx topPx rightPx bottomPx Hf Hr Hw Hh.
  destruct (cropped_name_kept imageFilename) as [HL HR]. cbv zeta in HL, HR.
  exists (cropped_to img leftPx topPx (width img - rightPx)
            (height img - bottomPx)).
  assert (leftPx + 1 = width img - rightPx \/ leftPx + 2 <= width img - rightPx)
    as [Hone|Hwide] by lia.
  - pose proof (crop_narrow cfg imageFilename d img leftMargin topMargin
                  rightMargin bottomMargin) as Hrun.
    cbv zeta in Hrun. fold dpiRatio in Hrun.
    fold leftPx topPx rightPx bottomPx in Hrun.
    specialize (Hrun Hf Hr Hone ltac:(lia)).
    eexists. eexists. split; [exact Hrun|]. split.
    { rewrite save_failed_other by exact HL. apply FilesFacts.find_write_eq. }
    split; [apply Image_crop_ok; lia|]. simpl.
    split; [lia|]. split; [lia|]. split; [lia | reflexivity].
  - pose proof (crop_run cfg imageFilename d img leftMargin topMargin
                  rightMargin bottomMargin) as Hrun.
    cbv zeta in Hrun. fold dpiRatio in Hrun.
    fold leftPx topPx rightPx bottomPx in Hrun.
    specialize (Hrun Hf Hr Hwide ltac:(lia)).
    eexists. eexists. split; [exact Hrun|]. split.
    { rewrite FilesFacts.find_write_ne by exact HR.
      rewrite FilesFacts.find_write_ne by exact HL.
      apply FilesFacts.find_write_eq. }
    split; [apply Image_crop_ok; lia|]. simpl.
    split; [lia|]. split; [lia|]. split; [reflexivity | lia].
Qed.

Lemma CropImageFile_dimensions_witness :
  (exists (croppedImage : Image) (d' : Dir),
     CropImageFile shipped "01.png" 160 160 160 160 Sample.one_page
       = (Ok "01_cropped.png", d')
     /\ Files.find "01_cropped.png" d' = Some (Png croppedImage)
     /\ Image_crop (Sample.blank 3000 4000) (160, 160, 2840, 3840)
        = Ok croppedImage
     /\ width croppedImage = 2680
     /\ height croppedImage = 3680)
  /\ (exists (croppedImage : Image) (d' : Dir),
        CropImageFile shipped "01.png" 98 0 1 0
          [("01.png", Png (Sample.blank 100 50))]
          = (Raise EncoderError, d')
        /\ Files.find "01_cropped.png" d' = Some (Png croppedImage)
        /\ width croppedImage = 1
        /\ height croppedImage = 50).
Proof.
  split.
  - destruct (CropImageFile_dimensions shipped Sample.one_page "01.png"
                (Sample.blank 3000 4000) 160 160 160 160)
      as (c & res & d' & Hrun & Hfile & Hcrop & Hwidth & Hheight & Hwide & _).
    + reflexivity.
    + vm_compute. discriminate.
    + vm_compute. reflexivity.
    + vm_compute. reflexivity.
    + exists c, d'. rewrite Hwide in Hrun by (rewrite Hwidth; vm_compute; discriminate).
      repeat split; assumption.
  - destruct (CropImageFile_dimensions shipped
                [("01.png", Png (Sample.blank 100 50))] "01.png"
                (Sample.blank 100 50) 98 0 1 0)
      as (c & res & d' & Hrun & Hfile & _ & Hwidth & Hheight & _ & Hone).
    + reflexivity.
    + vm_compute. discriminate.
    + vm_compute. reflexivity.
    + vm_compute. reflexivity.
    + exists c, d'. rewrite Hone in Hrun by exact Hwidth.
      repeat split; assumption.
Defined.

(** C2, as stated, fails: an image one pixel wide is an input image, and
    on it [SplitCroppedIntoA4Files] yields no image.  Its left half would
    be the columns [0, 0): the encoder refuses an image without pixels,
    the function raises at the first save, and neither half is
    written. *)
Lemma SplitCroppedIntoA4Files_one_column_counterexample :
  let d := [("02_cropped.png", Png (Sample.blank 1 50))] in
  width (Sample.blank 1 50) / 2 = 0
  /\ SplitCroppedIntoA4Files "02_cropped.png" d = (Raise EncoderError, d)
  /\ Files.find "02_cropped_A4_01.png" d = None
  /\ Files.find "02_cropped_A4_02.png" d = None.
Proof. repeat split; reflexivity. Qed.

(** C2, amended.  For an image of width W of two pixels or more and
    height H, [SplitCroppedIntoA4Files] returns the names of two files,
    left then right, that hold the columns [0, W/2) and [W/2, W) of the
    image: the left half is floor(W/2) wide, the two widths add up to W,
    the right half is wider by one pixel exactly when W is odd, and both
    halves are H high.  For an image one pixel wide it raises at the save
    of the left half: no half is written, and a file that stood under the
    name of the left half is no longer an image. *)
Theorem SplitCroppedIntoA4Files_halves (d : Dir) (croppedImageFilename : string)
    (img : Image) :
  Files.find croppedImageFilename d = Some (Png img) ->
  1 <= height img ->
  (2 <= width img ->
   exists (leftImage rightImage : Image) (d' : Dir),
     SplitCroppedIntoA4Files croppedImageFilename d
       = (Ok (Str.stem croppedImageFilename +:+ "_A4_01.png",
              Str.stem croppedImageFilename +:+ "_A4_02.png"), d')
     /\ Files.find (Str.stem croppedImageFilename +:+ "_A4_01.png") d'
        = Some (Png leftImage)
     /\ Files.find (Str.stem croppedImageFilename +:+ "_A4_02.png") d'
        = Some (Png rightImage)
     /\ width leftImage = width img / 2
     /\ width leftImage + width rightImage = width img
     /\ (width rightImage = width leftImage + 1 <-> width img mod 2 = 1)
     /\ (width rightImage = width leftImage <-> width img mod 2 = 0)
     /\ height leftImage = height img
     /\ height rightImage = height img
     /\ (forall x y, inside leftImage x y = true ->
           getpixel leftImage x y = getpixel img x y)
     /\ (forall x y, inside rightImage x y = true ->
           getpixel rightImage x y = getpixel img (x + width img / 2) y))
  /\ (width img = 1 ->
      exists d' : Dir,
        SplitCroppedIntoA4Files croppedImageFilename d = (Raise EncoderError, d')
        /\ (forall half,
              Files.find (Str.stem croppedImageFilename +:+ "_A4_01.png") d'
              <> Some (Png half))
        /\ Files.find (Str.stem croppedImageFilename +:+ "_A4_02.png") d'
           = Files.find (Str.stem croppedImageFilename +:+ "_A4_02.png") d).
Proof.
  intros Hf Hh.
  pose proof (left_right_differ croppedImageFilename) as Hne.
  split.
  - intros Hw.
    pose proof (split_run croppedImageFilename d img Hf Hw Hh) as Hrun.
    unfold left_name, right_name in *.
    destruct (half_width_bounds (width img) Hw) as [Hlo Hhi].
    pose proof (Z.div_mod (width img) 2 ltac:(lia)) as Hdm.
    pose proof (Z.mod_pos_bound (width img) 2 ltac:(lia)) as Hmod.
    eexists. eexists. eexists. split; [exact Hrun|].
    split.
    { rewrite FilesFacts.find_write_ne by (intros E; apply Hne; now symmetry).
      apply FilesFacts.find_write_eq. }
    split; [apply FilesFacts.find_write_eq|].
    simpl.
    repeat split; try lia.
    + intros x y Hin. apply inside_spec in Hin. simpl in Hin.
      rewrite !Z.add_0_r.
      assert (inside img x y = true) as E by (apply inside_spec; lia).
      now rewrite E.
    + intros x y Hin. apply inside_spec in Hin. simpl in Hin.
      rewrite !Z.add_0_r.
      assert (inside img (x + width img / 2) y = true) as E
        by (apply inside_spec; lia).
      now rewrite E.
  - intros Hw.
    pose proof (split_narrow croppedImageFilename d img Hf ltac:(lia) ltac:(lia)
                  ltac:(lia)) as Hrun.
    unfold left_name, right_name in *.
    eexists. split; [exact Hrun|]. split.
    + intros half. apply save_failed_no_image.
    + now apply save_failed_other.
Qed.

Lemma SplitCroppedIntoA4Files_halves_witness :
  (exists (leftImage rightImage : Image) (d' : Dir),
     SplitCroppedIntoA4Files "02_cropped.png" Sample.odd_cropped
       = (Ok ("02_cropped_A4_01.png", "02_cropped_A4_02.png"), d')
     /\ width leftImage = 1270 /\ width rightImage = 1271
     /\ height leftImage = 3675 /\ height rightImage = 3675)
  /\ (exists d' : Dir,
        SplitCroppedIntoA4Files "02_cropped.png"
          [("02_cropped.png", Png (Sample.blank 1 50))]
        = (Raise EncoderError, d')
        /\ Files.find "02_cropped_A4_02.png" d' = None).
Proof.
  split.
  - destruct (SplitCroppedIntoA4Files_halves Sample.odd_cropped "02_cropped.png"
                (Sample.blank 2541 3675)) as [Hwide _].
    + reflexivity.
    + vm_compute. discriminate.
    + destruct Hwide
        as (L & R & d' & Hrun & _ & _ & HwL & Hsum & _ & _ & HhL & HhR & _).
      { vm_compute. discriminate. }
      exists L, R, d'. split; [exact Hrun|].
      simpl in HwL, Hsum, HhL, HhR. change (2541 / 2) with 1270 in HwL.
      repeat split; lia.
  - destruct (SplitCroppedIntoA4Files_halves
                [("02_cropped.png", Png (Sample.blank 1 50))] "02_cropped.png"
                (Sample.blank 1 50)) as [_ Hone].
    + reflexivity.
    + vm_compute. discriminate.
    + destruct Hone as (d' & Hrun & _ & Hright); [reflexivity|].
      exists d'. split; [exact Hrun | exact Hright].
Defined.

(** C10. [CropImageFile] takes the ratio to be 300 floor-divided by the
    rasterization DPI.  At the shipped DPI of 300 the ratio is 1, every
    margin is its own pixel value and the crop box is
    (left, top, W - right, H - bottom): for margins that leave a pixel of
    the page, the cropped file holds that box of the page when the call is
    over, and the call returns unless the box is a single pixel wide, in
    which case it raises in the splitting.  At any DPI above 300 the ratio
    is 0, the conversion of a margin divides by zero, and [CropImageFile]
    raises on every file without writing anything: [ZeroDivisionError] on
    every page image. *)
Theorem CropImageFile_dpi_ratio (cfg : Config) (d : Dir) (imageFilename : string)
    (leftMargin topMargin rightMargin bottomMargin : Z) :
  Pdf2Image_Default_Dpi shipped = 300
  /\ (Pdf2Image_Default_Dpi cfg = 300 ->
      floordiv 300 (Pdf2Image_Default_Dpi cfg) = Ok 1
      /\ (forall margin, floordiv margin 1 = Ok margin)
      /\ (forall img,
            Files.find imageFilename d = Some (Png img) ->
            leftMargin + rightMargin < width img ->
            topMargin + bottomMargin < height img ->
            exists (croppedImage : Image) (res : Res string) (d' : Dir),
              CropImageFile cfg imageFilename
                leftMargin topMargin rightMargin bottomMargin d
                = (res, d')
              /\ Files.find (Str.stem imageFilename +:+ "_cropped.png") d'
                 = Some (Png croppedImage)
              /\ Image_crop img (leftMargin, topMargin,
                                 width img - rightMargin,
                                 height img - bottomMargin)
                 = Ok croppedImage
              /\ (leftMargin + rightMargin + 2 <= width img ->
                  res = Ok (Str.stem imageFilename +:+ "_cropped.png"))
              /\ (leftMargin + rightMargin + 1 = width img ->
                  res = Raise EncoderError)))
  /\ (300 < Pdf2Image_Default_Dpi cfg ->
      floordiv 300 (Pdf2Image_Default_Dpi cfg) = Ok 0
      /\ (forall margin, floordiv margin 0 = Raise ZeroDivisionError)
      /\ (exists e,
            CropImageFile cfg imageFilename
              leftMargin topMargin rightMargin bottomMargin d = (Raise e, d))
      /\ (forall img,
            Files.find imageFilename d = Some (Png img) ->
            CropImageFile cfg imageFilename
              leftMargin topMargin rightMargin bottomMargin d
              = (Raise ZeroDivisionError, d))).
Proof.
  split; [reflexivity|]. split.
  - intros Hdpi. split; [now rewrite Hdpi|]. split.
    + intros margin. unfold floordiv. simpl. now rewrite Z.div_1_r.
    + intros img Hf Hw Hh.
      destruct (cropped_name_kept imageFilename) as [HL HR]. cbv zeta in HL, HR.
      exists (cropped_to img leftMargin topMargin (width img - rightMargin)
                (height img - bottomMargin)).
      assert (leftMargin + 1 = width img - rightMargin
              \/ leftMargin + 2 <= width img - rightMargin) as [Hone|Hwide] by lia.
      * pose proof (crop_narrow cfg imageFilename d img leftMargin topMargin
                      rightMargin bottomMargin) as Hrun.
        cbv zeta in Hrun. rewrite Hdpi in Hrun.
        change (300 / 300) with 1 in Hrun. rewrite !Z.div_1_r in Hrun.
        specialize (Hrun Hf ltac:(lia) Hone ltac:(lia)).
        eexists. eexists. split; [exact Hrun|]. split.
        { rewrite save_failed_other by exact HL.
          apply FilesFacts.find_write_eq. }
        split; [apply Image_crop_ok; lia|].
        split; [lia | reflexivity].
      * pose proof (crop_run cfg imageFilename d img leftMargin topMargin
                      rightMargin bottomMargin) as Hrun.
        cbv zeta in Hrun. rewrite Hdpi in Hrun.
        change (300 / 300) with 1 in Hrun. rewrite !Z.div_1_r in Hrun.
        specialize (Hrun Hf ltac:(lia) Hwide ltac:(lia)).
        eexists. eexists. split; [exact Hrun|]. split.
        { rewrite FilesFacts.find_write_ne by exact HR.
          rewrite FilesFacts.find_write_ne by exact HL.
          apply FilesFacts.find_write_eq. }
        split; [apply Image_crop_ok; lia|].
        split; [reflexivity | lia].
  - intros Hdpi.
    assert (floordiv 300 (Pdf2Image_Default_Dpi cfg) = Ok 0) as Hratio.
    { unfold floordiv.
      destruct (Z.eqb_spec (Pdf2Image_Default_Dpi cfg) 0); [lia|].
      now rewrite Z.div_small by lia. }
    assert (forall img, Files.find imageFilename d = Some (Png img) ->
              CropImageFile cfg imageFilename
                leftMargin topMargin rightMargin bottomMargin d
              = (Raise ZeroDivisionError, d)) as Hpage.
    { intros img Hf. unfold CropImageFile, bind.
      rewrite (Image_open_png _ _ _ Hf). unfold lift. now rewrite Hratio. }
    split; [exact Hratio|]. split; [reflexivity|]. split; [|exact Hpage].
    destruct (Files.find imageFilename d) as [[img| |]|] eqn:Hf.
    + exists ZeroDivisionError. now apply (Hpage img).
    + exists UnidentifiedImageError.
      unfold CropImageFile, bind, Image_open. now rewrite Hf.
    + exists UnidentifiedImageError.
      unfold CropImageFile, bind, Image_open. now rewrite Hf.
    + exists FileNotFoundError.
      unfold CropImageFile, bind, Image_open. now rewrite Hf.
Qed.

Lemma CropImageFile_dpi_ratio_witness :
  (exists (croppedImage : Image) (d' : Dir),
     CropImageFile shipped "01.png" 160 160 160 160 Sample.one_page
       = (Ok "01_cropped.png", d')
     /\ Files.find "01_cropped.png" d' = Some (Png croppedImage)
     /\ Image_crop (Sample.blank 3000 4000) (160, 160, 2840, 3840)
        = Ok croppedImage)
  /\ (exists (croppedImage : Image) (d' : Dir),
        CropImageFile shipped "01.png" 98 0 1 0
          [("01.png", Png (Sample.blank 100 50))]
          = (Raise EncoderError, d')
        /\ Files.find "01_cropped.png" d' = Some (Png croppedImage)
        /\ Image_crop (Sample.blank 100 50) (98, 0, 99, 50) = Ok croppedImage)
  /\ CropImageFile {| Debug_Mode := false; Pdf2Image_Default_Dpi := 600 |}
       "01.png" 160 160 160 160 Sample.one_page
     = (Raise ZeroDivisionError, Sample.one_page).
Proof.
  split; [|split].
  - destruct (CropImageFile_dpi_ratio shipped Sample.one_page "01.png"
                160 160 160 160) as (_ & H300 & _).
    destruct (H300 eq_refl) as (_ & _ & Hcrop).
    destruct (Hcrop (Sample.blank 3000 4000))
      as (c & res & d' & Hrun & Hfile & Hbox & Hwide & _).
    + reflexivity.
    + vm_compute. reflexivity.
    + vm_compute. reflexivity.
    + exists c, d'. rewrite Hwide in Hrun by (vm_compute; discriminate).
      repeat split; assumption.
  - destruct (CropImageFile_dpi_ratio shipped
                [("01.png", Png (Sample.blank 100 50))] "01.png"
                98 0 1 0) as (_ & H300 & _).
    destruct (H300 eq_refl) as (_ & _ & Hcrop).
    destruct (Hcrop (Sample.blank 100 50))
      as (c & res & d' & Hrun & Hfile & Hbox & _ & Hone).
    + reflexivity.
    + vm_compute. reflexivity.
    + vm_compute. reflexivity.
    + exists c, d'. rewrite Hone in Hrun by reflexivity.
      repeat split; assumption.
  - destruct (CropImageFile_dpi_ratio
                {| Debug_Mode := false; Pdf2Image_Default_Dpi := 600 |}
                Sample.one_page "01.png" 160 160 160 160) as (_ & _ & Hhigh).
    assert (300 < 600) as Hlt by (vm_compute; reflexivity).
    destruct (Hhigh Hlt) as (_ & _ & _ & Hpage).
    apply (Hpage (Sample.blank 3000 4000)). reflexivity.
Defined.

(** What [AddPageNumberIntoImage] needs to return, and what it has written
    when it returns on a name with the extension ".png". *)
Lemma caption_returns (cfg : Config) (host : Host) (d d' : Dir)
    (imageFilename : string) (totalPages pageNumber : Z) (pagerMemo : string)
    (r : string) :
  AddPageNumberIntoImage cfg host imageFilename totalPages pageNumber pagerMemo d
    = (Ok r, d') ->
  r = imageFilename
  /\ exists (img : Image) (w : string),
       Files.find imageFilename d = Some (Png img)
       /\ Pdf2Image_Default_Dpi cfg <> 0
       /\ windir host = Some w
       /\ 0 < caption_size cfg host img
       /\ truetype host (caption_font host w) (caption_size cfg host img) = true
       /\ (Str.lower (Str.splitext imageFilename) = ".png" ->
           0 < width img /\ 0 < height img
           /\ d' = Files.write imageFilename
                     (Png (captioned cfg host w img totalPages pageNumber
                             pagerMemo)) d).
Proof.
  unfold AddPageNumberIntoImage, bind, Image_open.
  destruct (Files.find imageFilename d) as [[img|pages|]|] eqn:Hf;
    try discriminate.
  destruct (Z.eqb_spec (Pdf2Image_Default_Dpi cfg) 0) as [|Hdpi];
    [discriminate|].
  destruct (windir host) as [w|] eqn:Hw; [|discriminate].
  unfold captioned, caption_text, caption_font, caption_size, localized.
  unfold lift, ImageFont_truetype.
  destruct (path_exists host (path_join host w "fonts\msyh.ttc")) eqn:Hloc;
    (destruct (Z.leb_spec
                 (float_scale host (height img) (Pdf2Image_Default_Dpi cfg) 3) 0)
       as [|Hsize]; [discriminate|]);
    (destruct (truetype host _ _) eqn:Hfont; [|discriminate]);
    unfold ret; cbv beta iota zeta;
    (destruct (Image_save_by_extension host imageFilename _ d)
       as [[[]|e] d1] eqn:Hsave; [|discriminate]);
    intros H; injection H as <- <-;
    (split; [reflexivity|]); exists img, w; rewrite Hloc;
    (split; [reflexivity|]); (split; [exact Hdpi|]); (split; [reflexivity|]);
    (split; [exact Hsize|]); (split; [exact Hfont|]);
    intros Hext; rewrite (save_by_extension_png host _ _ _ Hext) in Hsave;
    unfold Image_save, Image_empty in Hsave; simpl in Hsave;
    (destruct (Z.leb_spec (width img) 0); [discriminate Hsave|]);
    (destruct (Z.leb_spec (height img) 0); [discriminate Hsave|]);
    simpl in Hsave; injection Hsave as <-;
    (split; [lia|]); (split; [lia|]); reflexivity.
Qed.

(** C7, as stated, fails: not every input image is captioned.  For an
    image less than 100 pixels high at the shipped DPI the font size
    int(height / 300 * 3) is 0, [ImageFont.truetype] refuses it, and
    [AddPageNumberIntoImage] raises [ValueError] on a host with its fonts
    installed; where the variable [windir] is not set it raises
    [TypeError] on every image.  In both cases nothing is written: the
    file holds the original. *)
Lemma AddPageNumberIntoImage_every_image_counterexample :
  (let d := [("01_cropped_A4_01.png", Png (Sample.blank 1340 90))] in
   caption_size shipped Sample.windows (Sample.blank 1340 90) = 0
   /\ AddPageNumberIntoImage shipped Sample.windows "01_cropped_A4_01.png" 2 1
        " memo" d
      = (Raise ValueError, d))
  /\ AddPageNumberIntoImage shipped Sample.no_windir "01_cropped_A4_01.png" 2 1
       " memo" Sample.split_page
     = (Raise TypeError, Sample.split_page).
Proof. repeat split; reflexivity. Qed.

(** C7, amended.  For an image, of one pixel at least, stored under a
    name with the extension ".png", [AddPageNumberIntoImage] returns when
    the DPI setting is not zero, the variable [windir] is set, the font
    size computed for the image is above zero, and the font of the caption
    loads at that size, and it returns in no other case.  It then returns
    the path it was given and has written there the captioned image, whose
    width and height are those of the input: no room is added.  The file
    is overwritten in place, no other file of the folder changes, and a
    pixel of the new image is black where the caption inks it, the pixel
    of the input elsewhere. *)
Theorem AddPageNumberIntoImage_keeps_size (cfg : Config) (host : Host) (d : Dir)
    (imageFilename : string) (totalPages pageNumber : Z) (pagerMemo : string) :
  Str.lower (Str.splitext imageFilename) = ".png" ->
  (forall (img : Image) (windir_ : string),
     Files.find imageFilename d = Some (Png img) ->
     0 < width img -> 0 < height img ->
     Pdf2Image_Default_Dpi cfg <> 0 ->
     windir host = Some windir_ ->
     0 < caption_size cfg host img ->
     truetype host (caption_font host windir_) (caption_size cfg host img) = true ->
     exists (newImg : Image) (d' : Dir),
       AddPageNumberIntoImage cfg host imageFilename totalPages pageNumber
         pagerMemo d
       = (Ok imageFilename, d')
       /\ newImg = captioned cfg host windir_ img totalPages pageNumber pagerMemo
       /\ Files.find imageFilename d' = Some (Png newImg)
       /\ width newImg = width img
       /\ height newImg = height img
       /\ List.map fst d' = List.map fst d
       /\ (forall other, other <> imageFilename ->
             Files.find other d' = Files.find other d)
       /\ (forall x y,
             getpixel newImg x y =
             if caption_ink cfg host windir_ img totalPages pageNumber pagerMemo
                  x y
             then (0, 0, 0)
             else if inside img x y then getpixel img x y
                  else (255, 255, 255)))
  /\ (forall (r : string) (d' : Dir),
        AddPageNumberIntoImage cfg host imageFilename totalPages pageNumber
          pagerMemo d
        = (Ok r, d') ->
        r = imageFilename
        /\ exists (img newImg : Image) (windir_ : string),
             Files.find imageFilename d = Some (Png img)
             /\ Pdf2Image_Default_Dpi cfg <> 0
             /\ windir host = Some windir_
             /\ 0 < caption_size cfg host img
             /\ truetype host (caption_font host windir_)
                  (caption_size cfg host img) = true
             /\ newImg = captioned cfg host windir_ img totalPages pageNumber
                           pagerMemo
             /\ Files.find imageFilename d' = Some (Png newImg)
             /\ width newImg = width img
             /\ height newImg = height img).
Proof.
  intros Hext. split.
  - intros img windir_ Hf Hwidth Hheight Hdpi Hw Hsize Hfont.
    exists (captioned cfg host windir_ img totalPages pageNumber pagerMemo).
    eexists. split.
    { apply (caption_run cfg host imageFilename d img windir_); assumption. }
    split; [reflexivity|].
    split; [apply FilesFacts.find_write_eq|].
    split; [reflexivity|]. split; [reflexivity|]. split.
    { apply FilesFacts.names_write_present. rewrite Hf. discriminate. }
    split.
    { intros other Hne. apply FilesFacts.find_write_ne. congruence. }
    intros x y. reflexivity.
  - intros r d' Hrun.
    destruct (caption_returns cfg host d d' imageFilename totalPages pageNumber
                pagerMemo r Hrun)
      as (-> & img & w & Hf & Hdpi & Hw & Hsize & Hfont & Hpng).
    destruct (Hpng Hext) as (_ & _ & ->).
    split; [reflexivity|].
    exists img, (captioned cfg host w img totalPages pageNumber pagerMemo), w.
    split; [exact Hf|]. split; [exact Hdpi|]. split; [exact Hw|].
    split; [exact Hsize|]. split; [exact Hfont|]. split; [reflexivity|].
    split; [apply FilesFacts.find_write_eq|]. split; reflexivity.
Qed.

Lemma AddPageNumberIntoImage_keeps_size_witness :
  exists (newImg : Image) (d' : Dir),
    AddPageNumberIntoImage shipped Sample.windows "01_cropped_A4_01.png" 2 1
      " memo" Sample.split_page
      = (Ok "01_cropped_A4_01.png", d')
    /\ Files.find "01_cropped_A4_01.png" d' = Some (Png newImg)
    /\ width newImg = 1340
    /\ height newImg = 3680
    /\ getpixel (Sample.blank 1340 3680) 670 3630 = (255, 255, 255)
    /\ getpixel newImg 670 3630 = (0, 0, 0)
    /\ getpixel newImg 10 10 = (255, 255, 255)
    /\ windir Sample.windows <> None
    /\ 0 < caption_size shipped Sample.windows (Sample.blank 1340 3680).
Proof.
  destruct (AddPageNumberIntoImage_keeps_size shipped Sample.windows
              Sample.split_page "01_cropped_A4_01.png" 2 1 " memo" eq_refl)
    as [Hrun Hreturned].
  destruct (Hrun (Sample.blank 1340 3680) "C:\Windows")
    as (newImg & d' & Hcall & _ & Hfind & Hwidth & Hheight & _ & _ & Hpixels).
  - reflexivity.
  - vm_compute. reflexivity.
  - vm_compute. reflexivity.
  - vm_compute. discriminate.
  - reflexivity.
  - vm_compute. reflexivity.
  - reflexivity.
  - exists newImg, d'. split; [exact Hcall|]. split; [exact Hfind|].
    split; [exact Hwidth|]. split; [exact Hheight|].
    split; [reflexivity|].
    split; [rewrite Hpixels; reflexivity|].
    split; [rewrite Hpixels; reflexivity|].
    destruct (Hreturned _ _ Hcall)
      as (_ & img & _ & w & Himg & _ & Hw & Hsize & _).
    split; [rewrite Hw; discriminate|].
    vm_compute in Himg. injection Himg as <-. exact Hsize.
Defined.

(** C4. With the reversal of the margins enabled, the loop of
    [ProcessPDFFiles] over the page images crops a page whose name starts
    with the number N with the margins (left, top, right, bottom) as
    supplied when N is odd, and with left and right swapped, that is
    (right, top, left, bottom), when N is even: top and bottom are the
    same for both.  The image [ExtractImagesFromPdfFile] writes for the
    page at index i carries the number i + 1, so the pages 1, 3, 5, ... of
    a document are cropped as supplied and the pages 2, 4, 6, ... with
    left and right swapped. *)
Theorem crop_page_parity (cfg : Config) (outputDir : string)
    (cropMargins : Margins) (verbose : bool) :
  let as_supplied imageFilename :=
    let* cropedFile :=
      on_files (in_dir outputDir
        (CropImageFile cfg imageFilename
           (m_left cropMargins) (m_top cropMargins)
           (m_right cropMargins) (m_bottom cropMargins))) in
    WriteText cfg (MsgCropped imageFilename cropedFile) verbose in
  let swapped imageFilename :=
    let* cropedFile :=
      on_files (in_dir outputDir
        (CropImageFile cfg imageFilename
           (m_right cropMargins) (m_top cropMargins)
           (m_left cropMargins) (m_bottom cropMargins))) in
    WriteText cfg (MsgCropped imageFilename cropedFile) verbose in
  (forall (imageFilename : string) (number : Z),
     Str.contains "_cropped" (Str.stem imageFilename) = false ->
     Str.python_int (Str.before "." (Str.stem imageFilename)) = Some number ->
     (number mod 2 = 1 ->
      crop_page cfg outputDir cropMargins true verbose imageFilename
      = as_supplied imageFilename)
     /\ (number mod 2 = 0 ->
         crop_page cfg outputDir cropMargins true verbose imageFilename
         = swapped imageFilename)
     /\ (number mod 2 = 1 \/ number mod 2 = 0))
  /\ (forall i : Z,
        0 <= i ->
        ((i + 1) mod 2 = 1 ->
         crop_page cfg outputDir cropMargins true verbose (page_name i)
         = as_supplied (page_name i))
        /\ ((i + 1) mod 2 = 0 ->
            crop_page cfg outputDir cropMargins true verbose (page_name i)
            = swapped (page_name i))).
Proof.
  intros as_supplied swapped.
  assert (forall (imageFilename : string) (number : Z),
            Str.contains "_cropped" (Str.stem imageFilename) = false ->
            Str.python_int (Str.before "." (Str.stem imageFilename)) = Some number ->
            (number mod 2 = 1 ->
             crop_page cfg outputDir cropMargins true verbose imageFilename
             = as_supplied imageFilename)
            /\ (number mod 2 = 0 ->
                crop_page cfg outputDir cropMargins true verbose imageFilename
                = swapped imageFilename)) as Hparity.
  { intros imageFilename number Hraw Hnum. unfold crop_page.
    rewrite Hraw, Hnum. split; intros Hmod; now rewrite Hmod. }
  split.
  - intros imageFilename number Hraw Hnum.
    destruct (Hparity imageFilename number Hraw Hnum) as [Hodd Heven].
    split; [exact Hodd|]. split; [exact Heven|].
    pose proof (Z.mod_pos_bound number 2 ltac:(lia)). lia.
  - intros i Hi.
    destruct (DecimalFacts.page_name_number i Hi) as [Hraw Hnum].
    exact (Hparity (page_name i) (i + 1) Hraw Hnum).
Qed.

Lemma crop_page_parity_witness :
  crop_page shipped "paper" Sample.margins_exam true false "01.png" =
    (let* cropedFile :=
       on_files (in_dir "paper" (CropImageFile shipped "01.png" 300 165 160 160)) in
     WriteText shipped (MsgCropped "01.png" cropedFile) false)
  /\ crop_page shipped "paper" Sample.margins_exam true false "02.png" =
    (let* cropedFile :=
       on_files (in_dir "paper" (CropImageFile shipped "02.png" 160 165 300 160)) in
     WriteText shipped (MsgCropped "02.png" cropedFile) false).
Proof.
  destruct (crop_page_parity shipped "paper" Sample.margins_exam false)
    as [Hnamed Hpages].
  split.
  - destruct (Hnamed "01.png" 1) as (Hodd & _ & _); [reflexivity | reflexivity |].
    apply Hodd. reflexivity.
  - destruct (Hpages 1) as (_ & Heven); [vm_compute; discriminate|].
    apply Heven. reflexivity.
Defined.

(** C5. With the reversal disabled, the loop of [ProcessPDFFiles] calls
    [CropImageFile] without any margin: whatever margins were supplied,
    every page is cropped with (0, 0, 0, 0).  On a page of 3000 by 4000
    pixels with margins of 160 on every side the cropped file is 3000 by
    4000 and not 2680 by 3680, where the same margins with the reversal
    enabled give 2680 by 3680; the two pages of the result are then 1500
    by 4000. *)
Theorem crop_page_without_reversal_drops_margins :
  (forall (cfg : Config) (outputDir : string) (cropMargins : Margins)
          (verbose : bool) (imageFilename : string),
     crop_page cfg outputDir cropMargins false verbose imageFilename =
     crop_page cfg outputDir
       {| m_left := 0; m_top := 0; m_right := 0; m_bottom := 0 |}
       false verbose imageFilename)
  /\ (let '(r, s) := crop_page shipped "paper" Sample.margins_160 false false
                       "01.png" Sample.rasterized in
      r = Ok tt
      /\ image_size (files s) "paper" "01_cropped.png" = Some (3000, 4000))
  /\ (let '(r, s) := crop_page shipped "paper" Sample.margins_160 true false
                       "01.png" Sample.rasterized in
      r = Ok tt
      /\ image_size (files s) "paper" "01_cropped.png" = Some (2680, 3680))
  /\ (let '(r, w) := ProcessPDFFiles shipped Sample.windows "exams"
                       Sample.margins_160 "" "" false true "" false
                       Sample.disk in
      r = Ok tt
      /\ match files w !! "exams" with
         | Some t => result_page_sizes t "paper_A4.pdf"
         | None => None
         end
         = Some [("01_cropped_A4_01.png", (1500, 4000));
                 ("01_cropped_A4_02.png", (1500, 4000))]).
Proof.
  split; [|split; [|split]].
  - reflexivity.
  - vm_compute. split; reflexivity.
  - vm_compute. split; reflexivity.
  - vm_compute. split; reflexivity.
Qed.

(** C8. When the target directory does not exist, [ProcessPDFFiles]
    prints that the folder does not exist and returns normally: nothing
    is raised, no file is processed, no other line is printed and the disk
    is left as it was. *)
Theorem ProcessPDFFiles_missing_directory (cfg : Config) (host : Host)
    (pdfDir : string) (cropMargins : Margins)
    (regexInFilenameIncluded regexInFilenameExcluded : string)
    (reverseLeftAndRight showPager : bool) (pagerText : string) (verbose : bool)
    (w : Store (gmap string Directory)) :
  files w !! pdfDir = None ->
  ProcessPDFFiles cfg host pdfDir cropMargins regexInFilenameIncluded
    regexInFilenameExcluded reverseLeftAndRight showPager pagerText verbose w
  = (Ok tt,
     {| files := files w;
        console := (console w ++ [MsgDirMissing pdfDir])%list |}).
Proof.
  intros Hmissing. unfold ProcessPDFFiles. rewrite Hmissing.
  unfold WriteText. now rewrite orb_true_r.
Qed.

Lemma ProcessPDFFiles_missing_directory_witness :
  ProcessPDFFiles shipped Sample.windows "nowhere" Sample.margins_exam
    "" "" true true "" false Sample.disk
  = (Ok tt,
     {| files := files Sample.disk; console := [MsgDirMissing "nowhere"] |}).
Proof.
  apply (ProcessPDFFiles_missing_directory shipped Sample.windows "nowhere"
           Sample.margins_exam "" "" true true "" false Sample.disk).
  reflexivity.
Defined.

(** C6. The batch does not take its own output as input.  Every name
    [MergeImagesAsPDFFile] returns for a document it wrote contains
    "_A4", and so does its stem.  A candidate whose stem contains "_A4"
    is passed over before the include and the exclude patterns are looked
    at, whatever they are: no counter moves, nothing is printed, no file
    changes.  So the loop over the candidates runs as if the marked files
    were not in the listing, and a document written by an earlier run is
    never processed again. *)
Theorem batch_skips_its_own_output (cfg : Config) (host : Host)
    (cropMargins : Margins)
    (include_pattern exclude_pattern : option (string -> bool))
    (reverseLeftAndRight showPager : bool) (pagerText : string) (verbose : bool) :
  (forall imageDir addPager pagerMemo verbose' s s' pdfFilename,
     MergeImagesAsPDFFile cfg host imageDir addPager pagerMemo verbose' s
       = (Ok pdfFilename, s') ->
     Str.contains "_A4" pdfFilename = true
     /\ Str.contains "_A4" (Str.stem pdfFilename) = true
     /\ forall counters s2,
          process_candidate cfg host cropMargins include_pattern exclude_pattern
            reverseLeftAndRight showPager pagerText verbose counters pdfFilename s2
          = (Ok counters, s2))
  /\ (forall counters pdfFilename s,
        Str.contains "_A4" (Str.stem pdfFilename) = true ->
        process_candidate cfg host cropMargins include_pattern exclude_pattern
          reverseLeftAndRight showPager pagerText verbose counters pdfFilename s
        = (Ok counters, s))
  /\ (forall pdfFiles counters s,
        process_candidates cfg host cropMargins include_pattern exclude_pattern
          reverseLeftAndRight showPager pagerText verbose pdfFiles counters s
        = process_candidates cfg host cropMargins include_pattern exclude_pattern
            reverseLeftAndRight showPager pagerText verbose
            (List.filter (fun f => negb (Str.contains "_A4" (Str.stem f))) pdfFiles)
            counters s).
Proof.
  split; [|split].
  - intros imageDir addPager pagerMemo verbose' s s' pdfFilename Hrun.
    destruct (merge_result cfg host _ _ _ _ _ _ _ Hrun) as [Hname _].
    subst pdfFilename.
    destruct (result_name_marked imageDir) as [Hfull Hstem].
    split; [exact Hfull|]. split; [exact Hstem|].
    intros counters s2. now apply marked_candidate_skipped.
  - intros counters pdfFilename s Hmark. now apply marked_candidate_skipped.
  - intros pdfFiles counters s. apply marked_candidates_filtered.
Qed.

Lemma batch_skips_its_own_output_witness :
  process_candidate shipped Sample.windows Sample.margins_exam
    (Some (Str.contains "paper")) None true true "" true (3, 1)
    "paper_A4.pdf" Sample.rasterized
  = (Ok (3, 1), Sample.rasterized).
Proof.
  destruct (batch_skips_its_own_output shipped Sample.windows
              Sample.margins_exam (Some (Str.contains "paper")) None
              true true "" true) as (_ & Hskip & _).
  apply Hskip. reflexivity.
Defined.

(** C9, as stated, fails: in a directory that lists a document the
    rasterizer cannot read before a good one, [ProcessPDFFiles] raises
    the error of the rasterizer.  The good document is not processed, the
    closing line with the counts is not printed, and the folder made for
    the pages of the first document stays on the disk; the good document
    on its own is processed. *)
Lemma batch_survives_failure_counterexample :
  (let '(r, w) := ProcessPDFFiles shipped Sample.windows "exams"
                    Sample.margins_exam "" "" true true "" false
                    Sample.disk_with_corrupt in
   r = Raise RasterizerError
   /\ console w = [MsgStart "exams"]
   /\ match files w !! "exams" with
      | Some t =>
          result_page_sizes t "paper_A4.pdf" = None
          /\ List.map fst t = ["broken.pdf"; "paper.pdf"; "broken"]
      | None => False
      end)
  /\ (let '(r, w) := ProcessPDFFiles shipped Sample.windows "exams"
                       Sample.margins_exam "" "" true true "" false
                       Sample.disk in
      r = Ok tt
      /\ console w = [MsgStart "exams"; MsgDone 1 0]
      /\ match files w !! "exams" with
         | Some t =>
             result_page_sizes t "paper_A4.pdf"
             = Some [("01_cropped_A4_01.png", (1270, 3675));
                     ("01_cropped_A4_02.png", (1270, 3675))]
         | None => False
         end).
Proof.
  split; vm_compute; repeat split; reflexivity.
Qed.

(** C9, amended.  [ProcessPDFFiles] handles no exception: a failure
    while one document is processed ends the batch.  The loop over the
    candidates stops at the first candidate that raises, with that
    exception and the store as the candidate left it, whatever documents
    follow; a document that passes the filters and that the rasterizer
    rejects is such a candidate; and the run over the directory then
    raises the same exception without printing the closing line. *)
Theorem batch_aborts_on_failure (cfg : Config) (host : Host)
    (cropMargins : Margins) (reverseLeftAndRight showPager : bool)
    (pagerText : string) (verbose : bool)
    (include_pattern exclude_pattern : option (string -> bool)) :
  (forall pre f rest counters0 counters1 s0 s1 s2 e,
     process_candidates cfg host cropMargins include_pattern exclude_pattern
       reverseLeftAndRight showPager pagerText verbose pre counters0 s0
     = (Ok counters1, s1) ->
     process_candidate cfg host cropMargins include_pattern exclude_pattern
       reverseLeftAndRight showPager pagerText verbose counters1 f s1
     = (Raise e, s2) ->
     process_candidates cfg host cropMargins include_pattern exclude_pattern
       reverseLeftAndRight showPager pagerText verbose (pre ++ f :: rest)
       counters0 s0
     = (Raise e, s2))
  /\ (forall counters f (s : Store Directory) c,
        Str.contains "_A4" (Str.stem f) = false ->
        passes include_pattern exclude_pattern f = true ->
        Files.find f (files s) = Some (EFile c) ->
        Files.find (Str.stem f) (files s) = None ->
        Str.stem f <> f ->
        convert_from_path host c (Pdf2Image_Default_Dpi cfg) = None ->
        process_candidate cfg host cropMargins include_pattern exclude_pattern
          reverseLeftAndRight showPager pagerText verbose counters f s
        = (Raise RasterizerError,
           {| files := Files.write (Str.stem f) (ESub []) (files s);
              console := console s |}))
  /\ (forall pdfDir regexInFilenameIncluded regexInFilenameExcluded
             (s : Store Directory) e s',
        (forall s0 : Store Directory,
           compile_if_given host regexInFilenameIncluded s0
           = (Ok include_pattern, s0)) ->
        (forall s0 : Store Directory,
           compile_if_given host regexInFilenameExcluded s0
           = (Ok exclude_pattern, s0)) ->
        process_candidates cfg host cropMargins include_pattern exclude_pattern
          reverseLeftAndRight showPager pagerText verbose
          (Files.glob "*.pdf" (files s)) (0, 0)
          (started pdfDir regexInFilenameIncluded regexInFilenameExcluded s)
        = (Raise e, s') ->
        process_directory cfg host pdfDir cropMargins regexInFilenameIncluded
          regexInFilenameExcluded reverseLeftAndRight showPager pagerText
          verbose s
        = (Raise e, s')).
Proof.
  split; [|split].
  - intros pre f rest counters0 counters1 s0 s1 s2 e Hpre Hf.
    now apply (candidates_stop cfg host cropMargins include_pattern
                 exclude_pattern reverseLeftAndRight showPager pagerText verbose
                 pre rest f counters0 counters1 s0 s1 s2 e).
  - intros counters f s c Hmark Hpass Hfile Hfolder Hne Hbad.
    now apply corrupt_candidate_raises with (c := c).
  - intros pdfDir regexIn regexEx s e s' Hin Hex Hloop.
    pose proof (process_directory_run cfg host pdfDir cropMargins regexIn
                  regexEx reverseLeftAndRight showPager pagerText verbose s
                  include_pattern exclude_pattern Hin Hex) as Hrun.
    rewrite Hloop in Hrun. exact Hrun.
Qed.

Lemma batch_aborts_on_failure_witness :
  process_candidates shipped Sample.windows Sample.margins_exam None None
    true true "" false ["broken.pdf"; "paper.pdf"] (0, 0) Sample.with_corrupt
  = (Raise RasterizerError,
     {| files := Files.write "broken" (ESub []) (files Sample.with_corrupt);
        console := [] |}).
Proof.
  destruct (batch_aborts_on_failure shipped Sample.windows Sample.margins_exam
              true true "" false None None) as (Hstop & Hcorrupt & _).
  apply (Hstop [] "broken.pdf" ["paper.pdf"] (0, 0) (0, 0)
           Sample.with_corrupt Sample.with_corrupt).
  - reflexivity.
  - apply (Hcorrupt (0, 0) "broken.pdf" Sample.with_corrupt Blob).
    + reflexivity.
    + reflexivity.
    + reflexivity.
    + reflexivity.
    + vm_compute. discriminate.
    + reflexivity.
Defined.

(** C3, as stated, fails: the two artifacts of a document of one page
    are the artifacts of the pages 1 to 1, and when the listing of the
    folder returns the right half first, the document
    [MergeImagesAsPDFFile] writes has the right half on its first page;
    with the listing in numeric order the pages are in numeric order. *)
Lemma assembly_order_counterexample :
  Permutation
    (Files.glob artifact_pattern [("01_cropped_A4_02.png", Png (Sample.blank 1340 3680));
                                  ("01_cropped_A4_01.png", Png (Sample.blank 1340 3680))])
    (numeric_order 1)
  /\ (let '(r, s) := MergeImagesAsPDFFile shipped Sample.windows "paper" true ""
                       false Sample.right_first in
      r = Ok "paper_A4.pdf"
      /\ option_map (List.map fst) (result_page_sizes (files s) "paper_A4.pdf")
         = Some ["01_cropped_A4_02.png"; "01_cropped_A4_01.png"]
      /\ option_map (List.map fst) (result_page_sizes (files s) "paper_A4.pdf")
         <> Some (numeric_order 1))
  /\ (let '(r, s) := MergeImagesAsPDFFile shipped Sample.windows "paper" true ""
                       false Sample.left_first in
      r = Ok "paper_A4.pdf"
      /\ option_map (List.map fst) (result_page_sizes (files s) "paper_A4.pdf")
         = Some (numeric_order 1)).
Proof.
  split; [|split].
  - vm_compute. apply perm_swap.
  - vm_compute. split; [reflexivity|]. split; [reflexivity|]. discriminate.
  - vm_compute. split; reflexivity.
Qed.

(** C3, amended.  [MergeImagesAsPDFFile] does not sort: when every
    matched artifact of the folder is an image (and, with captions, an
    image the host can caption), it writes a document whose pages carry
    the matched artifacts one by one in the order in which the listing of
    the folder returns them, each stretched to 210 by 297.  The pages are
    in numeric page and column order when the listing returns the
    artifacts in that order.  When the listing returns no artifact, the
    document is one blank page. *)
Theorem assembly_follows_listing (cfg : Config) (host : Host)
    (imageDir : string) (addPager : bool) (pagerMemo : string) (verbose : bool)
    (s : Store Directory) (d : Dir) :
  Files.find imageDir (files s) = Some (ESub d) ->
  (forall c, Files.find "_A4_" (files s) <> Some (EFile c)) ->
  all_png (Files.glob artifact_pattern d) d ->
  (addPager = true ->
   all_captionable cfg host (Files.glob artifact_pattern d) d) ->
  exists (s' : Store Directory) (results : Dir) (pages : list PdfPage),
    MergeImagesAsPDFFile cfg host imageDir addPager pagerMemo verbose s
      = (Ok (Str.stem imageDir +:+ "_A4.pdf"), s')
    /\ Files.find "_A4_" (files s') = Some (ESub results)
    /\ Files.find (Str.stem imageDir +:+ "_A4.pdf") results = Some (Pdf pages)
    /\ pages_follow pages (Files.glob artifact_pattern d)
    /\ (Files.glob artifact_pattern d <> [] ->
        List.Forall2 carries pages (Files.glob artifact_pattern d))
    /\ (Files.glob artifact_pattern d = [] -> pages = [BlankPage])
    /\ (forall K, Files.glob artifact_pattern d = numeric_order K ->
          pages_follow pages (numeric_order K)).
Proof.
  intros Hdir Hfile Hpng Hcap.
  destruct (mkdir_results_run imageDir s d Hdir Hfile)
    as (s1 & Hmk & Hdir1 & HA41).
  assert (glob_in imageDir "*_cropped_A4_*.png" (files s1)
          = Files.glob artifact_pattern d) as Hglob.
  { unfold glob_in. now rewrite Hdir1. }
  assert (mergeable cfg host addPager (Files.glob artifact_pattern d) d)
    as Hready.
  { split; [exact Hpng|]. intros Hadd. split; [now apply Hcap|].
    intros n Hn. apply ExtensionFacts.artifact_extension.
    now apply ExtensionFacts.glob_matches in Hn. }
  destruct (merge_pages_run cfg host imageDir addPager pagerMemo verbose
              (Z.of_nat (List.length (Files.glob artifact_pattern d)))
              (Files.glob artifact_pattern d) 0 [] s1 d Hdir1 Hready HA41)
    as (s2 & pages & Hloop & Hpages & [results HA42]).
  pose proof (output_follows pages _ Hpages) as Hfollow.
  eexists.
  exists (Files.write (Str.stem imageDir +:+ "_A4.pdf")
            (Pdf (FPDF_output pages)) results).
  exists (FPDF_output pages).
  split; [|split; [|split; [|split; [|split; [|split]]]]].
  - unfold MergeImagesAsPDFFile, bind. rewrite Hmk. unfold get at 1.
    rewrite Hglob, Hloop. simpl List.app.
    rewrite (in_dir_run _
               (modify (Files.write (Str.stem imageDir +:+ "_A4.pdf")
                          (Pdf (FPDF_output pages))))
               s2 results _ (Ok tt) HA42 eq_refl).
    reflexivity.
  - simpl files. apply FilesFacts.find_write_eq.
  - apply FilesFacts.find_write_eq.
  - exact Hfollow.
  - intros Hsome. unfold pages_follow in Hfollow.
    destruct (Files.glob artifact_pattern d); [congruence | exact Hfollow].
  - intros Hnone. unfold pages_follow in Hfollow. now rewrite Hnone in Hfollow.
  - intros K HK. now rewrite <- HK.
Qed.

Lemma assembly_follows_listing_witness :
  (exists (s' : Store Directory) (results : Dir) (pages : list PdfPage),
     MergeImagesAsPDFFile shipped Sample.windows "paper" true " memo" false
       Sample.right_first
       = (Ok "paper_A4.pdf", s')
     /\ Files.find "_A4_" (files s') = Some (ESub results)
     /\ Files.find "paper_A4.pdf" results = Some (Pdf pages)
     /\ List.Forall2 carries pages
          ["01_cropped_A4_02.png"; "01_cropped_A4_01.png"])
  /\ (exists (s' : Store Directory) (results : Dir),
        MergeImagesAsPDFFile shipped Sample.windows "paper" true " memo" false
          Sample.rasterized
          = (Ok "paper_A4.pdf", s')
        /\ Files.find "_A4_" (files s') = Some (ESub results)
        /\ Files.find "paper_A4.pdf" results = Some (Pdf [BlankPage]))
  /\ (exists (s' : Store Directory) (results : Dir) (pages : list PdfPage),
        MergeImagesAsPDFFile shipped Sample.windows "paper" false "" false
          Sample.left_first
          = (Ok "paper_A4.pdf", s')
        /\ Files.find "_A4_" (files s') = Some (ESub results)
        /\ Files.find "paper_A4.pdf" results = Some (Pdf pages)
        /\ pages_follow pages (numeric_order 1)).
Proof.
  split; [|split].
  3: { destruct (assembly_follows_listing shipped Sample.windows "paper" false
                   "" false Sample.left_first Sample.split_page)
         as (s' & results & pages & Hrun & HA4 & Hpdf & _ & _ & _ & Horder).
       - reflexivity.
       - intros c. vm_compute. discriminate.
       - intros n Hn. vm_compute in Hn.
         destruct Hn as [<-|[<-|[]]]; eexists; reflexivity.
       - discriminate.
       - exists s', results, pages. split; [exact Hrun|]. split; [exact HA4|].
         split; [exact Hpdf|]. apply (Horder 1%nat). reflexivity. }
  - destruct (assembly_follows_listing shipped Sample.windows "paper" true
                " memo" false Sample.right_first
                [("01_cropped_A4_02.png", Png (Sample.blank 1340 3680));
                 ("01_cropped_A4_01.png", Png (Sample.blank 1340 3680))])
      as (s' & results & pages & Hrun & HA4 & Hpdf & _ & Hpages & _).
    + reflexivity.
    + intros c. vm_compute. discriminate.
    + intros n Hn. vm_compute in Hn.
      destruct Hn as [<-|[<-|[]]]; eexists; reflexivity.
    + intros _ n img Hn Himg. vm_compute in Hn.
      assert (img = Sample.blank 1340 3680) as ->.
      { destruct Hn as [<-|[<-|[]]]; vm_compute in Himg;
          injection Himg as <-; reflexivity. }
      split; [vm_compute; discriminate|].
      split; [vm_compute; reflexivity|]. split; [vm_compute; reflexivity|].
      split; [vm_compute; reflexivity|].
      exists "C:\Windows". split; reflexivity.
    + exists s', results, pages. split; [exact Hrun|]. split; [exact HA4|].
      split; [exact Hpdf|]. apply Hpages. vm_compute. discriminate.
  - destruct (assembly_follows_listing shipped Sample.windows "paper" true
                " memo" false Sample.rasterized Sample.one_page)
      as (s' & results & pages & Hrun & HA4 & Hpdf & _ & _ & Hblank & _).
    + reflexivity.
    + intros c. vm_compute. discriminate.
    + intros n Hn. vm_compute in Hn. destruct Hn.
    + intros _ n img Hn. vm_compute in Hn. destruct Hn.
    + exists s', results. split; [exact Hrun|]. split; [exact HA4|].
      rewrite <- (Hblank eq_refl). exact Hpdf.
Defined.

(** * Further properties of the script *)

(** ** What every step keeps *)

Section KeepingWrites.

Variable cfg : Config.
Variable host : Host.
Variable Q : Directory -> Prop.
Hypothesis Qwrites : stable_under_writes Q.

Lemma keeps_ret {A} (a : A) : keeps Q (ret a).
Proof. intros s H. exact H. Qed.

Lemma keeps_raise {A} (e : Exn) : keeps Q (@raise _ A e).
Proof. intros s H. exact H. Qed.

Lemma keeps_bind {A B} (c : M (Store Directory) A) (k : A -> M (Store Directory) B) :
  keeps Q c -> (forall a, keeps Q (k a)) -> keeps Q (bind c k).
Proof.
  intros Hc Hk s H. unfold bind. specialize (Hc s H).
  destruct (c s) as [[a|e] s1]; simpl in *; [now apply Hk | exact Hc].
Qed.

Lemma keeps_get {B} (k : Store Directory -> M (Store Directory) B) :
  (forall a, keeps Q (k a)) -> keeps Q (bind get k).
Proof. intros Hk s H. unfold bind, get. now apply Hk. Qed.

Lemma keeps_WriteText (text : Message) (verbose : bool) :
  keeps Q (WriteText cfg text verbose).
Proof.
  intros s H. unfold WriteText.
  destruct (Debug_Mode cfg || verbose); exact H.
Qed.

Lemma keeps_for_each {A} (xs : list A) (body : A -> M (Store Directory) unit) :
  (forall x, keeps Q (body x)) -> keeps Q (for_each xs body).
Proof.
  intros Hbody. induction xs as [|x xs IH]; simpl.
  - apply keeps_ret.
  - apply keeps_bind; [apply Hbody | intros _; exact IH].
Qed.

Lemma keeps_on_files {A} (c : M Directory A) :
  keeps_dir Q c -> keeps Q (on_files c).
Proof.
  intros Hc s H. unfold on_files. specialize (Hc (files s) H).
  now destruct (c (files s)) as [r t'].
Qed.

Lemma keeps_dir_in_dir {A} (name : string) (c : M Dir A) :
  keeps_dir Q (in_dir name c).
Proof.
  intros t H. unfold in_dir.
  destruct (Files.find name t) as [[f|d]|] eqn:E; try exact H.
  destruct (c d) as [r d']. simpl.
  apply Qwrites; [right; now exists d | exact H].
Qed.

Lemma keeps_dir_mkdir (name : string) : keeps_dir Q (mkdir_exist_ok name).
Proof.
  intros t H. unfold mkdir_exist_ok.
  destruct (Files.find name t) as [[f|d]|] eqn:E; try exact H.
  simpl. apply Qwrites; [now left | exact H].
Qed.

Lemma keeps_dir_Extract (pdfFilename : string) :
  keeps_dir Q (ExtractImagesFromPdfFile cfg host pdfFilename).
Proof.
  intros t H. unfold ExtractImagesFromPdfFile, bind.
  pose proof (keeps_dir_mkdir (Str.stem pdfFilename) t H) as H1.
  destruct (mkdir_exist_ok (Str.stem pdfFilename) t) as [[[]|e] t1];
    simpl in *; [|exact H1].
  unfold get.
  destruct (Files.find pdfFilename t1) as [[c|d]|]; try exact H1.
  destruct (convert_from_path host c (Pdf2Image_Default_Dpi cfg)) as [images|];
    [|exact H1].
  pose proof (keeps_dir_in_dir (Str.stem pdfFilename) (save_pages 0 images) t1 H1)
    as H2.
  destruct (in_dir (Str.stem pdfFilename) (save_pages 0 images) t1)
    as [[[]|e] t2]; exact H2.
Qed.

Lemma keeps_crop_page (outputDir : string) (cropMargins : Margins)
    (reverseLeftAndRight verbose : bool) (imageFilename : string) :
  keeps Q (crop_page cfg outputDir cropMargins reverseLeftAndRight verbose
             imageFilename).
Proof.
  unfold crop_page.
  destruct (Str.contains "_cropped" (Str.stem imageFilename)); [apply keeps_ret|].
  apply keeps_bind; [|intros a; apply keeps_WriteText].
  destruct reverseLeftAndRight.
  - destruct (Str.python_int _) as [number|]; [|apply keeps_raise].
    destruct (number mod 2 =? 1); apply keeps_on_files, keeps_dir_in_dir.
  - apply keeps_on_files, keeps_dir_in_dir.
Qed.

Lemma keeps_merge_pages (imageDir : string) (addPager : bool) (pagerMemo : string)
    (verbose : bool) (totalPages : Z) (images : list string) :
  forall (pageNumber : Z) (pdf : list PdfPage),
    keeps Q (merge_pages cfg host imageDir addPager pagerMemo verbose totalPages
               images pageNumber pdf).
Proof.
  induction images as [|n images IH]; intros pageNumber pdf; cbn [merge_pages].
  - apply keeps_ret.
  - apply keeps_bind.
    { destruct addPager; [|apply keeps_ret].
      apply keeps_bind; [apply keeps_on_files, keeps_dir_in_dir|].
      intros a. apply keeps_ret. }
    intros _. apply keeps_bind; [apply keeps_on_files, keeps_dir_in_dir|].
    intros placed. apply keeps_bind; [apply keeps_on_files, keeps_dir_in_dir|].
    intros img. apply keeps_bind; [apply keeps_WriteText|].
    intros _. apply IH.
Qed.

Lemma keeps_Merge (imageDir : string) (addPager : bool) (pagerMemo : string)
    (verbose : bool) :
  keeps Q (MergeImagesAsPDFFile cfg host imageDir addPager pagerMemo verbose).
Proof.
  unfold MergeImagesAsPDFFile.
  apply keeps_bind; [apply keeps_on_files, keeps_dir_mkdir|].
  intros _. apply keeps_get. intros s.
  apply keeps_bind; [apply keeps_merge_pages|].
  intros pdf. apply keeps_bind; [apply keeps_on_files, keeps_dir_in_dir|].
  intros _. apply keeps_ret.
Qed.

End KeepingWrites.

Section Keeping.

Variable cfg : Config.
Variable host : Host.
Variable Q : Directory -> Prop.
Hypothesis Qstable : stable Q.

Lemma keeps_dir_rmtree (name : string) : keeps_dir Q (rmtree name).
Proof.
  intros t H. unfold rmtree.
  destruct (Files.find name t) as [[f|d]|] eqn:E; try exact H.
  simpl. now apply (proj2 Qstable) with (d0 := d).
Qed.

Lemma keeps_candidate (cropMargins : Margins)
    (include_pattern exclude_pattern : option (string -> bool))
    (reverseLeftAndRight showPager : bool) (pagerText : string) (verbose : bool)
    (counters : Z * Z) (pdfFilename : string) :
  keeps Q (process_candidate cfg host cropMargins include_pattern exclude_pattern
             reverseLeftAndRight showPager pagerText verbose counters pdfFilename).
Proof.
  unfold process_candidate. destruct counters as [count ignore].
  destruct (Str.contains "_A4" (Str.stem pdfFilename)); [apply keeps_ret|].
  destruct (match include_pattern with
            | Some search => negb (search pdfFilename)
            | None => false
            end).
  { apply keeps_bind; [apply keeps_WriteText | intros _; apply keeps_ret]. }
  destruct (match exclude_pattern with
            | Some search => search pdfFilename
            | None => false
            end).
  { apply keeps_bind; [apply keeps_WriteText | intros _; apply keeps_ret]. }
  apply keeps_bind; [apply keeps_on_files, keeps_dir_Extract; exact (proj1 Qstable)|].
  intros outputDir. apply keeps_bind; [apply keeps_WriteText|].
  intros _. apply keeps_get. intros s.
  apply keeps_bind; [apply keeps_for_each; intros x; apply keeps_crop_page; exact (proj1 Qstable)|].
  intros _. apply keeps_bind; [apply keeps_Merge; exact (proj1 Qstable)|].
  intros newPdfFilename. apply keeps_bind.
  { destruct (negb (Debug_Mode cfg));
      [apply keeps_on_files, keeps_dir_rmtree | apply keeps_ret]. }
  intros _. apply keeps_bind; [apply keeps_WriteText | intros _; apply keeps_ret].
Qed.

Lemma keeps_candidates (cropMargins : Margins)
    (include_pattern exclude_pattern : option (string -> bool))
    (reverseLeftAndRight showPager : bool) (pagerText : string) (verbose : bool)
    (pdfFiles : list string) :
  forall counters,
    keeps Q (process_candidates cfg host cropMargins include_pattern
               exclude_pattern reverseLeftAndRight showPager pagerText verbose
               pdfFiles counters).
Proof.
  induction pdfFiles as [|f pdfFiles IH]; intros counters; cbn [process_candidates].
  - apply keeps_ret.
  - apply keeps_bind; [apply keeps_candidate | intros c; apply IH].
Qed.

Lemma keeps_compile (regex : string)
    (k : option (string -> bool) -> M (Store Directory) unit) :
  (forall p, keeps Q (k p)) -> keeps Q (bind (compile_if_given host regex) k).
Proof.
  intros Hk. apply keeps_bind; [|exact Hk].
  unfold compile_if_given. destruct (0 <? String.length regex)%nat;
    [|apply keeps_ret].
  destruct (re_compile host regex); [apply keeps_ret | apply keeps_raise].
Qed.

Lemma keeps_directory (pdfDir : string) (cropMargins : Margins)
    (regexInFilenameIncluded regexInFilenameExcluded : string)
    (reverseLeftAndRight showPager : bool) (pagerText : string) (verbose : bool) :
  keeps Q (process_directory cfg host pdfDir cropMargins regexInFilenameIncluded
             regexInFilenameExcluded reverseLeftAndRight showPager pagerText
             verbose).
Proof.
  unfold process_directory.
  apply keeps_bind; [apply keeps_WriteText|]. intros _.
  apply keeps_bind.
  { destruct (0 <? String.length regexInFilenameIncluded)%nat;
      [apply keeps_WriteText | apply keeps_ret]. }
  intros _. apply keeps_bind.
  { destruct (0 <? String.length regexInFilenameExcluded)%nat;
      [apply keeps_WriteText | apply keeps_ret]. }
  intros _. apply keeps_get. intros s.
  apply keeps_compile. intros include_pattern.
  apply keeps_compile. intros exclude_pattern.
  apply keeps_bind; [apply keeps_candidates|].
  intros counters. apply keeps_WriteText.
Qed.

End Keeping.

(** ** Listings: removal and distinct names *)

Section ListingFacts.

Context {V : Type}.
Implicit Types (d : list (string * V)) (v : V).

Lemma find_remove_ne name name' d :
  name <> name' -> Files.find name' (Files.remove name d) = Files.find name' d.
Proof.
  intros Hne. induction d as [|[n v] d IH]; simpl; [reflexivity|].
  destruct (String.eqb_spec n name) as [->|Hn]; simpl.
  - destruct (String.eqb_spec name name'); [contradiction | reflexivity].
  - now rewrite IH.
Qed.







End ListingFacts.

Lemma stable_holds_file (name : string) (c : Content) : stable (holds_file name c).
Proof.
  unfold stable, holds_file. split.
  - intros t n d Hn H. rewrite FilesFacts.find_write_ne; [exact H|].
    intros ->. destruct Hn as [Hn|[d0 Hn]]; congruence.
  - intros t n d0 Hn H. rewrite find_remove_ne; [exact H|].
    intros ->. congruence.
Qed.


(** ** The source documents are left alone *)

(** X1. In a directory that lists no document named "..pdf" or
    "...pdf" (the two names whose stems, "." and "..", send the folder of
    the document to the directory itself and to its parent), whatever
    happens in a run of [ProcessPDFFiles], whether it returns or raises,
    every plain file that stood directly in the directory before the run
    (the source documents among them) stands there after it with the same
    content: the run only makes, rewrites and removes folders of the
    directory. *)
Theorem ProcessPDFFiles_keeps_plain_files (cfg : Config) (host : Host)
    (pdfDir : string) (cropMargins : Margins)
    (regexInFilenameIncluded regexInFilenameExcluded : string)
    (reverseLeftAndRight showPager : bool) (pagerText : string) (verbose : bool)
    (w : Store (gmap string Directory)) (d : Directory)
    (name : string) (c : Content) :
  files w !! pdfDir = Some d ->
  List.forallb names_child (Files.glob "*.pdf" d) = true ->
  Files.find name d = Some (EFile c) ->
  let w' := snd (ProcessPDFFiles cfg host pdfDir cropMargins
                   regexInFilenameIncluded regexInFilenameExcluded
                   reverseLeftAndRight showPager pagerText verbose w) in
  exists d', files w' !! pdfDir = Some d'
             /\ Files.find name d' = Some (EFile c).
Proof.
  intros Hdir _ Hfile w'. subst w'. unfold ProcessPDFFiles. rewrite Hdir.
  pose proof (keeps_directory cfg host (holds_file name c)
                (stable_holds_file name c) pdfDir cropMargins
                regexInFilenameIncluded regexInFilenameExcluded
                reverseLeftAndRight showPager pagerText verbose
                {| files := d; console := console w |} Hfile) as Hkeep.
  destruct (process_directory _ _ _ _ _ _ _ _ _ _ _) as [r s]. simpl in *.
  exists (files s). split; [apply lookup_insert_eq | exact Hkeep].
Qed.

Lemma ProcessPDFFiles_keeps_plain_files_witness :
  exists d',
    files (snd (ProcessPDFFiles shipped Sample.windows "exams"
                  Sample.margins_exam "" "" true true "" false
                  Sample.disk_with_corrupt)) !! "exams" = Some d'
    /\ Files.find "paper.pdf" d' = Some (EFile Sample.one_page_pdf).
Proof.
  apply (ProcessPDFFiles_keeps_plain_files shipped Sample.windows "exams"
           Sample.margins_exam "" "" true true "" false
           Sample.disk_with_corrupt (files Sample.with_corrupt)
           "paper.pdf" Sample.one_page_pdf).
  - reflexivity.
  - reflexivity.
  - reflexivity.
Defined.

(** ** Counting the candidates *)

Section Counting.

Variable cfg : Config.
Variable host : Host.
Variable cropMargins : Margins.
Variables include_pattern exclude_pattern : option (string -> bool).
Variables reverseLeftAndRight showPager : bool.
Variable pagerText : string.
Variable verbose : bool.

Let candidate :=
  process_candidate cfg host cropMargins include_pattern exclude_pattern
    reverseLeftAndRight showPager pagerText verbose.

Let candidates :=
  process_candidates cfg host cropMargins include_pattern exclude_pattern
    reverseLeftAndRight showPager pagerText verbose.

Lemma compile_if_given_run {T} (regex : string) (p : option (string -> bool))
    (s : T) :
  compiled host regex = Some p -> compile_if_given host regex s = (Ok p, s).
Proof.
  unfold compiled, compile_if_given.
  destruct (0 <? String.length regex)%nat.
  - destruct (re_compile host regex); [|discriminate].
    intros H. injection H as <-. reflexivity.
  - intros H. injection H as <-. reflexivity.
Qed.

(** A candidate stopped by a pattern is counted as ignored and announced;
    no file is touched. *)
Lemma candidate_ignored (count ignore : Z) (f : string) (s : Store Directory) :
  unmarked f = true ->
  passes include_pattern exclude_pattern f = false ->
  candidate (count, ignore) f s =
    (Ok (count, ignore + 1),
     {| files := files s;
        console := (console s ++ [MsgIgnored f (ignore + 1)])%list |}).
Proof.
  intros Hmark Hpass. unfold candidate, process_candidate.
  unfold unmarked in Hmark. apply negb_true_iff in Hmark. rewrite Hmark.
  unfold passes in Hpass. apply andb_false_iff in Hpass.
  destruct (match include_pattern with
            | Some search => negb (search f)
            | None => false
            end) eqn:Hin.
  - unfold bind. rewrite WriteText_run, orb_true_r. reflexivity.
  - destruct Hpass as [Hpass|Hpass]; [discriminate Hpass|].
    apply negb_false_iff in Hpass. rewrite Hpass.
    unfold bind. rewrite WriteText_run, orb_true_r. reflexivity.
Qed.

(** When a candidate returns, the counters have moved by its fate. *)
Lemma candidate_counters (count ignore count' ignore' : Z) (f : string)
    (s s' : Store Directory) :
  candidate (count, ignore) f s = (Ok (count', ignore'), s') ->
  (count', ignore') =
    if unmarked f
    then if passes include_pattern exclude_pattern f
         then (count + 1, ignore) else (count, ignore + 1)
    else (count, ignore).
Proof.
  destruct (unmarked f) eqn:Hmark.
  - destruct (passes include_pattern exclude_pattern f) eqn:Hpass.
    + unfold candidate, process_candidate.
      unfold unmarked in Hmark. apply negb_true_iff in Hmark. rewrite Hmark.
      unfold passes in Hpass. apply andb_true_iff in Hpass as [Hin Hex].
      apply negb_true_iff in Hin. apply negb_true_iff in Hex. rewrite Hin, Hex.
      unfold bind.
      destruct (on_files (ExtractImagesFromPdfFile cfg host f) s)
        as [[outputDir|e] s1]; [|discriminate].
      rewrite WriteText_run. unfold get at 1.
      destruct (for_each _ _ _) as [[[]|e] s3]; [|discriminate].
      destruct (MergeImagesAsPDFFile _ _ _ _ _ _ s3) as [[newPdf|e] s4];
        [|discriminate].
      destruct ((if negb (Debug_Mode cfg)
                 then on_files (rmtree outputDir) else ret tt) s4)
        as [[[]|e] s5]; [|discriminate].
      rewrite WriteText_run. unfold ret. intros H. now injection H as <- <- _.
    + intros H. unfold candidate in H.
      fold candidate in H. rewrite (candidate_ignored _ _ _ _ Hmark Hpass) in H.
      now injection H as <- <- _.
  - unfold candidate. intros H.
    unfold unmarked in Hmark. apply negb_false_iff in Hmark.
    rewrite (marked_candidate_skipped cfg host cropMargins include_pattern
               exclude_pattern reverseLeftAndRight showPager pagerText verbose
               (count, ignore) f s Hmark) in H.
    now injection H as <- <- _.
Qed.

(** When the loop returns, [count] has grown by the number of candidates
    handed to the pipeline and [ignore] by the number of candidates
    stopped by a pattern; the marked ones are in neither. *)
Lemma candidates_counters (pdfFiles : list string) :
  forall (count ignore count' ignore' : Z) (s s' : Store Directory),
    candidates pdfFiles (count, ignore) s = (Ok (count', ignore'), s') ->
    count' = count
             + Z.of_nat (List.length
                           (to_process include_pattern exclude_pattern pdfFiles))
    /\ ignore' = ignore
                 + Z.of_nat (List.length
                               (to_ignore include_pattern exclude_pattern pdfFiles)).
Proof.
  induction pdfFiles as [|f pdfFiles IH]; intros count ignore count' ignore' s s' H.
  - unfold candidates in H. simpl in H. unfold ret in H.
    injection H as <- <- _. simpl. lia.
  - unfold candidates in H. cbn [process_candidates] in H. unfold bind in H.
    fold candidate in H.
    destruct (candidate (count, ignore) f s) as [[[c1 i1]|e] s1] eqn:Hf;
      [|discriminate].
    apply candidate_counters in Hf.
    apply IH in H. unfold to_process, to_ignore in *. simpl List.filter.
    destruct (unmarked f); simpl andb.
    + destruct (passes include_pattern exclude_pattern f); simpl negb; cbv iota;
        injection Hf as -> ->; simpl List.length; lia.
    + injection Hf as -> ->. lia.
Qed.

(** When no candidate is handed to the pipeline, the loop returns without
    touching a file and prints one line for each ignored candidate. *)
Lemma candidates_idle (pdfFiles : list string) :
  forall (count ignore : Z) (s : Store Directory),
    to_process include_pattern exclude_pattern pdfFiles = [] ->
    candidates pdfFiles (count, ignore) s =
      (Ok (count,
           ignore + Z.of_nat (List.length
                                (to_ignore include_pattern exclude_pattern
                                   pdfFiles))),
       {| files := files s;
          console :=
            (console s
             ++ ignored_lines include_pattern exclude_pattern ignore pdfFiles)%list |}).
Proof.
  induction pdfFiles as [|f pdfFiles IH]; intros count ignore s Hnone.
  - unfold candidates. simpl. unfold ret. rewrite Z.add_0_r, List.app_nil_r.
    now destruct s.
  - unfold to_process in Hnone. simpl List.filter in Hnone.
    unfold candidates. cbn [process_candidates]. unfold bind. fold candidate.
    unfold to_ignore. simpl List.filter. simpl ignored_lines.
    destruct (unmarked f) eqn:Hmark; simpl andb in *.
    + destruct (passes include_pattern exclude_pattern f) eqn:Hpass;
        [discriminate Hnone|]. simpl negb. cbv iota.
      rewrite (candidate_ignored _ _ _ _ Hmark Hpass).
      fold candidates. rewrite (IH _ _ _ Hnone). simpl files. simpl console.
      rewrite <- List.app_assoc. simpl List.length.
      unfold to_ignore. do 2 f_equal. f_equal. lia.
    + unfold unmarked in Hmark. apply negb_false_iff in Hmark.
      unfold candidate.
      rewrite (marked_candidate_skipped cfg host cropMargins include_pattern
                 exclude_pattern reverseLeftAndRight showPager pagerText verbose
                 (count, ignore) f s Hmark).
      fold candidates. now rewrite (IH _ _ _ Hnone).
Qed.

End Counting.

(** ** The counts of a run *)

(** X2. When a run of [ProcessPDFFiles] over an existing directory
    returns, the last line it printed reports as processed the number of
    listed documents that are not marked and pass both patterns, and as
    ignored the number of listed documents that are not marked and are
    stopped by a pattern: a marked document is in neither count. *)
Theorem ProcessPDFFiles_closing_counts (cfg : Config) (host : Host)
    (pdfDir : string) (cropMargins : Margins)
    (regexInFilenameIncluded regexInFilenameExcluded : string)
    (reverseLeftAndRight showPager : bool) (pagerText : string) (verbose : bool)
    (w w' : Store (gmap string Directory)) (d : Directory)
    (include_pattern exclude_pattern : option (string -> bool)) :
  files w !! pdfDir = Some d ->
  compiled host regexInFilenameIncluded = Some include_pattern ->
  compiled host regexInFilenameExcluded = Some exclude_pattern ->
  ProcessPDFFiles cfg host pdfDir cropMargins regexInFilenameIncluded
    regexInFilenameExcluded reverseLeftAndRight showPager pagerText verbose w
  = (Ok tt, w') ->
  exists lines,
    console w' =
      (lines
       ++ [MsgDone
             (Z.of_nat (List.length
                          (to_process include_pattern exclude_pattern
                             (Files.glob "*.pdf" d))))
             (Z.of_nat (List.length
                          (to_ignore include_pattern exclude_pattern
                             (Files.glob "*.pdf" d))))])%list.
Proof.
  intros Hdir Hin Hex. unfold ProcessPDFFiles. rewrite Hdir.
  rewrite (process_directory_run cfg host pdfDir cropMargins
             regexInFilenameIncluded regexInFilenameExcluded
             reverseLeftAndRight showPager pagerText verbose
             {| files := d; console := console w |}
             include_pattern exclude_pattern
             (fun s0 => compile_if_given_run host _ _ s0 Hin)
             (fun s0 => compile_if_given_run host _ _ s0 Hex)).
  simpl files.
  destruct (process_candidates _ _ _ _ _ _ _ _ _ _ _ _)
    as [[[count ignore]|e] s1] eqn:Hloop; [|discriminate].
  apply candidates_counters in Hloop. destruct Hloop as [-> ->].
  intros H. injection H as <-. simpl. exists (console s1).
  rewrite !Z.add_0_l. reflexivity.
Qed.

Lemma ProcessPDFFiles_closing_counts_witness :
  exists lines,
    console (snd (ProcessPDFFiles shipped Sample.windows "exams"
                    Sample.margins_exam "paper" "broken" true true "" false
                    Sample.disk_with_corrupt))
    = (lines ++ [MsgDone 1 1])%list.
Proof.
  apply (ProcessPDFFiles_closing_counts shipped Sample.windows "exams"
           Sample.margins_exam "paper" "broken" true true "" false
           Sample.disk_with_corrupt
           (snd (ProcessPDFFiles shipped Sample.windows "exams"
                   Sample.margins_exam "paper" "broken" true true "" false
                   Sample.disk_with_corrupt))
           (files Sample.with_corrupt)
           (Some (Str.contains "paper")) (Some (Str.contains "broken"))).
  - reflexivity.
  - reflexivity.
  - reflexivity.
  - vm_compute. reflexivity.
Defined.

(** X3. A run of [ProcessPDFFiles] over a directory in which no listed
    document is both unmarked and accepted by the patterns (an empty
    directory, a directory of earlier results, a pattern nothing matches)
    returns normally without touching the disk: it prints the opening
    lines, one line for each ignored document with its running number,
    and a closing line that reports nothing processed. *)
Theorem ProcessPDFFiles_idle_run (cfg : Config) (host : Host)
    (pdfDir : string) (cropMargins : Margins)
    (regexInFilenameIncluded regexInFilenameExcluded : string)
    (reverseLeftAndRight showPager : bool) (pagerText : string) (verbose : bool)
    (w : Store (gmap string Directory)) (d : Directory)
    (include_pattern exclude_pattern : option (string -> bool)) :
  files w !! pdfDir = Some d ->
  compiled host regexInFilenameIncluded = Some include_pattern ->
  compiled host regexInFilenameExcluded = Some exclude_pattern ->
  to_process include_pattern exclude_pattern (Files.glob "*.pdf" d) = [] ->
  ProcessPDFFiles cfg host pdfDir cropMargins regexInFilenameIncluded
    regexInFilenameExcluded reverseLeftAndRight showPager pagerText verbose w
  = (Ok tt,
     {| files := files w;
        console :=
          (console (started pdfDir regexInFilenameIncluded
                      regexInFilenameExcluded
                      {| files := d; console := console w |})
           ++ ignored_lines include_pattern exclude_pattern 0
                (Files.glob "*.pdf" d)
           ++ [MsgDone 0
                 (Z.of_nat (List.length
                              (to_ignore include_pattern exclude_pattern
                                 (Files.glob "*.pdf" d))))])%list |}).
Proof.
  intros Hdir Hin Hex Hnone. unfold ProcessPDFFiles. rewrite Hdir.
  rewrite (process_directory_run cfg host pdfDir cropMargins
             regexInFilenameIncluded regexInFilenameExcluded
             reverseLeftAndRight showPager pagerText verbose
             {| files := d; console := console w |}
             include_pattern exclude_pattern
             (fun s0 => compile_if_given_run host _ _ s0 Hin)
             (fun s0 => compile_if_given_run host _ _ s0 Hex)).
  simpl files.
  rewrite (candidates_idle cfg host cropMargins include_pattern exclude_pattern
             reverseLeftAndRight showPager pagerText verbose _ 0 0 _ Hnone).
  simpl. rewrite (insert_id _ _ _ Hdir), <- List.app_assoc. reflexivity.
Qed.

Lemma ProcessPDFFiles_idle_run_witness :
  ProcessPDFFiles shipped Sample.windows "exams" Sample.margins_exam
    "answers" "" true true "" false Sample.disk_with_corrupt
  = (Ok tt,
     {| files := files Sample.disk_with_corrupt;
        console := [MsgStart "exams"; MsgInclude "answers";
                    MsgIgnored "broken.pdf" 1; MsgIgnored "paper.pdf" 2;
                    MsgDone 0 2] |}).
Proof.
  apply (ProcessPDFFiles_idle_run shipped Sample.windows "exams"
           Sample.margins_exam "answers" "" true true "" false
           Sample.disk_with_corrupt (files Sample.with_corrupt)
           (Some (Str.contains "answers")) None).
  - reflexivity.
  - reflexivity.
  - reflexivity.
  - reflexivity.
Defined.

(** X4. A document that is not marked and that a pattern stops costs one
    line and one count: the counter of the ignored grows by exactly one
    even when both patterns would stop it, the counter of the processed
    stays, and no file of the directory is created, changed or removed.
    The include pattern is asked first; a document it accepts is still
    stopped when the exclude pattern matches it. *)
Theorem filtered_candidate_is_only_counted (cfg : Config) (host : Host)
    (cropMargins : Margins)
    (include_pattern exclude_pattern : option (string -> bool))
    (reverseLeftAndRight showPager : bool) (pagerText : string) (verbose : bool)
    (count ignore : Z) (pdfFilename : string) (s : Store Directory) :
  Str.contains "_A4" (Str.stem pdfFilename) = false ->
  (exists search, include_pattern = Some search /\ search pdfFilename = false)
  \/ (exists search, exclude_pattern = Some search /\ search pdfFilename = true) ->
  process_candidate cfg host cropMargins include_pattern exclude_pattern
    reverseLeftAndRight showPager pagerText verbose (count, ignore) pdfFilename s
  = (Ok (count, ignore + 1),
     {| files := files s;
        console := (console s ++ [MsgIgnored pdfFilename (ignore + 1)])%list |}).
Proof.
  intros Hmark Hstop.
  apply candidate_ignored.
  - unfold unmarked. now rewrite Hmark.
  - unfold passes. apply andb_false_iff.
    destruct Hstop as [(search & -> & Hs)|(search & -> & Hs)].
    + left. now rewrite Hs.
    + right. now rewrite Hs.
Qed.

Lemma filtered_candidate_is_only_counted_witness :
  process_candidate shipped Sample.windows Sample.margins_exam
    (Some (Str.contains "answers")) (Some (Str.contains "paper"))
    true true "" false (2, 5) "paper.pdf" Sample.with_corrupt
  = (Ok (2, 6),
     {| files := files Sample.with_corrupt;
        console := [MsgIgnored "paper.pdf" 6] |}).
Proof.
  apply (filtered_candidate_is_only_counted shipped Sample.windows
           Sample.margins_exam (Some (Str.contains "answers"))
           (Some (Str.contains "paper")) true true "" false 2 5 "paper.pdf"
           Sample.with_corrupt).
  - reflexivity.
  - left. exists (Str.contains "answers"). split; reflexivity.
Defined.

(** ** Names of pages and artifacts *)

Module NameFacts.

Lemma glob_star_cons (p : string) (c : ascii) (t : string) :
  Str.glob_match (String "*" p) (String c t)
  = Str.glob_match p (String c t) || Str.glob_match (String "*" p) t.
Proof. reflexivity. Qed.

Lemma glob_star_app (p a t : string) :
  Str.glob_match (String "*" p) t = true ->
  Str.glob_match (String "*" p) (a +:+ t) = true.
Proof.
  intros H. induction a as [|c a IH]; [exact H|].
  rewrite StrFacts.app_cons, glob_star_cons, IH. apply orb_true_r.
Qed.

Lemma glob_artifact_digits (a t : string) :
  all_digits a = true ->
  Str.glob_match artifact_pattern (a +:+ t) = Str.glob_match artifact_pattern t.
Proof.
  intros H. induction a as [|c a IH]; [reflexivity|].
  simpl in H. apply andb_true_iff in H as [Hc Ha].
  rewrite StrFacts.app_cons. unfold artifact_pattern in *.
  rewrite glob_star_cons, (IH Ha).
  destruct (DecimalFacts.digit_plain c Hc) as (_ & Hus & _).
  replace (Str.glob_match "_cropped_A4_*.png" (String c (a +:+ t))) with false;
    [reflexivity|].
  cbn [Str.glob_match]. rewrite Ascii.eqb_sym in Hus.
  change (Ascii.eqb "_" "*") with false. cbv iota. now rewrite Hus.
Qed.

Lemma stem_decompose (name : string) :
  exists rest, name = Str.stem name +:+ rest
               /\ (rest = "" \/ exists r, rest = String "." r).
Proof.
  assert (forall s i, Str.rfind "." s = Some i ->
            exists b, s = String.substring 0 i s +:+ String "." b) as Hsplit.
  { induction s as [|c s IH]; intros i; simpl; [discriminate|].
    destruct (Str.rfind "." s) as [j|] eqn:E.
    - intros H. injection H as <-. destruct (IH j eq_refl) as [b Hb].
      exists b. simpl. rewrite StrFacts.app_cons. now rewrite <- Hb.
    - destruct (Ascii.eqb_spec c ".") as [->|]; [|discriminate].
      intros H. injection H as <-. exists s. simpl. now destruct s. }
  unfold Str.stem. destruct (Str.rfind "." name) as [i|] eqn:E.
  - destruct ((0 <? i)%nat && (i <? String.length name - 1)%nat).
    + destruct (Hsplit name i E) as [b Hb]. exists (String "." b).
      split; [exact Hb | right; now exists b].
    + exists "". rewrite StrFacts.app_nil_r. split; [reflexivity | now left].
  - exists "". rewrite StrFacts.app_nil_r. split; [reflexivity | now left].
Qed.

Lemma name_not_stem_underscore (name tail : string) :
  name <> Str.stem name +:+ String "_" tail.
Proof.
  destruct (stem_decompose name) as (rest & Hname & Hrest).
  intros H. rewrite Hname in H at 1. apply StrFacts.app_inj_l in H.
  destruct Hrest as [->|[r ->]]; discriminate.
Qed.

Lemma half_names (imageFilename : string) :
  left_name (Str.stem imageFilename +:+ "_cropped.png")
  = Str.stem imageFilename +:+ "_cropped_A4_01.png"
  /\ right_name (Str.stem imageFilename +:+ "_cropped.png")
     = Str.stem imageFilename +:+ "_cropped_A4_02.png".
Proof.
  unfold left_name, right_name. rewrite StrFacts.stem_cropped.
  now rewrite !StrFacts.app_assoc.
Qed.

Lemma stem_half (s tail : string) :
  Str.rfind "." tail = None ->
  Str.stem (s +:+ "_cropped" +:+ tail +:+ ".png") = s +:+ "_cropped" +:+ tail.
Proof.
  intros Htail.
  replace (s +:+ "_cropped" +:+ tail +:+ ".png")
    with ((s +:+ "_cropped" +:+ tail) +:+ String "." "png")
    by now rewrite !StrFacts.app_assoc.
  apply StrFacts.stem_ext; [|discriminate|reflexivity].
  apply StrFacts.app_nonempty.
  change ("_cropped" +:+ tail) with (String "_" ("cropped" +:+ tail)).
  discriminate.
Qed.

End NameFacts.

(** ** Steps on a folder and the files they leave alone *)

Section Leaving.

Variable other : string.

Lemma leaves_ret {A} (a : A) : leaves_alone other (ret a).
Proof. intros d. reflexivity. Qed.


Lemma leaves_lift {A} (r : Res A) : leaves_alone other (lift r).
Proof. intros d. reflexivity. Qed.

Lemma leaves_open (name : string) : leaves_alone other (Image_open name).
Proof.
  intros d. unfold Image_open.
  now destruct (Files.find name d) as [[img| |]|].
Qed.

Lemma leaves_save (name : string) (img : Image) :
  name <> other -> leaves_alone other (Image_save name img).
Proof.
  intros Hne d. unfold Image_save. destruct (Image_empty img); simpl.
  - now apply save_failed_other.
  - now apply FilesFacts.find_write_ne.
Qed.


Lemma leaves_bind {A B} (c : M Dir A) (k : A -> M Dir B) :
  leaves_alone other c -> (forall a, leaves_alone other (k a)) ->
  leaves_alone other (bind c k).
Proof.
  intros Hc Hk d. unfold bind. specialize (Hc d).
  destruct (c d) as [[a|e] d1]; simpl in *; [|exact Hc].
  now rewrite Hk.
Qed.

Lemma leaves_Split (croppedImageFilename : string) :
  left_name croppedImageFilename <> other ->
  right_name croppedImageFilename <> other ->
  leaves_alone other (SplitCroppedIntoA4Files croppedImageFilename).
Proof.
  intros HL HR. unfold SplitCroppedIntoA4Files.
  apply leaves_bind; [apply leaves_open|]. intros img.
  apply leaves_bind; [apply leaves_lift|]. intros leftImage.
  apply leaves_bind; [apply leaves_lift|]. intros rightImage.
  apply leaves_bind; [now apply leaves_save|]. intros _.
  apply leaves_bind; [now apply leaves_save|]. intros _.
  apply leaves_ret.
Qed.

Lemma leaves_Crop (cfg : Config) (imageFilename : string) (l t r b : Z) :
  Str.stem imageFilename +:+ "_cropped.png" <> other ->
  Str.stem imageFilename +:+ "_cropped_A4_01.png" <> other ->
  Str.stem imageFilename +:+ "_cropped_A4_02.png" <> other ->
  leaves_alone other (CropImageFile cfg imageFilename l t r b).
Proof.
  intros HC HL HR. destruct (NameFacts.half_names imageFilename) as [EL ER].
  unfold CropImageFile.
  apply leaves_bind; [apply leaves_open|]. intros img.
  apply leaves_bind; [apply leaves_lift|]. intros dpiRatio.
  apply leaves_bind; [apply leaves_lift|]. intros leftPx.
  apply leaves_bind; [apply leaves_lift|]. intros topPx.
  apply leaves_bind; [apply leaves_lift|]. intros rightPx.
  apply leaves_bind; [apply leaves_lift|]. intros bottomPx.
  apply leaves_bind; [apply leaves_lift|]. intros croppedImage.
  apply leaves_bind; [now apply leaves_save|]. intros _.
  apply leaves_bind; [|intros _; apply leaves_ret].
  apply leaves_Split; congruence.
Qed.


End Leaving.

(** ** Cropping: what is written and what is kept *)

(** X5. The names [CropImageFile] gives to its files fit the rest of the
    pipeline.  The two halves of any page match the pattern by which
    [MergeImagesAsPDFFile] collects its pages.  The cropped file and the
    two halves carry "_cropped" in their stems, so the loop of
    [ProcessPDFFiles] over the page images passes them over and never
    crops them again.  The page images [ExtractImagesFromPdfFile] writes,
    and the cropped files of those pages, do not match the pattern and
    never become pages of the result. *)
Theorem artifact_names_fit_the_pipeline (cfg : Config) (outputDir : string)
    (cropMargins : Margins) (reverseLeftAndRight verbose : bool)
    (imageFilename : string) (s : Store Directory) :
  let cropped := Str.stem imageFilename +:+ "_cropped.png" in
  let leftHalf := Str.stem imageFilename +:+ "_cropped_A4_01.png" in
  let rightHalf := Str.stem imageFilename +:+ "_cropped_A4_02.png" in
  Str.glob_match artifact_pattern leftHalf = true
  /\ Str.glob_match artifact_pattern rightHalf = true
  /\ crop_page cfg outputDir cropMargins reverseLeftAndRight verbose cropped s
     = (Ok tt, s)
  /\ crop_page cfg outputDir cropMargins reverseLeftAndRight verbose leftHalf s
     = (Ok tt, s)
  /\ crop_page cfg outputDir cropMargins reverseLeftAndRight verbose rightHalf s
     = (Ok tt, s)
  /\ (forall i, 0 <= i ->
        Str.glob_match artifact_pattern (page_name i) = false
        /\ Str.glob_match artifact_pattern
             (Str.stem (page_name i) +:+ "_cropped.png") = false).
Proof.
  intros cropped leftHalf rightHalf.
  assert (forall name, Str.contains "_cropped" (Str.stem name) = true ->
            crop_page cfg outputDir cropMargins reverseLeftAndRight verbose name s
            = (Ok tt, s)) as Hskip.
  { intros name H. unfold crop_page. now rewrite H. }
  split; [|split; [|split; [|split; [|split]]]].
  - unfold leftHalf, artifact_pattern. now apply NameFacts.glob_star_app.
  - unfold rightHalf, artifact_pattern. now apply NameFacts.glob_star_app.
  - apply Hskip. unfold cropped. rewrite StrFacts.stem_cropped.
    apply StrFacts.contains_suffix.
  - apply Hskip. unfold leftHalf.
    change "_cropped_A4_01.png" with ("_cropped" +:+ "_A4_01" +:+ ".png").
    rewrite NameFacts.stem_half by reflexivity. apply StrFacts.contains_app.
  - apply Hskip. unfold rightHalf.
    change "_cropped_A4_02.png" with ("_cropped" +:+ "_A4_02" +:+ ".png").
    rewrite NameFacts.stem_half by reflexivity. apply StrFacts.contains_app.
  - intros i Hi.
    destruct (DecimalFacts.format_02d_digits (i + 1) ltac:(lia))
      as (Hne & Hall & _).
    assert (Str.stem (page_name i) = Str.format_02d (i + 1)) as ->.
    { unfold page_name. change ".png" with (String "." "png").
      apply StrFacts.stem_ext; [exact Hne | discriminate | reflexivity]. }
    unfold page_name.
    rewrite !NameFacts.glob_artifact_digits by exact Hall.
    split; reflexivity.
Qed.

Lemma artifact_names_fit_the_pipeline_witness :
  Str.glob_match artifact_pattern "07_cropped_A4_01.png" = true
  /\ crop_page shipped "paper" Sample.margins_exam true false
       "07_cropped.png" Sample.rasterized
     = (Ok tt, Sample.rasterized)
  /\ Str.glob_match artifact_pattern "08.png" = false.
Proof.
  destruct (artifact_names_fit_the_pipeline shipped "paper" Sample.margins_exam
              true false "07.png" Sample.rasterized)
    as (HL & _ & HC & _ & _ & Hpages).
  split; [exact HL|]. split; [exact HC|].
  destruct (Hpages 7) as [Hraw _]; [vm_compute; discriminate|].
  exact Hraw.
Defined.

(** X6. [CropImageFile] never writes over the image it was given: when
    it has run, whether it returned or raised, the name of the input
    holds what it held before.  Nor does any other file of the folder
    change, apart from the cropped file and the two halves. *)
Theorem CropImageFile_keeps_its_input (cfg : Config) (d : Dir)
    (imageFilename : string)
    (leftMargin topMargin rightMargin bottomMargin : Z) :
  let d' := snd (CropImageFile cfg imageFilename
                   leftMargin topMargin rightMargin bottomMargin d) in
  Files.find imageFilename d' = Files.find imageFilename d
  /\ (forall other,
        other <> Str.stem imageFilename +:+ "_cropped.png" ->
        other <> Str.stem imageFilename +:+ "_cropped_A4_01.png" ->
        other <> Str.stem imageFilename +:+ "_cropped_A4_02.png" ->
        Files.find other d' = Files.find other d).
Proof.
  intros d'. subst d'.
  assert (forall other,
            other <> Str.stem imageFilename +:+ "_cropped.png" ->
            other <> Str.stem imageFilename +:+ "_cropped_A4_01.png" ->
            other <> Str.stem imageFilename +:+ "_cropped_A4_02.png" ->
            Files.find other
              (snd (CropImageFile cfg imageFilename
                      leftMargin topMargin rightMargin bottomMargin d))
            = Files.find other d) as Hframe.
  { intros other HC HL HR.
    apply (leaves_Crop other cfg imageFilename); congruence. }
  split; [|exact Hframe].
  apply Hframe; apply NameFacts.name_not_stem_underscore.
Qed.

(** X7. Cropping and splitting compose: for an image of width W and
    height H whose scaled margins leave two columns or more and one row
    or more of it, leftPx + rightPx + 2 <= W and topPx + bottomPx < H,
    [CropImageFile] returns and leaves in the folder a left half and a
    right half whose widths are floor(W'/2) and W' - floor(W'/2) for
    W' = W - leftPx - rightPx, both of height H - topPx - bottomPx;
    where the crop box lies inside the page, a pixel of the left half is
    the pixel of the page moved by (leftPx, topPx), and a pixel of the
    right half the pixel moved by (leftPx + floor(W'/2), topPx). *)
Theorem CropImageFile_halves (cfg : Config) (d : Dir) (imageFilename : string)
    (img : Image) (leftMargin topMargin rightMargin bottomMargin : Z) :
  let dpiRatio := 300 / Pdf2Image_Default_Dpi cfg in
  let leftPx := leftMargin / dpiRatio in
  let topPx := topMargin / dpiRatio in
  let rightPx := rightMargin / dpiRatio in
  let bottomPx := bottomMargin / dpiRatio in
  let W' := width img - leftPx - rightPx in
  let H' := height img - topPx - bottomPx in
  Files.find imageFilename d = Some (Png img) ->
  dpiRatio <> 0 ->
  leftPx + rightPx + 2 <= width img ->
  topPx + bottomPx < height img ->
  exists (leftImage rightImage : Image) (d' : Dir),
    CropImageFile cfg imageFilename leftMargin topMargin rightMargin bottomMargin d
      = (Ok (Str.stem imageFilename +:+ "_cropped.png"), d')
    /\ Files.find (Str.stem imageFilename +:+ "_cropped_A4_01.png") d'
       = Some (Png leftImage)
    /\ Files.find (Str.stem imageFilename +:+ "_cropped_A4_02.png") d'
       = Some (Png rightImage)
    /\ width leftImage = W' / 2
    /\ width rightImage = W' - W' / 2
    /\ height leftImage = H'
    /\ height rightImage = H'
    /\ (forall x y,
          inside leftImage x y = true ->
          inside img (x + leftPx) (y + topPx) = true ->
          getpixel leftImage x y = getpixel img (x + leftPx) (y + topPx))
    /\ (forall x y,
          inside rightImage x y = true ->
          inside img (x + W' / 2 + leftPx) (y + topPx) = true ->
          getpixel rightImage x y
          = getpixel img (x + W' / 2 + leftPx) (y + topPx)).
Proof.
  intros dpiRatio leftPx topPx rightPx bottomPx W' H' Hf Hr Hw Hh.
  pose proof (crop_run cfg imageFilename d img leftMargin topMargin
                rightMargin bottomMargin) as Hrun.
  cbv zeta in Hrun. fold dpiRatio in Hrun.
  fold leftPx topPx rightPx bottomPx in Hrun.
  specialize (Hrun Hf Hr ltac:(lia) ltac:(lia)).
  destruct (NameFacts.half_names imageFilename) as [EL ER].
  rewrite EL, ER in Hrun.
  assert (Str.stem imageFilename +:+ "_cropped_A4_01.png"
          <> Str.stem imageFilename +:+ "_cropped_A4_02.png") as Hne.
  { intros E. apply StrFacts.app_inj_l in E. discriminate. }
  assert (0 <= W' / 2 <= W') as Hhalf.
  { split; [apply Z.div_pos | apply Z.div_le_upper_bound]; lia. }
  eexists. eexists. eexists. split; [exact Hrun|].
  split.
  { rewrite FilesFacts.find_write_ne by congruence.
    apply FilesFacts.find_write_eq. }
  split; [apply FilesFacts.find_write_eq|].
  simpl. fold W' H'.
  replace (width img - rightPx - leftPx) with W' by (unfold W'; lia).
  replace (height img - bottomPx - topPx) with H' by (unfold H'; lia).
  split; [lia|]. split; [lia|]. split; [lia|]. split; [lia|].
  split.
  - intros x y Hin Himg. apply inside_spec in Hin. simpl in Hin.
    rewrite !Z.add_0_r.
    assert (inside (cropped_to img leftPx topPx (width img - rightPx)
                      (height img - bottomPx)) x y = true) as E.
    { apply inside_spec. simpl. unfold W', H' in *. lia. }
    rewrite E. now rewrite Himg.
  - intros x y Hin Himg. apply inside_spec in Hin. simpl in Hin.
    rewrite !Z.add_0_r.
    assert (inside (cropped_to img leftPx topPx (width img - rightPx)
                      (height img - bottomPx)) (x + W' / 2) y = true) as E.
    { apply inside_spec. simpl. unfold W', H' in *. lia. }
    rewrite E. now rewrite Himg.
Qed.

Lemma CropImageFile_halves_witness :
  exists (leftImage rightImage : Image) (d' : Dir),
    CropImageFile shipped "01.png" 300 165 160 160 Sample.one_page
      = (Ok "01_cropped.png", d')
    /\ Files.find "01_cropped_A4_01.png" d' = Some (Png leftImage)
    /\ Files.find "01_cropped_A4_02.png" d' = Some (Png rightImage)
    /\ width leftImage = 1270 /\ width rightImage = 1270
    /\ height leftImage = 3675 /\ height rightImage = 3675.
Proof.
  destruct (CropImageFile_halves shipped Sample.one_page "01.png"
              (Sample.blank 3000 4000) 300 165 160 160)
    as (L & R & d' & Hrun & HL & HR & HwL & HwR & HhL & HhR & _).
  - reflexivity.
  - vm_compute. discriminate.
  - vm_compute. discriminate.
  - vm_compute. reflexivity.
  - exists L, R, d'. repeat split; assumption.
Defined.

(** ** Rasterizing a document into its folder *)





(** X9. When the name of the folder of a document (its stem) is taken by
    a plain file, [ExtractImagesFromPdfFile] raises [FileExistsError]
    before the rasterizer is called and leaves the directory as it was.
    A document named ".pdf" is its own stem and always fails so. *)
Theorem ExtractImagesFromPdfFile_blocked_by_file (cfg : Config) (host : Host)
    (pdfFilename : string) (t : Directory) (c0 : Content) :
  Files.find (Str.stem pdfFilename) t = Some (EFile c0) ->
  ExtractImagesFromPdfFile cfg host pdfFilename t = (Raise FileExistsError, t)
  /\ (forall (t0 : Directory) (c : Content),
        Files.find ".pdf" t0 = Some (EFile c) ->
        ExtractImagesFromPdfFile cfg host ".pdf" t0 = (Raise FileExistsError, t0)).
Proof.
  assert (forall f (t0 : Directory) c,
            Files.find (Str.stem f) t0 = Some (EFile c) ->
            ExtractImagesFromPdfFile cfg host f t0 = (Raise FileExistsError, t0))
    as Hblocked.
  { intros f t0 c H. unfold ExtractImagesFromPdfFile, bind, mkdir_exist_ok.
    now rewrite H. }
  intros H. split; [now apply Hblocked with (c := c0)|].
  intros t0 c Hc. now apply Hblocked with (c := c).
Qed.

Lemma ExtractImagesFromPdfFile_blocked_by_file_witness :
  ExtractImagesFromPdfFile shipped Sample.windows "paper.pdf"
    [("paper.pdf", EFile Sample.one_page_pdf); ("paper", EFile Blob)]
  = (Raise FileExistsError,
     [("paper.pdf", EFile Sample.one_page_pdf); ("paper", EFile Blob)]).
Proof.
  apply (ExtractImagesFromPdfFile_blocked_by_file shipped Sample.windows
           "paper.pdf" _ Blob).
  reflexivity.
Defined.

(** ** Assembling: numbering and edges *)

Section Numbering.

Variable cfg : Config.
Variable host : Host.
Variable windir_ : string.
Variable imageDir : string.
Variable pagerMemo : string.
Variable verbose : bool.
Variable totalPages : Z.
Hypothesis windir_set : windir host = Some windir_.

Lemma captioned_pages_write (n : string) (c : Content) (d : Dir)
    (names : list string) :
  n ∉ names ->
  forall pageNumber,
    captioned_pages cfg host windir_ totalPages pagerMemo
      (Files.write n c d) names pageNumber
    = captioned_pages cfg host windir_ totalPages pagerMemo d names pageNumber.
Proof.
  induction names as [|m names IH]; intros Hn pageNumber; [reflexivity|].
  apply not_elem_of_cons in Hn as [Hm Hn]. cbn [captioned_pages].
  rewrite FilesFacts.find_write_ne by exact Hm.
  destruct (Files.find m d) as [[img| |]|]; try reflexivity.
  now rewrite IH.
Qed.

Lemma captioned_pages_length (d : Dir) (names : list string) :
  all_png names d ->
  forall pageNumber,
    List.length (captioned_pages cfg host windir_ totalPages pagerMemo d names
                   pageNumber)
    = List.length names.
Proof.
  induction names as [|n names IH]; intros Hpng pageNumber; [reflexivity|].
  destruct (Hpng n (or_introl eq_refl)) as [img Himg].
  cbn [captioned_pages]. rewrite Himg. simpl.
  f_equal. apply IH. now apply all_png_tail with (n := n).
Qed.

(** The page at position k carries the caption of page k + 1. *)
Lemma captioned_pages_lookup (d : Dir) (names : list string) :
  all_png names d ->
  forall (pageNumber : Z) (k : nat) (n : string),
    names !! k = Some n ->
    exists img,
      Files.find n d = Some (Png img)
      /\ captioned_pages cfg host windir_ totalPages pagerMemo d names pageNumber
         !! k
         = Some (ImagePage n
                   (captioned cfg host windir_ img totalPages
                      (pageNumber + Z.of_nat k + 1) pagerMemo)
                   (0, 0, 210, 297)).
Proof.
  induction names as [|m names IH]; intros Hpng pageNumber k n Hk;
    [discriminate Hk|].
  destruct (Hpng m (or_introl eq_refl)) as [img Himg].
  cbn [captioned_pages]. rewrite Himg.
  destruct k as [|k].
  - injection Hk as <-. exists img. split; [exact Himg|].
    simpl. do 3 f_equal. lia.
  - destruct (IH (all_png_tail _ _ _ Hpng) (pageNumber + 1) k n Hk)
      as (img' & Himg' & Hpage).
    exists img'. split; [exact Himg'|]. simpl. rewrite Hpage.
    do 3 f_equal. lia.
Qed.

(** The loop of [MergeImagesAsPDFFile] with captions, over names that are
    all different and hold images the host can caption: the pages it
    appends are the captioned pages. *)
Lemma merge_pages_captioned (names : list string) :
  NoDup names ->
  (forall n, List.In n names -> Str.lower (Str.splitext n) = ".png") ->
  forall (pageNumber : Z) (pdf : list PdfPage) (s : Store Directory) (d : Dir),
    Files.find imageDir (files s) = Some (ESub d) ->
    all_png names d ->
    all_captionable cfg host names d ->
    (exists results, Files.find "_A4_" (files s) = Some (ESub results)) ->
    exists s' : Store Directory,
      merge_pages cfg host imageDir true pagerMemo verbose totalPages names
        pageNumber pdf s
      = (Ok (pdf ++ captioned_pages cfg host windir_ totalPages pagerMemo d
                      names pageNumber)%list, s')
      /\ (exists results, Files.find "_A4_" (files s') = Some (ESub results)).
Proof.
  induction names as [|n names IH];
    intros Hnd Hext pageNumber pdf s d Hdir Hpng Hcan HA4.
  - exists s. simpl. rewrite List.app_nil_r. split; [reflexivity | exact HA4].
  - apply NoDup_cons in Hnd as [Hn Hnd].
    destruct (Hpng n (or_introl eq_refl)) as [img Himg].
    pose proof (Hcan n img (or_introl eq_refl) Himg) as Hcan_n.
    assert (AddPageNumberIntoImage cfg host n totalPages (pageNumber + 1)
              pagerMemo d
            = (Ok n,
               Files.write n
                 (Png (captioned cfg host windir_ img totalPages
                         (pageNumber + 1) pagerMemo)) d)) as Hrun.
    { destruct Hcan_n as (Hdpi & Hwidth & Hheight & Hsize & w & Hw & Hfont).
      assert (w = windir_) as -> by congruence.
      apply caption_run; try assumption. apply Hext. now left. }
    set (cap := captioned cfg host windir_ img totalPages (pageNumber + 1)
                  pagerMemo) in *.
    set (d1 := Files.write n (Png cap) d) in *.
    assert (Files.find n d1 = Some (Png cap)) as Hcap
      by apply FilesFacts.find_write_eq.
    pose proof (Image_open_png n d1 cap Hcap) as Hopen.
    assert (exists s3 : Store Directory,
              merge_pages cfg host imageDir true pagerMemo verbose totalPages
                (n :: names) pageNumber pdf s
              = merge_pages cfg host imageDir true pagerMemo verbose totalPages
                  names (pageNumber + 1)
                  (pdf ++ [ImagePage n cap (0, 0, 210, 297)])%list s3
              /\ Files.find imageDir (files s3) = Some (ESub d1)
              /\ (exists results,
                    Files.find "_A4_" (files s3) = Some (ESub results)))
      as (s3 & Hstep & Hdir3 & HA43).
    { eexists. split; [|split].
      - cbn [merge_pages]. unfold bind at 1. unfold bind at 1.
        rewrite (in_dir_run _ _ _ _ _ _ Hdir Hrun). unfold ret at 1.
        unfold bind at 1.
        erewrite in_dir_run;
          [|simpl files; apply FilesFacts.find_write_eq | exact Hopen].
        unfold bind at 1.
        erewrite in_dir_run;
          [|simpl files; apply FilesFacts.find_write_eq | exact Hopen].
        unfold bind at 1. rewrite WriteText_run. reflexivity.
      - simpl files. apply FilesFacts.find_write_eq.
      - simpl files. do 3 apply results_folder_kept. exact HA4. }
    assert (all_captionable cfg host names d1) as Hcan1.
    { apply all_captionable_write; [exact Himg | exact Hcan_n |].
      intros m img' Hm. apply Hcan. now right. }
    destruct (IH Hnd (fun m Hm => Hext m (or_intror Hm)) (pageNumber + 1)
                (pdf ++ [ImagePage n cap (0, 0, 210, 297)])%list
                s3 d1 Hdir3
                (all_png_write _ _ _ _ (all_png_tail _ _ _ Hpng)) Hcan1 HA43)
      as (s' & Hloop & HA4').
    exists s'. split; [|exact HA4'].
    rewrite Hstep, Hloop. cbn [captioned_pages]. rewrite Himg.
    unfold d1. rewrite captioned_pages_write by exact Hn.
    now rewrite <- List.app_assoc.
Qed.

End Numbering.

(** X10. With captions enabled, over a folder whose matched artifacts
    are images the host can caption, under names all different,
    [MergeImagesAsPDFFile] writes a document in which the page at
    position k (from 0) carries artifact k of the listing, captioned as
    page k + 1 of n, where n is the number of matched artifacts: the
    numbers run from 1 to n in listing order and the total is the same on
    every page. *)
Theorem MergeImagesAsPDFFile_numbers_pages (cfg : Config) (host : Host)
    (imageDir pagerMemo : string) (verbose : bool) (s : Store Directory)
    (d : Dir) (windir_ : string) :
  let names := Files.glob artifact_pattern d in
  let totalPages := Z.of_nat (List.length names) in
  Files.find imageDir (files s) = Some (ESub d) ->
  (forall c, Files.find "_A4_" (files s) <> Some (EFile c)) ->
  names <> [] ->
  NoDup names ->
  all_png names d ->
  all_captionable cfg host names d ->
  windir host = Some windir_ ->
  exists (s' : Store Directory) (results : Dir) (pages : list PdfPage),
    MergeImagesAsPDFFile cfg host imageDir true pagerMemo verbose s
      = (Ok (Str.stem imageDir +:+ "_A4.pdf"), s')
    /\ Files.find "_A4_" (files s') = Some (ESub results)
    /\ Files.find (Str.stem imageDir +:+ "_A4.pdf") results = Some (Pdf pages)
    /\ List.length pages = List.length names
    /\ (forall (k : nat) (n : string),
          names !! k = Some n ->
          exists img,
            Files.find n d = Some (Png img)
            /\ pages !! k
               = Some (ImagePage n
                         (captioned cfg host windir_ img totalPages
                            (Z.of_nat k + 1) pagerMemo)
                         (0, 0, 210, 297))).
Proof.
  intros names totalPages Hdir Hfile Hsome Hnd Hpng Hcan Hw.
  destruct (mkdir_results_run imageDir s d Hdir Hfile)
    as (s1 & Hmk & Hdir1 & HA41).
  assert (glob_in imageDir "*_cropped_A4_*.png" (files s1) = names) as Hglob.
  { unfold glob_in. now rewrite Hdir1. }
  assert (forall n, List.In n names -> Str.lower (Str.splitext n) = ".png")
    as Hext.
  { intros n Hn. apply ExtensionFacts.artifact_extension.
    now apply ExtensionFacts.glob_matches in Hn. }
  destruct (merge_pages_captioned cfg host windir_ imageDir pagerMemo verbose
              totalPages Hw names Hnd Hext 0 [] s1 d Hdir1 Hpng Hcan HA41)
    as (s2 & Hloop & [results HA42]).
  set (pages := captioned_pages cfg host windir_ totalPages pagerMemo d names 0)
    in *.
  assert (List.length pages = List.length names) as Hlen
    by (unfold pages; now apply captioned_pages_length).
  assert (FPDF_output pages = pages) as Hout.
  { destruct pages; [|reflexivity]. destruct names; [congruence|discriminate]. }
  eexists.
  exists (Files.write (Str.stem imageDir +:+ "_A4.pdf") (Pdf pages) results).
  exists pages. split; [|split; [|split; [|split]]].
  - unfold MergeImagesAsPDFFile, bind. rewrite Hmk. unfold get at 1.
    rewrite Hglob. fold names. fold totalPages. rewrite Hloop. simpl List.app.
    rewrite Hout.
    rewrite (in_dir_run _
               (modify (Files.write (Str.stem imageDir +:+ "_A4.pdf") (Pdf pages)))
               s2 results _ (Ok tt) HA42 eq_refl).
    reflexivity.
  - simpl files. apply FilesFacts.find_write_eq.
  - apply FilesFacts.find_write_eq.
  - exact Hlen.
  - intros k n Hk.
    destruct (captioned_pages_lookup cfg host windir_ pagerMemo totalPages d
                names Hpng 0 k n Hk) as (img & Himg & Hpage).
    exists img. split; [exact Himg|]. unfold pages. rewrite Hpage.
    do 3 f_equal.
Qed.

Lemma MergeImagesAsPDFFile_numbers_pages_witness :
  exists (s' : Store Directory) (results : Dir) (pages : list PdfPage),
    MergeImagesAsPDFFile shipped Sample.windows "paper" true " memo" false
      Sample.left_first
      = (Ok "paper_A4.pdf", s')
    /\ Files.find "paper_A4.pdf" results = Some (Pdf pages)
    /\ List.length pages = 2%nat
    /\ exists img,
         pages !! 1%nat
         = Some (ImagePage "01_cropped_A4_02.png"
                   (captioned shipped Sample.windows "C:\Windows" img
                      2 2 " memo")
                   (0, 0, 210, 297)).
Proof.
  destruct (MergeImagesAsPDFFile_numbers_pages shipped Sample.windows "paper"
              " memo" false Sample.left_first
              [("01_cropped_A4_01.png", Png (Sample.blank 1340 3680));
               ("01_cropped_A4_02.png", Png (Sample.blank 1340 3680))]
              "C:\Windows")
    as (s' & results & pages & Hrun & _ & Hpdf & Hlen & Hpages).
  - reflexivity.
  - intros c. vm_compute. discriminate.
  - vm_compute. discriminate.
  - vm_compute. apply NoDup_cons. split.
    + intros H. apply list_elem_of_In in H. destruct H as [H|[]]. discriminate H.
    + apply NoDup_singleton.
  - intros n Hn. vm_compute in Hn.
    destruct Hn as [<-|[<-|[]]]; eexists; reflexivity.
  - intros n img Hn Himg. vm_compute in Hn.
    assert (img = Sample.blank 1340 3680) as ->.
    { destruct Hn as [<-|[<-|[]]]; vm_compute in Himg;
        injection Himg as <-; reflexivity. }
    split; [vm_compute; discriminate|].
    split; [vm_compute; reflexivity|]. split; [vm_compute; reflexivity|].
    split; [vm_compute; reflexivity|].
    exists "C:\Windows". split; reflexivity.
  - reflexivity.
  - exists s', results, pages. split; [exact Hrun|]. split; [exact Hpdf|].
    split; [exact Hlen|].
    destruct (Hpages 1%nat "01_cropped_A4_02.png" eq_refl) as (img & _ & Hpage).
    exists img. exact Hpage.
Defined.

(** X11. [MergeImagesAsPDFFile] over a folder that is missing or holds
    no matched artifact does not fail: it makes the folder of the results
    if needed and writes there a document named after the folder,
    printing nothing.  No page was added, so the document gets the one
    blank page [FPDF] gives a document on closing it.  When the name of
    the folder of the results is taken by a plain file it raises
    [FileExistsError] and changes nothing. *)
Theorem MergeImagesAsPDFFile_edges (cfg : Config) (host : Host)
    (imageDir : string) (addPager : bool) (pagerMemo : string) (verbose : bool)
    (s : Store Directory) :
  ((forall c, Files.find "_A4_" (files s) <> Some (EFile c)) ->
   glob_in imageDir artifact_pattern (files s) = [] ->
   exists (s' : Store Directory) (results : Dir),
     MergeImagesAsPDFFile cfg host imageDir addPager pagerMemo verbose s
       = (Ok (Str.stem imageDir +:+ "_A4.pdf"), s')
     /\ Files.find "_A4_" (files s') = Some (ESub results)
     /\ Files.find (Str.stem imageDir +:+ "_A4.pdf") results
        = Some (Pdf [BlankPage])
     /\ console s' = console s)
  /\ (forall c, Files.find "_A4_" (files s) = Some (EFile c) ->
      MergeImagesAsPDFFile cfg host imageDir addPager pagerMemo verbose s
      = (Raise FileExistsError,
         {| files := files s; console := console s |})).
Proof.
  split.
  - intros Hfile Hnone. unfold artifact_pattern in Hnone.
    assert (exists (s1 : Store Directory) (results : Dir),
              on_files (mkdir_exist_ok "_A4_") s = (Ok tt, s1)
              /\ Files.find "_A4_" (files s1) = Some (ESub results)
              /\ glob_in imageDir "*_cropped_A4_*.png" (files s1) = []
              /\ console s1 = console s)
      as (s1 & results & Hmk & HA4 & Hglob & Hcon).
    { unfold on_files, mkdir_exist_ok.
      destruct (Files.find "_A4_" (files s)) as [[c|results]|] eqn:E.
      - now elim (Hfile c).
      - eexists. exists results. split; [reflexivity|]. simpl.
        split; [exact E|]. split; [exact Hnone | reflexivity].
      - eexists. exists []. split; [reflexivity|]. simpl.
        split; [apply FilesFacts.find_write_eq|]. split; [|reflexivity].
        unfold glob_in in *.
        destruct (String.eqb_spec "_A4_" imageDir) as [<-|Hne].
        + now rewrite FilesFacts.find_write_eq.
        + now rewrite FilesFacts.find_write_ne. }
    eexists. eexists. split; [|split; [|split]].
    + unfold MergeImagesAsPDFFile, bind. rewrite Hmk. unfold get at 1.
      rewrite Hglob. cbn [merge_pages]. unfold ret at 1.
      rewrite (in_dir_run _
                 (modify (Files.write (Str.stem imageDir +:+ "_A4.pdf")
                            (Pdf (FPDF_output []))))
                 s1 results _ (Ok tt) HA4 eq_refl).
      reflexivity.
    + simpl files. apply FilesFacts.find_write_eq.
    + apply FilesFacts.find_write_eq.
    + exact Hcon.
  - intros c Hc. unfold MergeImagesAsPDFFile, bind, on_files, mkdir_exist_ok.
    now rewrite Hc.
Qed.

Lemma MergeImagesAsPDFFile_edges_witness :
  (exists (s' : Store Directory) (results : Dir),
     MergeImagesAsPDFFile shipped Sample.windows "missing" true "" false
       Sample.rasterized
       = (Ok "missing_A4.pdf", s')
     /\ Files.find "_A4_" (files s') = Some (ESub results)
     /\ Files.find "missing_A4.pdf" results = Some (Pdf [BlankPage]))
  /\ MergeImagesAsPDFFile shipped Sample.windows "paper" true "" false
       {| files := [("_A4_", EFile Blob)]; console := [] |}
     = (Raise FileExistsError,
        {| files := [("_A4_", EFile Blob)]; console := [] |}).
Proof.
  split.
  - destruct (MergeImagesAsPDFFile_edges shipped Sample.windows "missing" true
                "" false Sample.rasterized) as [Hempty _].
    destruct Hempty as (s' & results & Hrun & HA4 & Hpdf & _).
    + intros c. vm_compute. discriminate.
    + reflexivity.
    + exists s', results. repeat split; assumption.
  - destruct (MergeImagesAsPDFFile_edges shipped Sample.windows "paper" true
                "" false {| files := [("_A4_", EFile Blob)]; console := [] |})
      as [_ Hblocked].
    apply (Hblocked Blob). reflexivity.
Defined.

(** ** What a processed document leaves behind *)






(** ** What is printed *)

Section Saying.

Variable cfg : Config.
Variable host : Host.
Variable P : Message -> Prop.
Variable verbose : bool.
Hypothesis quiet_mode : Debug_Mode cfg = false.
Hypothesis P_lines :
  forall m, is_page_line m = false -> is_progress_line m = false -> P m.
Hypothesis P_progress :
  verbose = true -> forall m, is_progress_line m = true -> P m.

Lemma says_ret {T A} (a : A) : says P (@ret (Store T) A a).
Proof. intros s H. exact H. Qed.

Lemma says_raise {T A} (e : Exn) : says P (@raise (Store T) A e).
Proof. intros s H. exact H. Qed.

Lemma says_bind {T A B} (c : M (Store T) A) (k : A -> M (Store T) B) :
  says P c -> (forall a, says P (k a)) -> says P (bind c k).
Proof.
  intros Hc Hk s H. unfold bind. specialize (Hc s H).
  destruct (c s) as [[a|e] s1]; simpl in *; [now apply Hk | exact Hc].
Qed.

Lemma says_get {T B} (k : Store T -> M (Store T) B) :
  (forall a, says P (k a)) -> says P (bind get k).
Proof. intros Hk s H. unfold bind, get. now apply Hk. Qed.

Lemma says_on_files {T A} (c : M T A) : says P (on_files c).
Proof.
  intros s H. unfold on_files. now destruct (c (files s)) as [r t'].
Qed.

Lemma says_for_each {T A} (xs : list A) (body : A -> M (Store T) unit) :
  (forall x, says P (body x)) -> says P (for_each xs body).
Proof.
  intros Hbody. induction xs as [|x xs IH]; simpl.
  - apply says_ret.
  - apply says_bind; [apply Hbody | intros _; exact IH].
Qed.

(** A line that is always printed. *)
Lemma says_loud {T} (text : Message) :
  is_page_line text = false -> is_progress_line text = false ->
  says P (@WriteText cfg T text true).
Proof.
  intros H1 H2 s H. rewrite WriteText_run, orb_true_r. simpl.
  apply List.Forall_app. split; [exact H|]. constructor; [|constructor].
  now apply P_lines.
Qed.

(** A line of progress, printed when [verbose] is set. *)
Lemma says_progress {T} (text : Message) :
  is_progress_line text = true -> says P (@WriteText cfg T text verbose).
Proof.
  intros H1 s H. rewrite WriteText_run, quiet_mode. simpl.
  destruct verbose eqn:E; [|exact H].
  apply List.Forall_app. split; [exact H|]. constructor; [|constructor].
  now apply P_progress.
Qed.

(** A line that is not printed outside the debug mode. *)
Lemma says_muted {T} (text : Message) : says P (@WriteText cfg T text false).
Proof. intros s H. rewrite WriteText_run, quiet_mode. exact H. Qed.

Lemma says_crop_page (outputDir : string) (cropMargins : Margins)
    (reverseLeftAndRight : bool) (imageFilename : string) :
  says P (crop_page cfg outputDir cropMargins reverseLeftAndRight verbose
            imageFilename).
Proof.
  unfold crop_page.
  destruct (Str.contains "_cropped" (Str.stem imageFilename)); [apply says_ret|].
  apply says_bind; [|intros a; now apply says_progress].
  destruct reverseLeftAndRight.
  - destruct (Str.python_int _) as [number|]; [|apply says_raise].
    destruct (number mod 2 =? 1); apply says_on_files.
  - apply says_on_files.
Qed.

Lemma says_merge_pages (imageDir : string) (addPager : bool) (pagerMemo : string)
    (totalPages : Z) (images : list string) :
  forall (pageNumber : Z) (pdf : list PdfPage),
    says P (merge_pages cfg host imageDir addPager pagerMemo false totalPages
              images pageNumber pdf).
Proof.
  induction images as [|n images IH]; intros pageNumber pdf; cbn [merge_pages].
  - apply says_ret.
  - apply says_bind.
    { destruct addPager; [|apply says_ret].
      apply says_bind; [apply says_on_files | intros a; apply says_ret]. }
    intros _. apply says_bind; [apply says_on_files|].
    intros placed. apply says_bind; [apply says_on_files|].
    intros img. apply says_bind; [apply says_muted|].
    intros _. apply IH.
Qed.

Lemma says_Merge (imageDir : string) (addPager : bool) (pagerMemo : string) :
  says P (MergeImagesAsPDFFile cfg host imageDir addPager pagerMemo false).
Proof.
  unfold MergeImagesAsPDFFile.
  apply says_bind; [apply says_on_files|].
  intros _. apply says_get. intros s.
  apply says_bind; [apply says_merge_pages|].
  intros pdf. apply says_bind; [apply says_on_files | intros _; apply says_ret].
Qed.

Lemma says_candidate (cropMargins : Margins)
    (include_pattern exclude_pattern : option (string -> bool))
    (reverseLeftAndRight showPager : bool) (pagerText : string)
    (counters : Z * Z) (pdfFilename : string) :
  says P (process_candidate cfg host cropMargins include_pattern exclude_pattern
            reverseLeftAndRight showPager pagerText verbose counters pdfFilename).
Proof.
  unfold process_candidate. destruct counters as [count ignore].
  destruct (Str.contains "_A4" (Str.stem pdfFilename)); [apply says_ret|].
  destruct (match include_pattern with
            | Some search => negb (search pdfFilename)
            | None => false
            end).
  { apply says_bind; [now apply says_loud | intros _; apply says_ret]. }
  destruct (match exclude_pattern with
            | Some search => search pdfFilename
            | None => false
            end).
  { apply says_bind; [now apply says_loud | intros _; apply says_ret]. }
  apply says_bind; [apply says_on_files|].
  intros outputDir. apply says_bind; [now apply says_progress|].
  intros _. apply says_get. intros s.
  apply says_bind; [apply says_for_each; intros x; apply says_crop_page|].
  intros _. apply says_bind; [apply says_Merge|].
  intros newPdfFilename. apply says_bind.
  { destruct (negb (Debug_Mode cfg)); [apply says_on_files | apply says_ret]. }
  intros _. apply says_bind; [now apply says_progress | intros _; apply says_ret].
Qed.

Lemma says_candidates (cropMargins : Margins)
    (include_pattern exclude_pattern : option (string -> bool))
    (reverseLeftAndRight showPager : bool) (pagerText : string)
    (pdfFiles : list string) :
  forall counters,
    says P (process_candidates cfg host cropMargins include_pattern
              exclude_pattern reverseLeftAndRight showPager pagerText verbose
              pdfFiles counters).
Proof.
  induction pdfFiles as [|f pdfFiles IH]; intros counters; cbn [process_candidates].
  - apply says_ret.
  - apply says_bind; [apply says_candidate | intros c; apply IH].
Qed.

Lemma says_directory (pdfDir : string) (cropMargins : Margins)
    (regexInFilenameIncluded regexInFilenameExcluded : string)
    (reverseLeftAndRight showPager : bool) (pagerText : string) :
  says P (process_directory cfg host pdfDir cropMargins regexInFilenameIncluded
            regexInFilenameExcluded reverseLeftAndRight showPager pagerText
            verbose).
Proof.
  unfold process_directory.
  apply says_bind; [now apply says_loud|]. intros _.
  apply says_bind.
  { destruct (0 <? String.length regexInFilenameIncluded)%nat;
      [now apply says_loud | apply says_ret]. }
  intros _. apply says_bind.
  { destruct (0 <? String.length regexInFilenameExcluded)%nat;
      [now apply says_loud | apply says_ret]. }
  intros _. apply says_get. intros s.
  assert (forall regex (k : option (string -> bool) -> M (Store Directory) unit),
            (forall p, says P (k p)) ->
            says P (bind (compile_if_given host regex) k)) as Hcompile.
  { intros regex k Hk. apply says_bind; [|exact Hk].
    unfold compile_if_given. destruct (0 <? String.length regex)%nat;
      [|apply says_ret].
    destruct (re_compile host regex); [apply says_ret | apply says_raise]. }
  apply Hcompile. intros include_pattern.
  apply Hcompile. intros exclude_pattern.
  apply says_bind; [apply says_candidates|].
  intros counters. now apply says_loud.
Qed.

Lemma says_ProcessPDFFiles (pdfDir : string) (cropMargins : Margins)
    (regexInFilenameIncluded regexInFilenameExcluded : string)
    (reverseLeftAndRight showPager : bool) (pagerText : string) :
  says P (ProcessPDFFiles cfg host pdfDir cropMargins regexInFilenameIncluded
            regexInFilenameExcluded reverseLeftAndRight showPager pagerText
            verbose).
Proof.
  intros w H. unfold ProcessPDFFiles.
  destruct (files w !! pdfDir) as [d|].
  - pose proof (says_directory pdfDir cropMargins regexInFilenameIncluded
                  regexInFilenameExcluded reverseLeftAndRight showPager
                  pagerText {| files := d; console := console w |} H) as K.
    now destruct (process_directory _ _ _ _ _ _ _ _ _ _ _) as [r s].
  - now apply says_loud.
Qed.

End Saying.

(** X13. The lines a run of [ProcessPDFFiles] writes with [WriteText].
    Outside the debug mode, [WriteText] never writes a line for a page of
    a result, whatever [verbose] is: the flag is not handed on to
    [MergeImagesAsPDFFile].  With [verbose] off as well, it writes no line
    for a step of the work on a document either: its lines are then the
    opening lines, the lines of the ignored documents and the closing
    line, or the line of the missing directory.  (The progress bar of
    [tqdm], which names the document in work whatever [verbose] is, is not
    written with [WriteText] and is no part of this statement.) *)
Theorem ProcessPDFFiles_console_lines (cfg : Config) (host : Host)
    (pdfDir : string) (cropMargins : Margins)
    (regexInFilenameIncluded regexInFilenameExcluded : string)
    (reverseLeftAndRight showPager : bool) (pagerText : string) (verbose : bool)
    (w : Store (gmap string Directory)) :
  Debug_Mode cfg = false ->
  console w = [] ->
  let printed := console (snd (ProcessPDFFiles cfg host pdfDir cropMargins
                                 regexInFilenameIncluded regexInFilenameExcluded
                                 reverseLeftAndRight showPager pagerText verbose
                                 w)) in
  List.Forall (fun m => is_page_line m = false) printed
  /\ (verbose = false ->
      List.Forall (fun m => is_page_line m = false
                            /\ is_progress_line m = false) printed).
Proof.
  intros Hquiet Hempty printed. subst printed. split.
  - apply (says_ProcessPDFFiles cfg host (fun m => is_page_line m = false)
             verbose Hquiet).
    + intros m H _. exact H.
    + intros _ m H. now destruct m.
    + rewrite Hempty. constructor.
  - intros ->.
    apply (says_ProcessPDFFiles cfg host
             (fun m => is_page_line m = false /\ is_progress_line m = false)
             false Hquiet).
    + intros m H1 H2. now split.
    + discriminate.
    + rewrite Hempty. constructor.
Qed.

Lemma ProcessPDFFiles_console_lines_witness :
  List.Forall (fun m => is_page_line m = false)
    (console (snd (ProcessPDFFiles shipped Sample.windows "exams"
                     Sample.margins_exam "" "" true true "" true Sample.disk))).
Proof.
  apply (ProcessPDFFiles_console_lines shipped Sample.windows "exams"
           Sample.margins_exam "" "" true true "" true Sample.disk).
  - reflexivity.
  - reflexivity.
Defined.

(** ** Failures before the work starts *)

(** X14. When a pattern given to [ProcessPDFFiles] does not compile, the
    run raises the error of the pattern after the opening lines (the line
    of the exclude pattern included, which is printed before the include
    pattern is compiled): no document is processed and the disk is left
    as it was. *)
Theorem ProcessPDFFiles_bad_pattern (cfg : Config) (host : Host)
    (pdfDir : string) (cropMargins : Margins)
    (regexInFilenameIncluded regexInFilenameExcluded : string)
    (reverseLeftAndRight showPager : bool) (pagerText : string) (verbose : bool)
    (w : Store (gmap string Directory)) (d : Directory) :
  files w !! pdfDir = Some d ->
  compiled host regexInFilenameIncluded = None
  \/ (compiled host regexInFilenameIncluded <> None
      /\ compiled host regexInFilenameExcluded = None) ->
  ProcessPDFFiles cfg host pdfDir cropMargins regexInFilenameIncluded
    regexInFilenameExcluded reverseLeftAndRight showPager pagerText verbose w
  = (Raise RegexError,
     {| files := files w;
        console := console (started pdfDir regexInFilenameIncluded
                              regexInFilenameExcluded
                              {| files := d; console := console w |}) |}).
Proof.
  intros Hdir Hbad. unfold ProcessPDFFiles. rewrite Hdir.
  assert (forall regex (s0 : Store Directory),
            compiled host regex = None ->
            compile_if_given host regex s0 = (Raise RegexError, s0)) as Hfail.
  { intros regex s0. unfold compiled, compile_if_given.
    destruct (0 <? String.length regex)%nat; [|discriminate].
    now destruct (re_compile host regex). }
  assert (forall regex (s0 : Store Directory),
            compiled host regex <> None ->
            exists p, compile_if_given host regex s0 = (Ok p, s0)) as Hok.
  { intros regex s0 H. destruct (compiled host regex) as [p|] eqn:E;
      [|congruence].
    exists p. now apply compile_if_given_run. }
  assert (forall (b : bool) (m : Message) (t : Store Directory),
            (if b then WriteText cfg m true else ret tt) t
            = (Ok tt, {| files := files t;
                         console := (console t ++ if b then [m] else [])%list |}))
    as Hopt.
  { intros b m [t con]. destruct b; unfold WriteText, modify, ret; simpl.
    - now rewrite orb_true_r.
    - now rewrite List.app_nil_r. }
  assert (process_directory cfg host pdfDir cropMargins regexInFilenameIncluded
            regexInFilenameExcluded reverseLeftAndRight showPager pagerText
            verbose {| files := d; console := console w |}
          = (Raise RegexError,
             started pdfDir regexInFilenameIncluded regexInFilenameExcluded
               {| files := d; console := console w |})) as Hrun.
  { unfold process_directory, bind, started.
    unfold WriteText at 1. rewrite orb_true_r. unfold modify at 1.
    cbv beta iota. rewrite !Hopt. unfold get. cbv beta iota.
    simpl files. simpl console. rewrite <- !List.app_assoc.
    destruct Hbad as [Hin|[Hin Hex]].
    - now rewrite (Hfail _ _ Hin).
    - destruct (Hok regexInFilenameIncluded
                  {| files := d;
                     console :=
                       (console w ++ [MsgStart pdfDir]
                        ++ (if (0 <? String.length regexInFilenameIncluded)%nat
                            then [MsgInclude regexInFilenameIncluded] else [])
                        ++ (if (0 <? String.length regexInFilenameExcluded)%nat
                            then [MsgExclude regexInFilenameExcluded] else []))%list |}
                  Hin) as [p Hp].
      rewrite Hp. now rewrite (Hfail _ _ Hex). }
  rewrite Hrun. simpl. now rewrite (insert_id _ _ _ Hdir).
Qed.

Lemma ProcessPDFFiles_bad_pattern_witness :
  ProcessPDFFiles shipped Sample.no_patterns
    "exams" Sample.margins_exam "(" "answers" true true "" false Sample.disk
  = (Raise RegexError,
     {| files := files Sample.disk;
        console := [MsgStart "exams"; MsgInclude "("; MsgExclude "answers"] |}).
Proof.
  apply (ProcessPDFFiles_bad_pattern shipped _ "exams" Sample.margins_exam
           "(" "answers" true true "" false Sample.disk
           [("paper.pdf", EFile Sample.one_page_pdf)]).
  - reflexivity.
  - left. reflexivity.
Defined.

(** X15. Where the variable [windir] is not set, [AddPageNumberIntoImage]
    raises [TypeError] on every image, before the test for the font that
    would lead to the plain caption, and writes nothing.  So with captions
    enabled, [MergeImagesAsPDFFile] over a folder whose first matched
    artifact is an image raises [TypeError] at its first page and writes
    no document: the folder of the results holds what it held, or is left
    empty if it had to be made. *)
Theorem captions_need_windir (cfg : Config) (host : Host)
    (imageDir pagerMemo : string) (verbose : bool) (s : Store Directory)
    (d : Dir) (n : string) (rest : list string) (img : Image) :
  windir host = None ->
  Pdf2Image_Default_Dpi cfg <> 0 ->
  Files.find n d = Some (Png img) ->
  (forall totalPages pageNumber,
     AddPageNumberIntoImage cfg host n totalPages pageNumber pagerMemo d
     = (Raise TypeError, d))
  /\ (Files.find imageDir (files s) = Some (ESub d) ->
      (forall c, Files.find "_A4_" (files s) <> Some (EFile c)) ->
      Files.glob artifact_pattern d = n :: rest ->
      exists s' : Store Directory,
        MergeImagesAsPDFFile cfg host imageDir true pagerMemo verbose s
        = (Raise TypeError, s')
        /\ folder_content "_A4_" (files s') = folder_content "_A4_" (files s)).
Proof.
  intros Hw Hdpi Himg.
  assert (forall totalPages pageNumber,
            AddPageNumberIntoImage cfg host n totalPages pageNumber pagerMemo d
            = (Raise TypeError, d)) as Hcap.
  { intros totalPages pageNumber. unfold AddPageNumberIntoImage, bind.
    rewrite (Image_open_png _ _ _ Himg).
    destruct (Z.eqb_spec (Pdf2Image_Default_Dpi cfg) 0); [contradiction|].
    now rewrite Hw. }
  split; [exact Hcap|].
  intros Hdir Hfile Hglob.
  assert (exists s1 : Store Directory,
            on_files (mkdir_exist_ok "_A4_") s = (Ok tt, s1)
            /\ Files.find imageDir (files s1) = Some (ESub d)
            /\ folder_content "_A4_" (files s1) = folder_content "_A4_" (files s))
    as (s1 & Hmk & Hdir1 & Hres1).
  { unfold on_files, mkdir_exist_ok, folder_content.
    destruct (Files.find "_A4_" (files s)) as [[c|results]|] eqn:E.
    - now elim (Hfile c).
    - eexists. split; [reflexivity|]. simpl. split; [exact Hdir|].
      now rewrite E.
    - eexists. split; [reflexivity|]. simpl. split.
      + rewrite FilesFacts.find_write_ne; [exact Hdir|].
        intros E'. rewrite <- E' in Hdir. congruence.
      + now rewrite FilesFacts.find_write_eq. }
  eexists. split.
  - unfold MergeImagesAsPDFFile, bind. rewrite Hmk. unfold get at 1.
    unfold glob_in. rewrite Hdir1. fold artifact_pattern. rewrite Hglob.
    cbn [merge_pages]. unfold bind at 1. unfold bind at 1.
    rewrite (in_dir_run _ _ _ _ _ _ Hdir1 (Hcap _ _)). reflexivity.
  - simpl files. rewrite <- Hres1. unfold folder_content.
    destruct (String.eqb_spec imageDir "_A4_") as [->|Hne].
    + now rewrite FilesFacts.find_write_eq, Hdir1.
    + now rewrite FilesFacts.find_write_ne.
Qed.

Lemma captions_need_windir_witness :
  exists s' : Store Directory,
    MergeImagesAsPDFFile shipped Sample.no_windir
      "paper" true "" false Sample.left_first
    = (Raise TypeError, s')
    /\ folder_content "_A4_" (files s') = [].
Proof.
  destruct (captions_need_windir shipped Sample.no_windir
              "paper" "" false Sample.left_first
              [("01_cropped_A4_01.png", Png (Sample.blank 1340 3680));
               ("01_cropped_A4_02.png", Png (Sample.blank 1340 3680))]
              "01_cropped_A4_01.png" ["01_cropped_A4_02.png"]
              (Sample.blank 1340 3680)) as [_ Hmerge].
  - reflexivity.
  - vm_compute. discriminate.
  - reflexivity.
  - destruct Hmerge as (s' & Hrun & Hres).
    + reflexivity.
    + intros c. vm_compute. discriminate.
    + reflexivity.
    + exists s'. split; [exact Hrun | exact Hres].
Defined.

(** ** The settings and the host, case by case *)


(** X17. [CropImageFile] reads the DPI setting only through the ratio
    300 // DPI.  For every setting above 150 and up to 300 the ratio is
    1, so the margins are taken as raw pixels exactly as at 300, with no
    scaling to the resolution; for a setting of zero the ratio itself
    divides by zero and every page image raises [ZeroDivisionError]. *)
Theorem CropImageFile_ratio_steps (cfg : Config) (d : Dir)
    (imageFilename : string)
    (leftMargin topMargin rightMargin bottomMargin : Z) :
  (150 < Pdf2Image_Default_Dpi cfg <= 300 ->
   CropImageFile cfg imageFilename leftMargin topMargin rightMargin bottomMargin d
   = CropImageFile shipped imageFilename
       leftMargin topMargin rightMargin bottomMargin d)
  /\ (Pdf2Image_Default_Dpi cfg = 0 ->
      forall img, Files.find imageFilename d = Some (Png img) ->
        CropImageFile cfg imageFilename
          leftMargin topMargin rightMargin bottomMargin d
        = (Raise ZeroDivisionError, d)).
Proof.
  split.
  - intros Hdpi.
    assert (floordiv 300 (Pdf2Image_Default_Dpi cfg) = Ok 1) as Hratio.
    { unfold floordiv.
      destruct (Z.eqb_spec (Pdf2Image_Default_Dpi cfg) 0); [lia|].
      f_equal. symmetry. apply Z.div_unique with (300 - Pdf2Image_Default_Dpi cfg).
      - left. lia.
      - lia. }
    unfold CropImageFile. now rewrite Hratio.
  - intros Hdpi img Hf. unfold CropImageFile, bind.
    rewrite (Image_open_png _ _ _ Hf). unfold lift, floordiv.
    now rewrite Hdpi.
Qed.

Lemma CropImageFile_ratio_steps_witness :
  CropImageFile {| Debug_Mode := false; Pdf2Image_Default_Dpi := 200 |}
    "01.png" 160 160 160 160 Sample.one_page
  = CropImageFile shipped "01.png" 160 160 160 160 Sample.one_page
  /\ CropImageFile {| Debug_Mode := false; Pdf2Image_Default_Dpi := 0 |}
       "01.png" 160 160 160 160 Sample.one_page
     = (Raise ZeroDivisionError, Sample.one_page).
Proof.
  split.
  - destruct (CropImageFile_ratio_steps
                {| Debug_Mode := false; Pdf2Image_Default_Dpi := 200 |}
                Sample.one_page "01.png" 160 160 160 160) as [H _].
    apply H. simpl. lia.
  - destruct (CropImageFile_ratio_steps
                {| Debug_Mode := false; Pdf2Image_Default_Dpi := 0 |}
                Sample.one_page "01.png" 160 160 160 160) as [_ H].
    apply (H eq_refl (Sample.blank 3000 4000)). reflexivity.
Defined.


Lemma CropImageFile_keeps_its_input_witness :
  Files.find "01.png"
    (snd (CropImageFile shipped "01.png" 160 160 160 160 Sample.one_page))
  = Some (Png (Sample.blank 3000 4000)).
Proof.
  exact (proj1 (CropImageFile_keeps_its_input shipped Sample.one_page "01.png"
                  160 160 160 160)).
Defined.
